(** * qri: sync client, acquisition coordinator, dataset requests, config export

  A shallow embedding of
    - [remote/client.go]   (package remote: the sync client),
    - [actions/dataset.go] (package actions: [AddDataset], [SaveDataset]),
    - the dataset requests of package lib,
    - [LoadConfig], [SaveConfig] and [GetConfig] of package core,
    - the server of package api: [Serve], the routes, the RPC and the
      websocket listeners, the IPFS and IPNS handlers,
  together with the properties the specification states about them and
  further properties read off the code.

  Go code is embedded as follows.  A function that returns [error] becomes a
  function into a trace of external events and an optional error; a pointer
  argument that the callee writes through is passed in and handed back;
  goroutines are explicit tasks stepped by a schedule.  External
  collaborators (crypto keys, multihash, the dsync and logsync packages,
  net/http, the repo) are records of functions, so every statement holds for
  every behaviour of the collaborator. *)

From stdpp Require Import base strings gmap list pretty.
From Stdlib Require Import ZArith.
From Stdlib.Strings Require Import Byte.

Open Scope string_scope.
Open Scope list_scope.

(** ** Go values shared by all packages *)
Module Go.

(** Identity of an [error] value.  Go compares errors by identity
    ([err == repo.ErrNotFound]); the package-level sentinels the sources
    compare against or return are listed, everything else is [Anon]. *)
Inductive errid :=
| NoRemoteClient   (* remote.ErrNoRemoteClient *)
| NotFound         (* repo.ErrNotFound *)
| NoHistory        (* repo.ErrNoHistory *)
| NoLogbook        (* logbook.ErrNoLogbook *)
| Anon.            (* a value built by fmt.Errorf or by a collaborator *)

#[global] Instance errid_eq_dec : EqDecision errid.
Proof. solve_decision. Defined.

Record error := MkErr { eid : errid; Error : string }.

#[global] Instance error_eq_dec : EqDecision error.
Proof. solve_decision. Defined.

(** [fmt.Errorf]: a fresh error carrying the formatted message. *)
Definition Errorf (msg : string) : error := MkErr Anon msg.

Inductive result (A : Type) :=
| Ok (a : A)
| Err (e : error).
Arguments Ok {A} a.
Arguments Err {A} e.

(** A [context.Context], as seen by a callee: has it been cancelled? *)
Definition Context := bool.

(** [log.Debugf] and [log.Errorf] *)
Inductive level := DebugLevel | ErrorLevel.

End Go.
Export Go.

(** ** net/url and net/http, as far as the client uses them *)
Module Url.

(** [url.URL].  [RawQuery] is kept parsed: [u.Query()] followed by
    [u.RawQuery = q.Encode()] is a map update. *)
Record URL := {
  Scheme : string;
  Host : string;
  Path : string;
  RawQuery : gmap string (list string)
}.

Definition setPath (u : URL) (p : string) : URL :=
  {| Scheme := Scheme u; Host := Host u; Path := p; RawQuery := RawQuery u |}.

Definition setRawQuery (u : URL) (q : gmap string (list string)) : URL :=
  {| Scheme := Scheme u; Host := Host u; Path := Path u; RawQuery := q |}.

(** [url.Values.Set] *)
Definition Values_Set (q : gmap string (list string)) (key val : string)
  : gmap string (list string) :=
  <[key := [val]]> q.

End Url.

Module Http.

(** A response: its status, the bytes [ioutil.ReadAll(res.Body)] yields and
    the error of that read. *)
Record Response := {
  StatusCode : Z;
  Body : string;
  ReadErr : option error
}.

Definition StatusOK : Z := 200.

End Http.

(** ** repo.DatasetRef, dsref.Ref and dataset.Dataset

  The declarations live in packages outside the sources at hand; the
  records carry the fields the sources read and write. *)
Module Repo.

Record Commit := { Title : string; Message : string; Timestamp : Z }.

Record Dataset_ := {
  dsName : string;
  dsPeername : string;
  dsPath : string;
  dsPreviousPath : string;
  dsCommit : option Commit
}.

Record DatasetRef := {
  Peername : string;
  ProfileID : string;
  Name : string;
  Path : string;
  FSIPath : string;
  Published : bool;
  Dataset : option Dataset_
}.

Definition setDataset (r : DatasetRef) (d : option Dataset_) : DatasetRef :=
  {| Peername := Peername r; ProfileID := ProfileID r; Name := Name r;
     Path := Path r; FSIPath := FSIPath r; Published := Published r;
     Dataset := d |}.

Definition setFSIPath (r : DatasetRef) (p : string) : DatasetRef :=
  {| Peername := Peername r; ProfileID := ProfileID r; Name := Name r;
     Path := Path r; FSIPath := p; Published := Published r;
     Dataset := Dataset r |}.

(** The zero value of the struct. *)
Definition zeroRef : DatasetRef :=
  {| Peername := ""; ProfileID := ""; Name := ""; Path := ""; FSIPath := "";
     Published := false; Dataset := None |}.

(** [dsref.Ref] *)
Record Ref := {
  Username : string;
  RName : string;
  RProfileID : string;
  RPath : string
}.

End Repo.

(** ** External events and the trace monad *)
Module Trace.
Import Repo.

(** Arguments of a log call, kept unformatted. *)
Inductive logArg :=
| AStr (s : string)
| AInt (z : Z)
| AErr (e : error)
| AAlias (r : Ref)            (* ref.Alias() *)
| ARefString (r : DatasetRef). (* ref.String() *)

(** The three exchanges of logsync. *)
Inductive logOp := LogPull | LogPush | LogRemove.

(** The sources [AddDataset] can fetch from: the remote (registry) a client
    is configured for, and the peer-to-peer network. *)
Inductive source := Registry | P2P.

#[global] Instance source_eq_dec : EqDecision source.
Proof. solve_decision. Defined.

(** What leaves the process, in program order. *)
Inductive event :=
| EvLog (l : level) (format : string) (args : list logArg)
| EvPrint (msg : string)
| EvLogsync (op : logOp) (transport : string) (ctx : Context) (ref : Ref)
    (remoteAddr : string)
| EvDsyncPush (ctx : Context) (path remoteAddr : string)
    (pinOnComplete : bool) (meta : gmap string string)
| EvDsyncPull (ctx : Context) (path remoteAddr : string)
    (meta : gmap string string)
| EvHTTP (ctx : Context) (method : string) (u : Url.URL)
| EvFetchDataset (ctx : Context) (ref : DatasetRef)
| EvPin (ctx : Context) (path : string) (recursive : bool)
| EvResolveDatasetRef (ref : DatasetRef) (remoteAddr : string)
| EvRecv (s : source) (err : option error)  (* res := <-responses *)
| EvCancel                                  (* cancelFetch() *)
| EvRPC (method : string)                   (* r.cli.Call(method, ...) *)
| EvCall (fn : string) (args : list logArg). (* a call into another package *)

(** Code that emits events and then returns a value or an error. *)
Definition M (A : Type) : Type := list event * result A.

#[global] Instance M_ret : MRet M := λ A a, ([], Ok a).

#[global] Instance M_bind : MBind M := λ A B f m,
  match m.2 with
  | Ok a => (m.1 ++ (f a).1, (f a).2)
  | Err e => (m.1, Err e)
  end.

Definition emit (e : event) : M unit := ([e], Ok tt).

Definition fail {A} (e : error) : M A := ([], Err e).

(** A fallible call with no event of its own. *)
Definition lift {A} (r : result A) : M A := ([], r).

(** A Go [error] return value: [nil] is success. *)
Definition liftErr (e : option error) : M unit :=
  match e with
  | None => ([], Ok tt)
  | Some e => ([], Err e)
  end.

(** Code that also writes through a pointer to a [Σ]: the final [Σ] is
    there whether or not an error is returned. *)
Definition MS (Σ A : Type) : Type := Σ → list event * Σ * result A.

#[global] Instance MS_ret {Σ} : MRet (MS Σ) := λ A a σ, ([], σ, Ok a).

#[global] Instance MS_bind {Σ} : MBind (MS Σ) := λ A B f m σ,
  match m σ with
  | (t, σ', Ok a) =>
      match f a σ' with
      | (t', σ'', r) => (t ++ t', σ'', r)
      end
  | (t, σ', Err e) => (t, σ', Err e)
  end.

Definition modify {Σ} (f : Σ → Σ) : MS Σ unit := λ σ, ([], f σ, Ok tt).

Definition get {Σ} : MS Σ Σ := λ σ, ([], σ, Ok σ).

Definition emitS {Σ} (e : event) : MS Σ unit := λ σ, ([e], σ, Ok tt).

Definition failS {Σ A} (e : error) : MS Σ A := λ σ, ([], σ, Err e).

Definition liftS {Σ A} (r : result A) : MS Σ A := λ σ, ([], σ, r).

Definition liftErrS {Σ} (e : option error) : MS Σ unit := λ σ,
  match e with
  | None => ([], σ, Ok tt)
  | Some e => ([], σ, Err e)
  end.

(** Run code that writes through no pointer. *)
Definition liftM {Σ A} (m : M A) : MS Σ A := λ σ, (m.1, σ, m.2).

(** The error a Go caller receives from [MS] code. *)
Definition returnedS {Σ A} (x : list event * Σ * result A) : option error :=
  match x.2 with
  | Ok _ => None
  | Err e => Some e
  end.

(** The error a Go caller receives. *)
Definition returned {A} (m : M A) : option error :=
  match m.2 with
  | Ok _ => None
  | Err e => Some e
  end.

End Trace.

(** ** Package remote: [remote/client.go] *)
Module Remote.
Import Repo Trace.

#[global] Instance result_ret : MRet result := λ A a, Ok a.

#[global] Instance result_bind : MBind result := λ A B f r,
  match r with
  | Ok a => f a
  | Err e => Err e
  end.

(** [crypto.PrivKey] is an interface; a key is the pair of methods the client
    calls on it.  [GetPublic_Bytes] is [privKey.GetPublic().Bytes()]. *)
Record PrivKey := {
  GetPublic_Bytes : result (list byte);
  Sign : list byte → result (list byte)
}.

(** [Client].  The [ds], [logsync], [capi] and [node] fields are handles to
    collaborators; what those do is part of the [World] below. *)
Record Client := { pk : PrivKey }.

(** [ErrNoRemoteClient] *)
Definition ErrNoRemoteClient : error :=
  MkErr NoRemoteClient "remote: no client to make remote requests".

(** [multihash.SHA2_256] *)
Definition SHA2_256 : Z := 18.

(** The collaborators of the client. *)
Record World := {
  (** [time.Now().In(time.UTC).Unix()] *)
  time_Now_Unix : Z;
  multihash_Sum : list byte → Z → Z → result (list byte);
  B58String : list byte → string;
  base64_EncodeToString : list byte → string;
  (** [profile.ID.String] *)
  ProfileID_String : string → string;
  (** the multihash check [peer.IDB58Decode] runs on the decoded digits *)
  peer_Cast : string → result string;
  url_Parse : string → result Url.URL;
  http_NewRequest : string → Url.URL → option error;
  http_Do : Context → string → Url.URL → result Http.Response;
  (** [json.NewDecoder(body).Decode(ref)]: what [*ref] holds afterwards, and
      the error *)
  json_Decode : Http.Response → DatasetRef → DatasetRef * option error;
  dsync_NewPush : string → string → bool → option error;
  dsync_PushDo :
    Context → string → string → bool → gmap string string → option error;
  dsync_NewPull : string → string → gmap string string → option error;
  dsync_PullDo : Context → string → string → gmap string string → option error;
  (** the outcome of a logsync exchange over the chosen transport *)
  logsync_Do : logOp → string → Context → Ref → string → option error
}.

(** The base58 alphabet of [peer.IDB58Decode]. *)
Definition b58Alphabet : list Ascii.ascii :=
  String.list_ascii_of_string
    "123456789ABCDEFGHJKLMNPQRSTUVWXYZabcdefghijkmnopqrstuvwxyz".

Definition isB58 (s : string) : bool :=
  forallb (λ c, existsb (Ascii.eqb c) b58Alphabet)
    (String.list_ascii_of_string s).

Section WithWorld.
Variable w : World.

(** [peer.IDB58Decode]: a digit outside the alphabet is an error, otherwise
    the decoded bytes must form a multihash. *)
Definition IDB58Decode (s : string) : result string :=
  if isB58 s then peer_Cast w s else Err (Errorf "invalid base58 digit").

Definition addressType (remoteAddr : string) : string :=
  match IDB58Decode remoteAddr with
  | Ok _ => "p2p"
  | Err _ => if String.prefix "http" remoteAddr then "http" else ""
  end.

(** Modelled from the spec: package logbook/logsync is not among the sources.
    It picks the transport by parsing the address it is handed: "a valid
    peer-network identifier selects that transport; an address with an
    HTTP-style prefix selects HTTP; anything else is an unrecognized-address
    error". *)
Definition logsync_remoteClient (remoteAddr : string) : result string :=
  match IDB58Decode remoteAddr with
  | Ok _ => Ok "p2p"
  | Err _ =>
      if String.prefix "http" remoteAddr then Ok "http"
      else Err (Errorf ("unrecognized address: " +:+ remoteAddr))
  end.

(** Modelled from the spec: [logsync.NewPull], [NewPush] followed by [Do], and
    [DoRemove]: select the transport, then run the exchange over it. *)
Definition logsync_run (op : logOp) (ctx : Context) (ref : Ref)
    (remoteAddr : string) : M unit :=
  t ← lift (logsync_remoteClient remoteAddr);
  emit (EvLogsync op t ctx ref remoteAddr);;
  liftErr (logsync_Do w op t ctx ref remoteAddr).

Definition PullLogs (c : option Client) (ctx : Context) (ref : Ref)
    (remoteAddr : string) : M unit :=
  match c with
  | None => fail ErrNoRemoteClient
  | Some c =>
      let remoteAddr :=
        if bool_decide (addressType remoteAddr = "http")
        then remoteAddr +:+ "/remote/logsync" else remoteAddr in
      emit (EvLog DebugLevel "fetching logs for %s from %s"
              [AAlias ref; AStr remoteAddr]);;
      logsync_run LogPull ctx ref remoteAddr
  end.

Definition PushLogs (c : option Client) (ctx : Context) (ref : Ref)
    (remoteAddr : string) : M unit :=
  match c with
  | None => fail ErrNoRemoteClient
  | Some c =>
      let remoteAddr :=
        if bool_decide (addressType remoteAddr = "http")
        then remoteAddr +:+ "/remote/logsync" else remoteAddr in
      emit (EvLog DebugLevel "pushing logs for %s from %s"
              [AAlias ref; AStr remoteAddr]);;
      logsync_run LogPush ctx ref remoteAddr
  end.

Definition RemoveLogs (c : option Client) (ctx : Context) (ref : Ref)
    (remoteAddr : string) : M unit :=
  match c with
  | None => fail ErrNoRemoteClient
  | Some c =>
      let remoteAddr :=
        if bool_decide (addressType remoteAddr = "http")
        then remoteAddr +:+ "/remote/logsync" else remoteAddr in
      emit (EvLog DebugLevel "deleting logs for %s from %s"
              [AAlias ref; AStr remoteAddr]);;
      logsync_run LogRemove ctx ref remoteAddr
  end.

Definition calcProfileID (privKey : PrivKey) : result string :=
  match GetPublic_Bytes privKey with
  | Err e => Err (Errorf ("error getting pubkey bytes: " +:+ Error e))
  | Ok pubkeybytes =>
      match multihash_Sum w pubkeybytes SHA2_256 32 with
      | Err e => Err (Errorf ("error summing pubkey: " +:+ Error e))
      | Ok mh => Ok (B58String w mh)
      end
  end.

Definition signString (privKey : PrivKey) (str : string) : result string :=
  match Sign privKey (String.list_byte_of_string str) with
  | Err e => Err (Errorf ("error signing " +:+ Error e))
  | Ok sigbytes => Ok (base64_EncodeToString w sigbytes)
  end.

Definition requestSigningString (timestamp peerID cidStr : string) : string :=
  timestamp +:+ "." +:+ peerID +:+ "." +:+ cidStr.

Definition sigParams (pk : PrivKey) (ref : DatasetRef)
  : result (gmap string string) :=
  pid ← calcProfileID pk;
  let now := pretty (time_Now_Unix w) in
  let rss := requestSigningString now pid (Path ref) in
  b64Sig ← signString pk rss;
  mret (list_to_map [
    ("peername", Peername ref);
    ("name", Name ref);
    ("profileID", ProfileID_String w (ProfileID ref));
    ("path", Path ref);
    ("pid", pid);
    ("timestamp", now);
    ("signature", b64Sig)
  ] : gmap string string).

(** [PushDataset].  The goroutine started before [push.Do] only prints the
    progress updates of the push and stops on [ctx.Done()]; it takes no part
    in the request and is left out of the trace. *)
Definition PushDataset (c : option Client) (ctx : Context) (ref : DatasetRef)
    (remoteAddr : string) : M unit :=
  match c with
  | None => fail ErrNoRemoteClient
  | Some c =>
      let remoteAddr :=
        if bool_decide (addressType remoteAddr = "http")
        then remoteAddr +:+ "/remote/dsync" else remoteAddr in
      emit (EvLog DebugLevel "pushing dataset %s to %s"
              [AStr (Path ref); AStr remoteAddr]);;
      liftErr (dsync_NewPush w (Path ref) remoteAddr true);;
      params ← lift (sigParams (pk c) ref);
      (* push.SetMeta(params) *)
      emit (EvDsyncPush ctx (Path ref) remoteAddr true params);;
      liftErr (dsync_PushDo w ctx (Path ref) remoteAddr true params)
  end.

(** [resolveHeadRefHTTP] writes through [ref]: the result carries the trace,
    the final [*ref] and the returned error. *)
Definition resolveHeadRefHTTP (ctx : Context) (ref : DatasetRef)
    (remoteAddr : string) : list event * DatasetRef * option error :=
  match url_Parse w remoteAddr with
  | Err e => ([], ref, Some e)
  | Ok u =>
      let u := Url.setPath u "/remote/refs" in
      let q := Url.RawQuery u in
      let q := Url.Values_Set q "peername" (Peername ref) in
      let q := Url.Values_Set q "name" (Name ref) in
      let u := Url.setRawQuery u q in
      match http_NewRequest w "GET" u with
      | Some e => ([], ref, Some e)
      | None =>
          match http_Do w ctx "GET" u with
          | Err e => ([EvHTTP ctx "GET" u], ref, Some e)
          | Ok res =>
              if bool_decide (Http.StatusCode res ≠ Http.StatusOK) then
                ([EvHTTP ctx "GET" u], ref,
                 Some (Errorf ("resolving dataset ref from remote failed: "
                               +:+ Http.Body res)))
              else
                let r := json_Decode w res ref in
                ([EvHTTP ctx "GET" u], r.1, r.2)
          end
      end
  end.

(** [for key, val := range params { q.Set(key, val) }] *)
Definition setAll (params : gmap string string)
    (q : gmap string (list string)) : gmap string (list string) :=
  map_fold (λ key val q, Url.Values_Set q key val) q params.

Definition removeDatasetHTTP (ctx : Context) (params : gmap string string)
    (remoteAddr : string) : M unit :=
  match url_Parse w remoteAddr with
  | Err e => fail e
  | Ok u =>
      let u := Url.setPath u "/remote/refs" in
      let q := setAll params (Url.RawQuery u) in
      let u := Url.setRawQuery u q in
      match http_NewRequest w "DELETE" u with
      | Some e => fail e
      | None =>
          emit (EvHTTP ctx "DELETE" u);;
          res ← lift (http_Do w ctx "DELETE" u);
          if bool_decide (Http.StatusCode res ≠ Http.StatusOK) then
            (match Http.ReadErr res with
             | None => emit (EvLog ErrorLevel "HTTP server remove error response: "
                               [AStr (Http.Body res)])
             | Some _ => mret tt
             end);;
            fail (Errorf "failed to remove dataset from remote")
          else mret tt
      end
  end.

Definition ResolveHeadRef (c : option Client) (ctx : Context)
    (ref : DatasetRef) (remoteAddr : string)
  : list event * DatasetRef * option error :=
  match c with
  | None => ([], ref, Some ErrNoRemoteClient)
  | Some c =>
      if bool_decide (addressType remoteAddr = "http")
      then resolveHeadRefHTTP ctx ref remoteAddr
      else ([], ref,
            Some (Errorf
                    "dataset name resolution currently only works over HTTP"))
  end.

(** [PullDataset] writes through [ref] when it has to resolve the head. *)
Definition PullDataset (c : option Client) (ctx : Context) (ref : DatasetRef)
    (remoteAddr : string) : list event * DatasetRef * option error :=
  match c with
  | None => ([], ref, Some ErrNoRemoteClient)
  | Some c =>
      let t0 := [EvLog DebugLevel "pulling dataset: %s from %s"
                   [ARefString ref; AStr remoteAddr]] in
      let '(t1, ref, resolveErr) :=
        if bool_decide (Path ref = "")
        then ResolveHeadRef (Some c) ctx ref remoteAddr
        else ([], ref, None) in
      match resolveErr with
      | Some err =>
          (t0 ++ t1 ++ [EvLog ErrorLevel "resolving head ref: %s"
                          [AStr (Error err)]], ref, Some err)
      | None =>
          match sigParams (pk c) ref with
          | Err err =>
              (t0 ++ t1 ++ [EvLog ErrorLevel "generating sig params: " [AErr err]],
               ref, Some err)
          | Ok params =>
              let addr := remoteAddr +:+ "/remote/dsync" in
              match dsync_NewPull w (Path ref) addr params with
              | Some err =>
                  (t0 ++ t1 ++ [EvLog ErrorLevel "creating pull: " [AErr err]],
                   ref, Some err)
              | None =>
                  (t0 ++ t1 ++ [EvDsyncPull ctx (Path ref) addr params],
                   ref, dsync_PullDo w ctx (Path ref) addr params)
              end
          end
      end
  end.

Definition RemoveDataset (c : option Client) (ctx : Context)
    (ref : DatasetRef) (remoteAddr : string) : M unit :=
  match c with
  | None => fail ErrNoRemoteClient
  | Some c =>
      emit (EvLog DebugLevel "requesting remove dataset %s from remote %s"
              [AStr (Path ref); AStr remoteAddr]);;
      params ← lift (sigParams (pk c) ref);
      if bool_decide (addressType remoteAddr = "http")
      then removeDatasetHTTP ctx params remoteAddr
      else fail (Errorf
                   "dataset remove requests currently only work over HTTP")
  end.

End WithWorld.
End Remote.

(** ** Package actions: [AddDataset] of [actions/dataset.go] *)
Module Actions.
Import Repo Trace.

(** [p2p.QriNode], as far as [AddDataset] reads it.  [Pinner] is the method
    of [node.Repo.Store()] when the store implements [cafs.Pinner]. *)
Record QriNode := {
  Online : bool;
  Pinner : option (Context → string → bool → option error)
}.

(** The collaborators of [AddDataset]; [R] is the state of [node.Repo]. *)
Record World (R : Type) := {
  remote : Remote.World;
  (** [repo.DatasetRef.Complete] *)
  Complete : DatasetRef → bool;
  (** [ResolveDatasetRef]: what [*ref] holds afterwards, and the error *)
  ResolveDatasetRef :
    Context → option Remote.Client → string → DatasetRef
    → DatasetRef * option error;
  (** [base.FetchDataset(ctx, repo, ref, true, true)], likewise *)
  FetchDataset : Context → DatasetRef → DatasetRef * option error;
  GetRef : R → DatasetRef → result DatasetRef;
  PutRef : R → DatasetRef → R * option error;
  (** [dsfs.LoadDataset(ctx, node.Repo.Store(), path)] *)
  LoadDataset : Context → string → result Dataset_;
  (** the recency rule that decides which of two versions wins:
      [moreRecent fetched existing] *)
  moreRecent : DatasetRef → DatasetRef → bool
}.
Arguments remote {R} _.
Arguments Complete {R} _ _.
Arguments ResolveDatasetRef {R} _ _ _ _ _.
Arguments FetchDataset {R} _ _ _.
Arguments GetRef {R} _ _ _.
Arguments PutRef {R} _ _ _.
Arguments LoadDataset {R} _ _ _.
Arguments moreRecent {R} _ _ _.

(** A goroutine started by [AddDataset]. *)
Inductive task :=
| Running                        (* the fetch has not returned *)
| Fetched                        (* registry only: pulled, not yet pinned *)
| Sending (Error : option error) (* blocked in [responses <- res] *)
| Done.                          (* the coordinator took the response *)

(** The variables the coordinator and its goroutines share. *)
Record AddSt := {
  cancelled : bool;          (* fetchCtx is done *)
  ref : DatasetRef;          (* *ref *)
  refCopy : DatasetRef;      (* *refCopy *)
  registry : option task;    (* None: not started *)
  p2p : option task;
  i : nat;
  err : option error;
  success : bool;
  trace : list event
}.

Definition tasks (st : AddSt) : nat :=
  match registry st with Some _ => 1 | None => 0 end
  + match p2p st with Some _ => 1 | None => 0 end.

Definition taskOf (s : source) (st : AddSt) : option task :=
  match s with
  | Registry => registry st
  | P2P => p2p st
  end.

Definition setTask (s : source) (t : task) (st : AddSt) : AddSt :=
  {| cancelled := cancelled st; ref := ref st; refCopy := refCopy st;
     registry := match s with Registry => Some t | P2P => registry st end;
     p2p := match s with Registry => p2p st | P2P => Some t end;
     i := i st; err := err st; success := success st; trace := trace st |}.

Definition setRef (r : DatasetRef) (st : AddSt) : AddSt :=
  {| cancelled := cancelled st; ref := r; refCopy := refCopy st;
     registry := registry st; p2p := p2p st;
     i := i st; err := err st; success := success st; trace := trace st |}.

Definition setRefCopy (r : DatasetRef) (st : AddSt) : AddSt :=
  {| cancelled := cancelled st; ref := ref st; refCopy := r;
     registry := registry st; p2p := p2p st;
     i := i st; err := err st; success := success st; trace := trace st |}.

Definition log (t : list event) (st : AddSt) : AddSt :=
  {| cancelled := cancelled st; ref := ref st; refCopy := refCopy st;
     registry := registry st; p2p := p2p st;
     i := i st; err := err st; success := success st;
     trace := trace st ++ t |}.

(** [err = res.Error] with no success: the loop goes on, [i++]. *)
Definition recvError (e : error) (st : AddSt) : AddSt :=
  {| cancelled := cancelled st; ref := ref st; refCopy := refCopy st;
     registry := registry st; p2p := p2p st;
     i := S (i st); err := Some e; success := success st; trace := trace st |}.

(** [cancelFetch(); success = true; *ref = *res.Ref; break] *)
Definition recvSuccess (s : source) (st : AddSt) : AddSt :=
  {| cancelled := true;
     ref := match s with Registry => refCopy st | P2P => ref st end;
     refCopy := refCopy st;
     registry := registry st; p2p := p2p st;
     i := i st; err := None; success := true;
     trace := trace st ++ [EvCancel] |}.

(** One atomic step of a goroutine or of the coordinator. *)
Inductive action :=
| Run (s : source)    (* the goroutine of [s] advances *)
| Recv (s : source).  (* the coordinator receives the response of [s] *)

(** The coordinator has left its loop. *)
Definition finished (st : AddSt) : bool :=
  success st || bool_decide (i st = tasks st).

Definition newline : string := String (Ascii.ascii_of_nat 10) "".

Section WithWorld.
Context {R : Type}.
Variable w : World R.
Variable node : QriNode.
Variable rc : option Remote.Client.
Variable remoteAddr : string.

(** The goroutine of a source advances by one external call.  It reads the
    shared context at that moment.  A step that is not enabled leaves the
    state as it is. *)
Definition runTask (s : source) (st : AddSt) : AddSt :=
  match s, taskOf s st with
  | Registry, Some Running =>
      let '(t, ref', e) :=
        Remote.PullDataset (remote w) rc (cancelled st) (refCopy st)
          remoteAddr in
      let st := log t (setRefCopy ref' st) in
      match e with
      | Some err => setTask Registry (Sending (Some err)) st
      | None =>
          let st := log [EvPrint ("🗼 fetched from registry" +:+ newline)] st in
          match Pinner node with
          | Some _ => setTask Registry Fetched st
          | None => setTask Registry (Sending None) st
          end
      end
  | Registry, Some Fetched =>
      match Pinner node with
      | Some pin =>
          let e := pin (cancelled st) (Path (refCopy st)) true in
          setTask Registry (Sending e)
            (log [EvPin (cancelled st) (Path (refCopy st)) true] st)
      | None => setTask Registry (Sending None) st
      end
  | P2P, Some Running =>
      let r := FetchDataset w (cancelled st) (ref st) in
      setTask P2P (Sending r.2)
        (setRef r.1 (log [EvFetchDataset (cancelled st) (ref st)] st))
  | _, _ => st
  end.

(** [res := <-responses] and the body of the loop. *)
Definition recv (s : source) (st : AddSt) : AddSt :=
  if finished st then st
  else
    match taskOf s st with
    | Some (Sending e) =>
        let st := log [EvRecv s e] (setTask s Done st) in
        match e with
        | None => recvSuccess s st
        | Some e => recvError e st
        end
    | _ => st
    end.

Definition step (a : action) (st : AddSt) : AddSt :=
  match a with
  | Run s => runTask s st
  | Recv s => recv s st
  end.

Definition exec (sched : list action) (st : AddSt) : AddSt :=
  foldl (λ st a, step a st) st sched.

(** Modelled from the spec: [base.ReplaceRefIfMoreRecent] is not among the
    sources.  "The newly fetched and existing versions are compared and the
    more recent one (by a recency rule such as revision depth or timestamp)
    wins and replaces the stored reference." *)
Definition ReplaceRefIfMoreRecent (r : R) (prev curr : DatasetRef)
  : R * option error :=
  if moreRecent w curr prev then PutRef w r curr else (r, None).

(** What [AddDataset] leaves behind when it returns. *)
Record outcome := {
  out_trace : list event;
  out_ref : DatasetRef;      (* *ref *)
  out_repo : R;
  out_cancelled : bool;      (* fetchCtx *)
  out_err : option error
}.

(** Lines 211-235: the reference is stored.  [ctx] is the context of the
    call, not [fetchCtx]. *)
Definition storeRef (ctx : Context) (r : R) (ref : DatasetRef)
  : list event * DatasetRef * R * option error :=
  match GetRef w r {| Peername := Peername ref; ProfileID := "";
                      Name := Name ref; Path := ""; FSIPath := "";
                      Published := false; Dataset := None |} with
  | Err e =>
      if bool_decide (eid e = NotFound) then
        match PutRef w r ref with
        | (r', Some e') =>
            ([EvLog DebugLevel "%s" [AStr (Error e')]], ref, r',
             Some (Errorf ("error putting dataset in repo: " +:+ Error e')))
        | (r', None) => ([], ref, r', None)
        end
      else ([], ref, r, Some e)
  | Ok prevRef =>
      match LoadDataset w ctx (Path prevRef) with
      | Err e =>
          ([EvLog DebugLevel "%s" [AStr (Error e)]], ref, r,
           Some (Errorf ("error loading repo dataset: " +:+ Path prevRef)))
      | Ok prevDs =>
          let prevRef := setDataset prevRef (Some prevDs) in
          match LoadDataset w ctx (Path ref) with
          | Err e =>
              ([EvLog DebugLevel "%s" [AStr (Error e)]], setDataset ref None, r,
               Some (Errorf ("error loading added dataset: " +:+ Path ref)))
          | Ok ds =>
              let ref := setDataset ref (Some ds) in
              let '(r', e) := ReplaceRefIfMoreRecent r prevRef ref in
              ([], ref, r', e)
          end
      end
  end.

(** The state after the goroutines have been started. *)
Definition launch (ctx : Context) (ref : DatasetRef) : AddSt :=
  {| cancelled := ctx;
     ref := ref;
     refCopy := {| Peername := Peername ref; ProfileID := ProfileID ref;
                   Name := Name ref; Path := Path ref; FSIPath := "";
                   Published := false; Dataset := None |};
     registry :=
       match rc with
       | Some _ => if bool_decide (remoteAddr ≠ "") then Some Running else None
       | None => None
       end;
     p2p := if Online node then Some Running else None;
     i := 0; err := None; success := false; trace := [] |}.

(** Lines 130-138: an incomplete reference is resolved first.  The result
    is the trace, the final [*ref] and the error. *)
Definition resolveRef (ctx : Context) (ref : DatasetRef)
  : list event * DatasetRef * option error :=
  if Complete w ref then ([], ref, None)
  else
    let x := ResolveDatasetRef w ctx rc remoteAddr ref in
    ([EvResolveDatasetRef ref remoteAddr], x.1, x.2).

(** [AddDataset].  [sched] is the interleaving of the goroutines and the
    coordinator up to the return; the result is [None] when the coordinator
    is still waiting on [responses] at its end.  The deferred [cancelFetch]
    runs on every return after [fetchCtx] is made. *)
Definition AddDataset (ctx : Context) (ref : DatasetRef) (r : R)
    (sched : list action) : option outcome :=
  let t0 := [EvLog DebugLevel "add dataset %s. remoteAddr: %s"
               [ARefString ref; AStr remoteAddr]] in
  let '(t1, ref1, resolveErr) := resolveRef ctx ref in
  match resolveErr with
  | Some e =>
      Some {| out_trace := t0 ++ t1; out_ref := ref1; out_repo := r;
              out_cancelled := ctx; out_err := Some e |}
  | None =>
      let st0 := launch ctx ref1 in
      if bool_decide (tasks st0 = 0) then
        Some {| out_trace := t0 ++ t1 ++ [EvCancel]; out_ref := ref1;
                out_repo := r; out_cancelled := true;
                out_err :=
                  Some (Errorf
                          "no registry configured and node is not online") |}
      else
        let st := exec sched st0 in
        if negb (finished st) then None
        else if negb (success st) then
          (* [err] holds the error of the last response here *)
          Some {| out_trace := t0 ++ t1 ++ trace st ++ [EvCancel];
                  out_ref := Actions.ref st;
                  out_repo := r; out_cancelled := true;
                  out_err :=
                    Some (Errorf ("add failed: "
                                  +:+ from_option Error "" (err st))) |}
        else
          let '(t, ref', r', e) := storeRef ctx r (Actions.ref st) in
          Some {| out_trace := t0 ++ t1 ++ trace st ++ t ++ [EvCancel];
                  out_ref := ref'; out_repo := r'; out_cancelled := true;
                  out_err := e |}
  end.

End WithWorld.
End Actions.

(** ** Package lib: the dataset requests [Remove] and [Add] *)
Module Lib.
Import Repo Trace.

(** [dsref.Rev] *)
Record Rev := { Field : string; Gen : Z }.

Record RemoveParams := {
  Ref : string;
  Revision : Rev;
  Unlink : bool;
  DeleteFSIFiles : bool
}.

Record RemoveResponse := {
  rRef : string;
  NumDeleted : Z;
  Unlinked : bool;
  DeletedFSIFiles : bool
}.

Definition setRRef (s : string) (res : RemoveResponse) : RemoveResponse :=
  {| rRef := s; NumDeleted := NumDeleted res; Unlinked := Unlinked res;
     DeletedFSIFiles := DeletedFSIFiles res |}.

Definition setNumDeleted (n : Z) (res : RemoveResponse) : RemoveResponse :=
  {| rRef := rRef res; NumDeleted := n; Unlinked := Unlinked res;
     DeletedFSIFiles := DeletedFSIFiles res |}.

Definition setUnlinked (b : bool) (res : RemoveResponse) : RemoveResponse :=
  {| rRef := rRef res; NumDeleted := NumDeleted res; Unlinked := b;
     DeletedFSIFiles := DeletedFSIFiles res |}.

Definition setDeletedFSIFiles (b : bool) (res : RemoveResponse)
  : RemoveResponse :=
  {| rRef := rRef res; NumDeleted := NumDeleted res; Unlinked := Unlinked res;
     DeletedFSIFiles := b |}.

Record AddParams := {
  aRef : string;
  LinkDir : string;
  RemoteAddr : string
}.

Definition setRemoteAddr (a : string) (p : AddParams) : AddParams :=
  {| aRef := aRef p; LinkDir := LinkDir p; RemoteAddr := a |}.

(** An entry of [base.DatasetLog]. *)
Record DatasetLogItem := { liRef : Repo.Ref; liPublished : bool }.

(** [Instance], as far as the two requests read it: [cfg.Registry] ([None]
    is nil, otherwise its [Location]) and [RemoteClient()]. *)
Record Instance := {
  cfg_Registry : option string;
  RemoteClient : option Remote.Client
}.

(** [DatasetRequests] built by [NewDatasetRequestsInstance]: [cli] is the
    RPC client, nil when requests run in this process. *)
Record DatasetRequests := {
  cli : bool;
  inst : Instance
}.

(** Go's [int], 64 bits wide. *)
Definition wrapInt (z : Z) : Z := (z + 2 ^ 63) `mod` 2 ^ 64 - 2 ^ 63.

(** The packages [Remove] and [Add] call into. *)
Record World := {
  remote : Remote.World;
  (** [dsref.AllGenerations] *)
  AllGenerations : Z;
  ParseDatasetRef : string → result DatasetRef;
  (** [repo.CanonicalizeDatasetRef(r.node.Repo, &ref)]: the final [ref] and
      the error *)
  CanonicalizeDatasetRef : DatasetRef → DatasetRef * option error;
  (** [ref.String()] and [ref.AliasString()] *)
  RefString : DatasetRef → string;
  AliasString : DatasetRef → string;
  fsi_DeleteDatasetFiles : string → option error;
  fsi_Unlink : string → string → option error;
  DeleteDataset : DatasetRef → DatasetRef * option error;
  DatasetLog : DatasetRef → Z → Z → bool → result (list DatasetLogItem);
  (** [base.ModifyDatasetRef(ctx, repo, &ref, replace, isRename)]: the final
      [ref] and the error *)
  ModifyDatasetRef : DatasetRef → DatasetRef → bool → DatasetRef * option error;
  ConvertToDsref : DatasetRef → Repo.Ref;
  (** [r.inst.Repo().Logbook().WriteVersionDelete(ctx, ref, n)] *)
  WriteVersionDelete : Repo.Ref → Z → option error;
  rpc_Remove : RemoveParams → RemoveResponse → RemoveResponse * option error;
  rpc_Add : AddParams → DatasetRef → DatasetRef * option error;
  (** [r.inst.RemoteClient().AddDataset(ctx, &ref, remoteAddr)]: the final
      [ref] and the error *)
  Client_AddDataset :
    option Remote.Client → DatasetRef → string → DatasetRef * option error;
  (** [NewFSIMethods(r.inst).Checkout(&CheckoutParams{Ref, Dir}, &res)] *)
  Checkout : string → string → option error
}.

Section WithWorld.
Variable w : World.

(** The closure [removeEntireDataset] of [Remove]. *)
Definition removeEntireDataset (p : RemoveParams) (ref : DatasetRef)
  : MS RemoveResponse unit :=
  (if bool_decide (FSIPath ref ≠ "") && negb (Unlink p) then
     emitS (EvCall "fsi.Unlink" [AStr (FSIPath ref);
                                 AStr (AliasString w ref)]);;
     liftErrS (fsi_Unlink w (FSIPath ref) (AliasString w ref));;
     modify (setUnlinked true)
   else mret tt);;
  emitS (EvCall "base.DeleteDataset" [ARefString ref]);;
  liftErrS (DeleteDataset w ref).2;;
  modify (setNumDeleted (AllGenerations w)).

(** The part of [Remove] that deletes [p.Revision.Gen] revisions (from
    "Get the revisions that will be deleted" to the end). *)
Definition removeRevisions (p : RemoveParams) (ref : DatasetRef)
  : MS RemoveResponse unit :=
  let gen := Gen (Revision p) in
  log ← liftS (DatasetLog w ref (wrapInt (gen + 1)) 0 false);
  if bool_decide (Z.of_nat (length log) ≤ gen)%Z then removeEntireDataset p ref
  else
    match log !! Z.to_nat gen with
    | None =>
        (* not reached: 1 ≤ gen < len(log) here *)
        failS (Errorf "runtime error: index out of range")
    | Some dsr =>
        let replace :=
          {| Peername := Username (liRef dsr); ProfileID := ProfileID ref;
             Name := RName (liRef dsr); Path := RPath (liRef dsr);
             FSIPath := ""; Published := liPublished dsr;
             Dataset := None |} in
        emitS (EvCall "base.ModifyDatasetRef"
                 [ARefString ref; ARefString replace]);;
        let m := ModifyDatasetRef w ref replace false in
        liftErrS m.2;;
        let ref := m.1 in
        modify (setNumDeleted gen);;
        emitS (EvCall "Logbook.WriteVersionDelete"
                 [AAlias (ConvertToDsref w ref); AInt gen]);;
        let err := WriteVersionDelete w (ConvertToDsref w ref) gen in
        let err :=
          match err with
          | Some e => if bool_decide (eid e = NoLogbook) then None else Some e
          | None => None
          end in
        liftErrS err
    end.

Definition Remove (r : DatasetRequests) (p : RemoveParams)
  : MS RemoveResponse unit :=
  if cli r then
    λ res, let x := rpc_Remove w p res in
           ([EvRPC "DatasetRequests.Remove"], x.1,
            match x.2 with None => Ok tt | Some e => Err e end)
  else if bool_decide (Field (Revision p) ≠ "ds") then
    failS (Errorf ("can only remove whole dataset versions, "
                   +:+ "not individual components"))
  else
    ref ← liftS (ParseDatasetRef w (Ref p));
    let canon := CanonicalizeDatasetRef w ref in
    let ref := canon.1 in
    match canon.2 with
    | Some canonErr =>
        if bool_decide (eid canonErr ≠ NoHistory) then failS canonErr
        else mret true
    | None => mret false
    end ≫= λ noHistory,
    modify (setRRef (RefString w ref));;
    if bool_decide (FSIPath ref = "") && Unlink p then
      failS (Errorf "cannot unlink, dataset is not linked to a directory")
    else if bool_decide (FSIPath ref = "") && DeleteFSIFiles p then
      failS (Errorf
               "can't delete files, dataset is not linked to a directory")
    else
      (if bool_decide (FSIPath ref ≠ "") then
         (if DeleteFSIFiles p then
            emitS (EvCall "fsi.DeleteDatasetFiles" [AStr (FSIPath ref)]);;
            liftErrS (fsi_DeleteDatasetFiles w (FSIPath ref));;
            modify (setDeletedFSIFiles true)
          else mret tt);;
         (if Unlink p || noHistory then
            emitS (EvCall "fsi.Unlink" [AStr (FSIPath ref);
                                        AStr (AliasString w ref)]);;
            liftErrS (fsi_Unlink w (FSIPath ref) (AliasString w ref));;
            modify (setUnlinked true)
          else mret tt)
       else mret tt);;
      if (noHistory : bool) then mret tt
      else if bool_decide (Gen (Revision p) = AllGenerations w) then
        removeEntireDataset p ref
      else if bool_decide (Gen (Revision p) < 1)%Z then
        failS (Errorf ("invalid number of revisions to delete: "
                       +:+ pretty (Gen (Revision p))))
      else removeRevisions p ref.

(** [Add].  Both [p] and [res] are written through. *)
Definition Add (r : DatasetRequests) : MS (AddParams * DatasetRef) unit :=
  if cli r then
    λ σ, let x := rpc_Add w σ.1 σ.2 in
         ([EvRPC "DatasetRequests.Add"], (σ.1, x.1),
          match x.2 with None => Ok tt | Some e => Err e end)
  else
    σ ← get;
    ref ← liftS (ParseDatasetRef w (aRef σ.1));
    (match cfg_Registry (inst r) with
     | Some location =>
         if bool_decide (RemoteAddr σ.1 = "")
         then modify (λ σ, (setRemoteAddr location σ.1, σ.2))
         else mret tt
     | None => mret tt
     end);;
    σ ← get;
    let p := σ.1 in
    let pull :=
      Remote.PullLogs (remote w) (RemoteClient (inst r)) false
        (ConvertToDsref w ref) (RemoteAddr p) in
    liftM (pull.1, Ok tt);;
    (match returned pull with
     | Some pullLogsErr =>
         emitS (EvLog ErrorLevel "pulling logs: %s" [AErr pullLogsErr])
     | None => mret tt
     end);;
    emitS (EvCall "RemoteClient.AddDataset"
             [ARefString ref; AStr (RemoteAddr p)]);;
    let added := Client_AddDataset w (RemoteClient (inst r)) ref
                   (RemoteAddr p) in
    liftErrS added.2;;
    let ref := added.1 in
    modify (λ σ, (σ.1, ref));;
    if bool_decide (LinkDir p ≠ "") then
      emitS (EvCall "FSIMethods.Checkout"
               [AStr (RefString w ref); AStr (LinkDir p)]);;
      liftErrS (Checkout w (RefString w ref) (LinkDir p))
    else mret tt.

End WithWorld.
End Lib.

(** ** Package core: [GetConfig] *)
Module Core.

(** [config.ProfilePod] *)
Record ProfilePod := {
  ID : string;
  PrivKey : string;
  Peername : string;
  Created : Z;
  Updated : Z;
  Name : string;
  Email : string;
  Description : string;
  HomeURL : string;
  Color : string;
  Twitter : string
}.

(** [config.P2P] *)
Record P2P_ := {
  Enabled : bool;
  PeerID : string;
  p2pPrivKey : string;
  Port : Z
}.

(** [config.Config]: the two sections that hold a private key are pointers
    ([None] is nil); [Others] stands for the remaining sections, which
    [GetConfig] copies and never writes. *)
Record Config_ := {
  Profile : option ProfilePod;
  P2P : option P2P_;
  Others : list (string * string)
}.

(** [cfg.Profile.PrivKey = ""] *)
Definition blankProfile (p : ProfilePod) : ProfilePod :=
  {| ID := ID p; PrivKey := ""; Peername := Peername p; Created := Created p;
     Updated := Updated p; Name := Name p; Email := Email p;
     Description := Description p; HomeURL := HomeURL p; Color := Color p;
     Twitter := Twitter p |}.

(** [cfg.P2P.PrivKey = ""] *)
Definition blankP2P (p : P2P_) : P2P_ :=
  {| Enabled := Enabled p; PeerID := PeerID p; p2pPrivKey := "";
     Port := Port p |}.

Record GetConfigParams := {
  WithPrivateKey : bool;
  Format : string;
  Concise : bool;
  Field : string
}.

(** A value [cfg.Get(field)] can return. *)
Inductive value :=
| VString (s : string)
| VInt (z : Z)
| VBool (b : bool)
| VProfile (p : option ProfilePod)
| VP2P (p : option P2P_)
| VOther (s : string).

(** What is handed to the encoder: the configuration or one of its fields. *)
Inductive encodable :=
| EConfig (cfg : Config_)
| EValue (v : value).

(** The reflective lookup [Config.Get] and the three encoders. *)
Record World := {
  Get : Config_ → string → result value;
  json_Marshal : encodable → result (list byte);
  json_MarshalIndent : encodable → string → string → result (list byte);
  yaml_Marshal : encodable → result (list byte)
}.

(** What [GetConfig] leaves behind: the global [Config], [*data] and the
    returned error. *)
Record outcome := {
  global : Config_;
  data : list byte;
  returned : option error
}.

(** [*data, err = marshal(encode)]: on an error the encoder returns nil
    bytes. *)
Definition assign (r : result (list byte)) : list byte * option error :=
  match r with
  | Ok bs => (bs, None)
  | Err e => ([], Some e)
  end.

Section WithWorld.
Variable w : World.

(** [GetConfig].  [Config] is the package-level variable; the result is
    [None] when it is nil and [*Config] panics.

    [*cfg = *Config] copies the struct, not what its pointers point to:
    [cfg.Profile] and [cfg.P2P] are the sections of the global configuration
    itself, so blanking the keys through [cfg] blanks them in the global
    too. *)
Definition GetConfig (Config : option Config_) (params : GetConfigParams)
    (data : list byte) : option outcome :=
  match Config with
  | None => None
  | Some Config =>
      let cfg := Config in
      let cfg :=
        if negb (WithPrivateKey params) then
          {| Profile := blankProfile <$> Profile cfg;
             P2P := blankP2P <$> P2P cfg;
             Others := Others cfg |}
        else cfg in
      let Config := cfg in
      let encode :=
        if bool_decide (Field params ≠ "") then
          match Get w cfg (Field params) with
          | Ok v => Ok (EValue v)
          | Err err =>
              Err (Errorf ("error getting " +:+ Field params
                           +:+ " from config: " +:+ Error err))
          end
        else Ok (EConfig cfg) in
      match encode with
      | Err e => Some {| global := Config; data := data; returned := Some e |}
      | Ok encode =>
          let '(data, err) :=
            if bool_decide (Format params = "json") then
              if Concise params then assign (json_Marshal w encode)
              else assign (json_MarshalIndent w encode "" " ")
            else if bool_decide (Format params = "yaml") then
              assign (yaml_Marshal w encode)
            else (data, None) in
          match err with
          | Some err =>
              Some {| global := Config; data := data;
                      returned :=
                        Some (Errorf ("error getting config: "
                                      +:+ Error err)) |}
          | None =>
              Some {| global := Config; data := data; returned := None |}
          end
      end
  end.

End WithWorld.
End Core.

(** ** Vocabulary of the statements *)
Module Spec.
Import Repo Trace.

(** The client operation behind each logsync exchange. *)
Definition logs (op : logOp) (w : Remote.World) :=
  match op with
  | LogPull => Remote.PullLogs w
  | LogPush => Remote.PushLogs w
  | LogRemove => Remote.RemoveLogs w
  end.

(** The debug line each of them writes before the exchange. *)
Definition debugLine (op : logOp) (ref : Ref) (remoteAddr : string) : event :=
  EvLog DebugLevel
    match op with
    | LogPull => "fetching logs for %s from %s"
    | LogPush => "pushing logs for %s from %s"
    | LogRemove => "deleting logs for %s from %s"
    end
    [AAlias ref; AStr remoteAddr].

(** The seven request parameters, for a timestamp, an author profile id and
    a signature. *)
Definition sevenParams (w : Remote.World) (ref : DatasetRef)
    (now pid b64Sig : string) : gmap string string :=
  <["peername" := Peername ref]> (
  <["name" := Name ref]> (
  <["profileID" := Remote.ProfileID_String w (ProfileID ref)]> (
  <["path" := Path ref]> (
  <["pid" := pid]> (
  <["timestamp" := now]> (
  <["signature" := b64Sig]> ∅)))))).

Definition sevenKeys : gset string :=
  {[ "peername"; "name"; "profileID"; "path"; "pid"; "timestamp";
     "signature" ]}.

(** [params] is what the author's key makes of [ref] at the current time:
    the profile id is the base58 form of the SHA2-256 multihash of the public
    key bytes, the signature is the base64 form of the key's signature over
    "<timestamp>.<profile id>.<path>". *)
Definition signedParams (w : Remote.World) (pk : Remote.PrivKey)
    (ref : DatasetRef) (params : gmap string string) : Prop :=
  ∃ pubkeybytes mh sigbytes,
    Remote.GetPublic_Bytes pk = Ok pubkeybytes
    ∧ Remote.multihash_Sum w pubkeybytes Remote.SHA2_256 32 = Ok mh
    ∧ Remote.Sign pk
        (String.list_byte_of_string
           (pretty (Remote.time_Now_Unix w) +:+ "." +:+ Remote.B58String w mh
            +:+ "." +:+ Path ref)) = Ok sigbytes
    ∧ params = sevenParams w ref (pretty (Remote.time_Now_Unix w))
                 (Remote.B58String w mh)
                 (Remote.base64_EncodeToString w sigbytes)
    ∧ dom params = sevenKeys.

(** A request event carries the signed parameters of [ref] and nothing else
    of the client's: as dsync metadata, or as the query parameters set on the
    URL of [remoteAddr]. *)
Definition carriesSigned (w : Remote.World) (pk : Remote.PrivKey)
    (ref : DatasetRef) (remoteAddr : string) (e : event) : Prop :=
  match e with
  | EvDsyncPush _ path _ _ meta => path = Path ref ∧ signedParams w pk ref meta
  | EvDsyncPull _ path _ meta => path = Path ref ∧ signedParams w pk ref meta
  | EvHTTP _ method u =>
      method = "DELETE" →
      ∃ params u0,
        signedParams w pk ref params
        ∧ Remote.url_Parse w remoteAddr = Ok u0
        ∧ ∀ k, Url.RawQuery u !! k =
               match params !! k with
               | Some v => Some [v]
               | None => Url.RawQuery u0 !! k
               end
  | _ => True
  end.

(** An event a goroutine of [AddDataset] emits while the fetch context reads
    [ctx]: a log or print line, or an external call made under [ctx]. *)
Definition taskEvent (ctx : Context) (e : event) : Prop :=
  match e with
  | EvLog _ _ _ | EvPrint _ => True
  | EvHTTP c _ _ => c = ctx
  | EvDsyncPull c _ _ _ => c = ctx
  | EvPin c _ _ => c = ctx
  | EvFetchDataset c _ => c = ctx
  | _ => False
  end.

(** What the trace holds before the first success: failed responses and the
    events of the goroutines. *)
Definition beforeSuccess (ctx : Context) (e : event) : Prop :=
  match e with
  | EvRecv _ (Some _) => True
  | EvRecv _ None => False
  | _ => taskEvent ctx e
  end.

(** The last response the coordinator received. *)
Fixpoint lastRecv (t : list event) : option (source * option error) :=
  match t with
  | [] => None
  | e :: t =>
      match lastRecv t with
      | Some x => Some x
      | None =>
          match e with
          | EvRecv s err => Some (s, err)
          | _ => None
          end
      end
  end.

(** The goroutines whose response the coordinator has taken. *)
Definition doneCount (st : Actions.AddSt) : nat :=
  match Actions.registry st with Some Actions.Done => 1 | _ => 0 end
  + match Actions.p2p st with Some Actions.Done => 1 | _ => 0 end.

(** What holds of the shared variables between any two steps, for a call
    made under the context [ctx]. *)
Definition coordInv (ctx : Context) (st : Actions.AddSt) : Prop :=
  if Actions.success st then Actions.cancelled st = true
  else
    Actions.cancelled st = ctx
    ∧ Actions.i st = doneCount st
    ∧ Forall (beforeSuccess ctx) (Actions.trace st)
    ∧ (∀ s, Actions.taskOf s st = Some Actions.Done →
            ∃ e, EvRecv s (Some e) ∈ Actions.trace st)
    ∧ match lastRecv (Actions.trace st) with
      | None => Actions.i st = 0 ∧ Actions.err st = None
      | Some (_, e) => e ≠ None ∧ Actions.err st = e
      end.

(** Events of a call that starts no fetch: its own log line, the resolution
    of the reference and the deferred cancel. *)
Definition noFetch (e : event) : Prop :=
  match e with
  | EvLog _ _ _ | EvResolveDatasetRef _ _ | EvCancel => True
  | _ => False
  end.

(** The reference [GetRef] is asked for. *)
Definition refKey (ref : DatasetRef) : DatasetRef :=
  {| Peername := Peername ref; ProfileID := ""; Name := Name ref; Path := "";
     FSIPath := ""; Published := false; Dataset := None |}.

(** The schedule that lets both goroutines finish and then hands their
    responses to the coordinator, registry first. *)
Definition fairSchedule : list Actions.action :=
  [Actions.Run Registry; Actions.Run Registry; Actions.Run P2P;
   Actions.Recv Registry; Actions.Recv P2P].

(** The call that records a version delete found no logbook. *)
Definition noLogbookAt (w : Lib.World) (e : event) : Prop :=
  ∃ ref n err,
    e = EvCall "Logbook.WriteVersionDelete" [AAlias ref; AInt n]
    ∧ Lib.WriteVersionDelete w ref n = Some err
    ∧ eid err = NoLogbook.

(** A run that met a missing logbook returned no error. *)
Definition tolerates {Σ A} (w : Lib.World)
    (x : list event * Σ * result A) : Prop :=
  (∃ e, e ∈ x.1.1 ∧ noLogbookAt w e) → returnedS x = None.

(** [w] with another remote behind the sync client. *)
Definition withRemote (w : Lib.World) (rw : Remote.World) : Lib.World :=
  {| Lib.remote := rw;
     Lib.AllGenerations := Lib.AllGenerations w;
     Lib.ParseDatasetRef := Lib.ParseDatasetRef w;
     Lib.CanonicalizeDatasetRef := Lib.CanonicalizeDatasetRef w;
     Lib.RefString := Lib.RefString w;
     Lib.AliasString := Lib.AliasString w;
     Lib.fsi_DeleteDatasetFiles := Lib.fsi_DeleteDatasetFiles w;
     Lib.fsi_Unlink := Lib.fsi_Unlink w;
     Lib.DeleteDataset := Lib.DeleteDataset w;
     Lib.DatasetLog := Lib.DatasetLog w;
     Lib.ModifyDatasetRef := Lib.ModifyDatasetRef w;
     Lib.ConvertToDsref := Lib.ConvertToDsref w;
     Lib.WriteVersionDelete := Lib.WriteVersionDelete w;
     Lib.rpc_Remove := Lib.rpc_Remove w;
     Lib.rpc_Add := Lib.rpc_Add w;
     Lib.Client_AddDataset := Lib.Client_AddDataset w;
     Lib.Checkout := Lib.Checkout w |}.

(** The remote address [Add] works with: the one given, or the location of
    the configured registry when none is given. *)
Definition effectiveAddr (r : Lib.DatasetRequests) (p : Lib.AddParams)
  : string :=
  match Lib.cfg_Registry (Lib.inst r) with
  | Some location =>
      if bool_decide (Lib.RemoteAddr p = "") then location
      else Lib.RemoteAddr p
  | None => Lib.RemoteAddr p
  end.

(** The error line [Add] writes when the log pull fails. *)
Definition pullLogsLine (pull : M unit) : list event :=
  match returned pull with
  | Some e => [EvLog ErrorLevel "pulling logs: %s" [AErr e]]
  | None => []
  end.

(** [cfg] with other private keys in the sections it has. *)
Definition withKeys (cfg : Core.Config_) (profileKey p2pKey : string)
  : Core.Config_ :=
  {| Core.Profile :=
       (λ p, {| Core.ID := Core.ID p; Core.PrivKey := profileKey;
                Core.Peername := Core.Peername p;
                Core.Created := Core.Created p;
                Core.Updated := Core.Updated p; Core.Name := Core.Name p;
                Core.Email := Core.Email p;
                Core.Description := Core.Description p;
                Core.HomeURL := Core.HomeURL p; Core.Color := Core.Color p;
                Core.Twitter := Core.Twitter p |}) <$> Core.Profile cfg;
     Core.P2P :=
       (λ p, {| Core.Enabled := Core.Enabled p; Core.PeerID := Core.PeerID p;
                Core.p2pPrivKey := p2pKey; Core.Port := Core.Port p |})
       <$> Core.P2P cfg;
     Core.Others := Core.Others cfg |}.

(** No section of [cfg] holds a private key. *)
Definition keysBlank (cfg : Core.Config_) : Prop :=
  (∀ p, Core.Profile cfg = Some p → Core.PrivKey p = "")
  ∧ (∀ p, Core.P2P cfg = Some p → Core.p2pPrivKey p = "").

(** The encoder [GetConfig] picks for a format, if it knows the format. *)
Definition encoderOf (w : Core.World) (params : Core.GetConfigParams)
  : option (Core.encodable → result (list byte)) :=
  if bool_decide (Core.Format params = "json") then
    Some (if Core.Concise params then Core.json_Marshal w
          else λ e, Core.json_MarshalIndent w e "" " ")
  else if bool_decide (Core.Format params = "yaml") then
    Some (Core.yaml_Marshal w)
  else None.

(** [enc] is [cfg] itself or the field of [cfg] that was asked for. *)
Definition encodes (w : Core.World) (cfg : Core.Config_) (field : string)
    (enc : Core.encodable) : Prop :=
  if bool_decide (field ≠ "") then
    ∃ v, Core.Get w cfg field = Ok v ∧ enc = Core.EValue v
  else enc = Core.EConfig cfg.

(** Code that never meets a missing logbook. *)
Definition quiet {Σ A} (w : Lib.World) (m : MS Σ A) : Prop :=
  ∀ σ e, e ∈ (m σ).1.1 → ¬ noLogbookAt w e.

End Spec.

(** ** Concrete collaborators

    Small worlds on which the operations can be run: a key that signs by
    echoing the message, a key that cannot sign, a remote that answers every
    request with 200. *)
Module Demo.
Import Repo Trace.

Definition aliceKey : Remote.PrivKey :=
  {| Remote.GetPublic_Bytes := Ok (String.list_byte_of_string "alice-pub");
     Remote.Sign := λ msg, Ok msg |}.

Definition lockedKey : Remote.PrivKey :=
  {| Remote.GetPublic_Bytes := Ok (String.list_byte_of_string "alice-pub");
     Remote.Sign := λ _, Err (Errorf "key is locked") |}.

Definition alice : Remote.Client := {| Remote.pk := aliceKey |}.

Definition lockedAlice : Remote.Client := {| Remote.pk := lockedKey |}.

Definition hasSpace (s : string) : bool :=
  existsb (Ascii.eqb (Ascii.ascii_of_nat 32)) (String.list_ascii_of_string s).

(** A stand-in for [url.Parse] on addresses "http://<host>": a blank in the
    host is refused, as [url.Parse] does. *)
Definition parseURL (s : string) : result Url.URL :=
  if hasSpace s then Err (Errorf "invalid character in host name")
  else if String.prefix "http://" s then
    Ok {| Url.Scheme := "http";
          Url.Host := String.substring 7 (String.length s) s;
          Url.Path := ""; Url.RawQuery := ∅ |}
  else
    Ok {| Url.Scheme := ""; Url.Host := ""; Url.Path := s;
          Url.RawQuery := ∅ |}.

Definition world : Remote.World :=
  {| Remote.time_Now_Unix := 1572000000;
     Remote.multihash_Sum := λ bs _ _, Ok bs;
     Remote.B58String := λ bs, "Qm" +:+ String.string_of_list_byte bs;
     Remote.base64_EncodeToString := String.string_of_list_byte;
     Remote.ProfileID_String := λ id, id;
     Remote.peer_Cast := λ s,
       if String.prefix "Qm" s then Ok s
       else Err (Errorf "multihash too short");
     Remote.url_Parse := parseURL;
     Remote.http_NewRequest := λ _ _, None;
     Remote.http_Do := λ _ _ _,
       Ok {| Http.StatusCode := 200; Http.Body := ""; Http.ReadErr := None |};
     Remote.json_Decode := λ _ ref, (ref, None);
     Remote.dsync_NewPush := λ _ _ _, None;
     Remote.dsync_PushDo := λ _ _ _ _ _, None;
     Remote.dsync_NewPull := λ _ _ _, None;
     Remote.dsync_PullDo := λ _ _ _ _, None;
     Remote.logsync_Do := λ _ _ _ _ _, None |}.

Definition pop : DatasetRef :=
  {| Peername := "alice"; ProfileID := "QmAliceProfile"; Name := "pop";
     Path := "/ipfs/QmPopV1"; FSIPath := ""; Published := false;
     Dataset := None |}.

Definition popLog : Ref :=
  {| Username := "alice"; RName := "pop"; RProfileID := "QmAliceProfile";
     RPath := "/ipfs/QmPopV1" |}.

Definition popParams : gmap string string :=
  Spec.sevenParams world pop "1572000000" "Qmalice-pub"
    "1572000000.Qmalice-pub./ipfs/QmPopV1".

(** A remote whose dsync pull fails: with "context canceled" once the
    context is cancelled, with "registry unreachable" before. *)
Definition unreachable : Remote.World :=
  {| Remote.time_Now_Unix := Remote.time_Now_Unix world;
     Remote.multihash_Sum := Remote.multihash_Sum world;
     Remote.B58String := Remote.B58String world;
     Remote.base64_EncodeToString := Remote.base64_EncodeToString world;
     Remote.ProfileID_String := Remote.ProfileID_String world;
     Remote.peer_Cast := Remote.peer_Cast world;
     Remote.url_Parse := Remote.url_Parse world;
     Remote.http_NewRequest := Remote.http_NewRequest world;
     Remote.http_Do := Remote.http_Do world;
     Remote.json_Decode := Remote.json_Decode world;
     Remote.dsync_NewPush := Remote.dsync_NewPush world;
     Remote.dsync_PushDo := Remote.dsync_PushDo world;
     Remote.dsync_NewPull := Remote.dsync_NewPull world;
     Remote.dsync_PullDo := λ ctx _ _ _,
       Some (Errorf (if ctx : bool then "context canceled"
                     else "registry unreachable"));
     Remote.logsync_Do := λ _ _ _ _ _,
       Some (Errorf "registry unreachable") |}.

(** An in-memory reference store: the newest entry for a name wins. *)
Definition sameName (a b : DatasetRef) : bool :=
  bool_decide (Peername a = Peername b) && bool_decide (Name a = Name b).

Definition getRef (r : list DatasetRef) (key : DatasetRef)
  : result DatasetRef :=
  match List.find (sameName key) r with
  | Some ref => Ok ref
  | None => Err (MkErr NotFound "repo: not found")
  end.

Definition putRef (r : list DatasetRef) (ref : DatasetRef)
  : list DatasetRef * option error :=
  (ref :: List.filter (λ x, negb (sameName ref x)) r, None).

(** Versions are told apart by their path; the timestamp of a version is
    the length of its path. *)
Definition loadDataset (_ : Context) (path : string) : result Dataset_ :=
  if bool_decide (path = "") then Err (Errorf "dsfs: empty path")
  else
    Ok {| dsName := ""; dsPeername := ""; dsPath := path;
          dsPreviousPath := "";
          dsCommit := Some {| Title := ""; Message := "";
                              Timestamp := Z.of_nat (String.length path) |} |}.

Definition timestampOf (ref : DatasetRef) : Z :=
  match Dataset ref with
  | Some {| dsCommit := Some c |} => Timestamp c
  | _ => 0
  end.

(** The collaborators of [AddDataset]: a remote that cannot be reached and a
    peer network whose fetch ends in [fetch]; a reference without a path is
    incomplete and its resolution ends in [resolve]. *)
Definition actions (fetch resolve : option error)
  : Actions.World (list DatasetRef) :=
  {| Actions.remote := unreachable;
     Actions.Complete := λ ref, negb (bool_decide (Path ref = ""));
     Actions.ResolveDatasetRef := λ _ _ _ ref, (ref, resolve);
     Actions.FetchDataset := λ _ ref, (ref, fetch);
     Actions.GetRef := getRef;
     Actions.PutRef := putRef;
     Actions.LoadDataset := loadDataset;
     Actions.moreRecent := λ fetched existing,
       bool_decide (timestampOf existing < timestampOf fetched)%Z |}.

Definition online : Actions.QriNode :=
  {| Actions.Online := true; Actions.Pinner := Some (λ _ _ _, None) |}.

Definition offline : Actions.QriNode :=
  {| Actions.Online := false; Actions.Pinner := None |}.

(** A reference that still lacks its path. *)
Definition popNoPath : DatasetRef :=
  {| Peername := "alice"; ProfileID := "QmAliceProfile"; Name := "pop";
     Path := ""; FSIPath := ""; Published := false; Dataset := None |}.

(** An older and a newer version of the same name. *)
Definition popOld : DatasetRef :=
  {| Peername := "alice"; ProfileID := "QmAliceProfile"; Name := "pop";
     Path := "/ipfs/QmPop"; FSIPath := ""; Published := false;
     Dataset := None |}.



(** The packages behind [Remove] and [Add] for a node that keeps no
    logbook: every call succeeds, the log of a dataset has three versions,
    and recording a version delete answers [ErrNoLogbook]. *)
Definition lib : Lib.World :=
  {| Lib.remote := unreachable;
     Lib.AllGenerations := -1;
     Lib.ParseDatasetRef := λ s,
       if bool_decide (s = "alice/pop") then Ok pop
       else Err (Errorf "invalid dataset reference");
     Lib.CanonicalizeDatasetRef := λ ref, (ref, None);
     Lib.RefString := λ ref,
       Peername ref +:+ "/" +:+ Name ref +:+ "@" +:+ Path ref;
     Lib.AliasString := λ ref, Peername ref +:+ "/" +:+ Name ref;
     Lib.fsi_DeleteDatasetFiles := λ _, None;
     Lib.fsi_Unlink := λ _ _, None;
     Lib.DeleteDataset := λ ref, (ref, None);
     Lib.DatasetLog := λ ref _ _ _,
       Ok [ {| Lib.liRef := popLog; Lib.liPublished := false |};
            {| Lib.liRef := {| Username := "alice"; RName := "pop";
                               RProfileID := "QmAliceProfile";
                               RPath := "/ipfs/QmPop" |};
               Lib.liPublished := false |};
            {| Lib.liRef := {| Username := "alice"; RName := "pop";
                               RProfileID := "QmAliceProfile";
                               RPath := "/ipfs/QmP" |};
               Lib.liPublished := false |} ];
     Lib.ModifyDatasetRef := λ _ replace _, (replace, None);
     Lib.ConvertToDsref := λ ref,
       {| Username := Peername ref; RName := Name ref;
          RProfileID := ProfileID ref; RPath := Path ref |};
     Lib.WriteVersionDelete := λ _ _,
       Some (MkErr NoLogbook "logbook: does not exist");
     Lib.rpc_Remove := λ _ res, (res, None);
     Lib.rpc_Add := λ _ res, (res, None);
     Lib.Client_AddDataset := λ _ ref _, (ref, None);
     Lib.Checkout := λ _ _, None |}.

Definition requests : Lib.DatasetRequests :=
  {| Lib.cli := false;
     Lib.inst := {| Lib.cfg_Registry := Some "http://registry.example";
                    Lib.RemoteClient := Some alice |} |}.

Definition removeOne : Lib.RemoveParams :=
  {| Lib.Ref := "alice/pop";
     Lib.Revision := {| Lib.Field := "ds"; Lib.Gen := 1 |};
     Lib.Unlink := false; Lib.DeleteFSIFiles := false |}.

Definition noResponse : Lib.RemoveResponse :=
  {| Lib.rRef := ""; Lib.NumDeleted := 0; Lib.Unlinked := false;
     Lib.DeletedFSIFiles := false |}.

Definition addPop : Lib.AddParams :=
  {| Lib.aRef := "alice/pop"; Lib.LinkDir := ""; Lib.RemoteAddr := "" |}.

(** A configuration with both private keys. *)
Definition config : Core.Config_ :=
  {| Core.Profile :=
       Some {| Core.ID := "QmAliceProfile"; Core.PrivKey := "alice-secret";
               Core.Peername := "alice"; Core.Created := 1234567890;
               Core.Updated := 1234567890; Core.Name := "Alice";
               Core.Email := ""; Core.Description := ""; Core.HomeURL := "";
               Core.Color := "default"; Core.Twitter := "" |};
     Core.P2P :=
       Some {| Core.Enabled := true; Core.PeerID := "QmAlicePeer";
               Core.p2pPrivKey := "peer-secret"; Core.Port := 0 |};
     Core.Others := [("registry", "http://registry.example")] |}.

(** An encoder that prints the private keys it is shown. *)
Definition showKeys (e : Core.encodable) : result (list byte) :=
  Ok (String.list_byte_of_string
        match e with
        | Core.EConfig cfg =>
            "profile.privkey=" +:+ from_option Core.PrivKey "" (Core.Profile cfg)
            +:+ ";p2p.privkey="
            +:+ from_option Core.p2pPrivKey "" (Core.P2P cfg)
        | Core.EValue (Core.VString s) => s
        | Core.EValue _ => ""
        end).

Definition core : Core.World :=
  {| Core.Get := λ cfg field,
       if bool_decide (field = "profile.privkey") then
         Ok (Core.VString (from_option Core.PrivKey "" (Core.Profile cfg)))
       else Err (Errorf "path not found");
     Core.json_Marshal := showKeys;
     Core.json_MarshalIndent := λ e _ _, showKeys e;
     Core.yaml_Marshal := showKeys |}.

End Demo.

(** ** Package core: [LoadConfig] and [SaveConfig] *)
Module CoreLoad.
Import Core.

(** The collaborators of [LoadConfig] and [SaveConfig]. *)
Record World := {
  (** [config.ReadFromFile(path)]: the configuration ([None] is nil) and
      the error *)
  config_ReadFromFile : string → option Config_ * option error;
  (** [cfg.Logging]: [None] when the section is nil, otherwise the entries
      of its [Levels], in the order the loop visits them *)
  Logging_Levels : Config_ → option (list (string * string));
  (** [Config.WriteToFile(path)] *)
  WriteToFile : option Config_ → string → option error
}.

(** What [LoadConfig] leaves behind: the package variable [Config], the
    calls [golog.SetLogLevel(name, level)] it made, and the returned
    error. *)
Record loaded := {
  Config : option Config_;
  SetLogLevel : list (string * string);
  returned : option error
}.

Definition newline : string := String (Ascii.ascii_of_nat 10) "".

(** The message of [LoadConfig], with its two [%s] filled in. *)
Definition couldntRead (cause path : string) : string :=
  "couldn't read config file. error" +:+ newline
  +:+ "  " +:+ cause +:+ newline
  +:+ "if you've recently updated qri your config file may no longer be valid."
  +:+ newline
  +:+ "The easiest way to fix this is to delete your repository at:"
  +:+ newline
  +:+ "  " +:+ path +:+ newline
  +:+ "and start with a fresh qri install by running 'qri setup' again."
  +:+ newline
  +:+ "Sorry, we know this is not exactly a great experience, from this point forward"
  +:+ newline
  +:+ "we won't be shipping changes that require starting over." +:+ newline.

Section WithWorld.
Variable w : World.

(** [LoadConfig].  The result is [None] when [ReadFromFile] returns neither
    a configuration nor an error and [cfg.Profile] panics. *)
Definition LoadConfig (path : string) : option loaded :=
  let '(cfg, err) := config_ReadFromFile w path in
  match err, cfg with
  | None, None => None
  | _, _ =>
      let err :=
        match err, cfg with
        | None, Some c =>
            match Profile c with
            | None => Some (Errorf "missing profile")
            | Some _ => None
            end
        | _, _ => err
        end in
      let err :=
        match err with
        | Some e => Some (Errorf (couldntRead (Error e) path))
        | None => None
        end in
      let levels :=
        match cfg with
        | Some c => from_option id [] (Logging_Levels w c)
        | None => []
        end in
      Some {| Config := cfg; SetLogLevel := levels; returned := err |}
  end.

(** [SaveConfig], for the package variables [Config] and
    [ConfigFilepath]. *)
Definition SaveConfig (Config : option Config_) (ConfigFilepath : string)
  : option error :=
  match WriteToFile w Config ConfigFilepath with
  | Some err => Some (Errorf ("error saving profile: " +:+ Error err))
  | None => None
  end.

End WithWorld.
End CoreLoad.

(** ** dataset.Dataset and repo.DatasetRef in full

  The requests below read more of a dataset than the sync client and
  [AddDataset] do: the records of [Repo] are these without the components
  added here. *)
Module DS.

(** [dataset.Structure] *)
Record Structure_ := { Format : string; Schema : option string }.

(** [dataset.Dataset].  [Body] is an [interface{}], [BodyFile] the file
    [ds.BodyFile()] returns; [None] is nil. *)
Record Dataset := {
  Name : string;
  Peername : string;
  Path : string;
  PreviousPath : string;
  BodyPath : string;
  Body : option string;
  BodyBytes : option (list byte);
  BodyFile : option string;
  Commit : option Repo.Commit;
  Structure : option Structure_;
  Meta : option string;
  Viz : option string;
  Transform : option string
}.

(** The zero value [dataset.Dataset{}]. *)
Definition zero : Dataset :=
  {| Name := ""; Peername := ""; Path := ""; PreviousPath := "";
     BodyPath := ""; Body := None; BodyBytes := None; BodyFile := None;
     Commit := None; Structure := None; Meta := None; Viz := None;
     Transform := None |}.

(** [ds.Name = name; ds.Peername = peername] *)
Definition named (ds : Dataset) (name peername : string) : Dataset :=
  {| Name := name; Peername := peername; Path := Path ds;
     PreviousPath := PreviousPath ds; BodyPath := BodyPath ds;
     Body := Body ds; BodyBytes := BodyBytes ds; BodyFile := BodyFile ds;
     Commit := Commit ds; Structure := Structure ds; Meta := Meta ds;
     Viz := Viz ds; Transform := Transform ds |}.

Definition setStructure (ds : Dataset) (s : option Structure_) : Dataset :=
  {| Name := Name ds; Peername := Peername ds; Path := Path ds;
     PreviousPath := PreviousPath ds; BodyPath := BodyPath ds;
     Body := Body ds; BodyBytes := BodyBytes ds; BodyFile := BodyFile ds;
     Commit := Commit ds; Structure := s; Meta := Meta ds;
     Viz := Viz ds; Transform := Transform ds |}.

Definition setBodyFile (ds : Dataset) (f : option string) : Dataset :=
  {| Name := Name ds; Peername := Peername ds; Path := Path ds;
     PreviousPath := PreviousPath ds; BodyPath := BodyPath ds;
     Body := Body ds; BodyBytes := BodyBytes ds; BodyFile := f;
     Commit := Commit ds; Structure := Structure ds; Meta := Meta ds;
     Viz := Viz ds; Transform := Transform ds |}.

Definition setPreviousPath (ds : Dataset) (p : string) : Dataset :=
  {| Name := Name ds; Peername := Peername ds; Path := Path ds;
     PreviousPath := p; BodyPath := BodyPath ds;
     Body := Body ds; BodyBytes := BodyBytes ds; BodyFile := BodyFile ds;
     Commit := Commit ds; Structure := Structure ds; Meta := Meta ds;
     Viz := Viz ds; Transform := Transform ds |}.

End DS.

Module DSRef.

(** [repo.DatasetRef] *)
Record DatasetRef := {
  Peername : string;
  ProfileID : string;
  Name : string;
  Path : string;
  FSIPath : string;
  Published : bool;
  Dataset : option DS.Dataset
}.

Definition zero : DatasetRef :=
  {| Peername := ""; ProfileID := ""; Name := ""; Path := ""; FSIPath := "";
     Published := false; Dataset := None |}.

Definition setFSIPath (r : DatasetRef) (p : string) : DatasetRef :=
  {| Peername := Peername r; ProfileID := ProfileID r; Name := Name r;
     Path := Path r; FSIPath := p; Published := Published r;
     Dataset := Dataset r |}.

Definition setPublished (r : DatasetRef) (b : bool) : DatasetRef :=
  {| Peername := Peername r; ProfileID := ProfileID r; Name := Name r;
     Path := Path r; FSIPath := FSIPath r; Published := b;
     Dataset := Dataset r |}.

Definition setDataset (r : DatasetRef) (d : option DS.Dataset) : DatasetRef :=
  {| Peername := Peername r; ProfileID := ProfileID r; Name := Name r;
     Path := Path r; FSIPath := FSIPath r; Published := Published r;
     Dataset := d |}.

End DSRef.

(** ** Package actions: [SaveDataset] *)
Module ActionsSave.
Import Trace.

Record SaveDatasetSwitches := {
  Replace : bool;
  DryRun : bool;
  Pin : bool;
  ConvertFormatToPrev : bool;
  Force : bool;
  ShouldRender : bool
}.

(** The repo [SaveDataset] works on: the one it was given, or the one
    [repo.NewMemRepo] made for a dry run. *)
Inductive repo := Given | InMemory.

(** [profile.Profile], as far as it is told apart. *)
Record Profile := { pID : string; pPeername : string }.

(** The packages [SaveDataset] calls into.  A call that writes through a
    dataset pointer gives the final dataset; [prev] and [mutable] are the
    datasets the pointers of [base.PrepareDatasetSave] point to.  A
    [qfs.File] is named by a handle, [None] is nil. *)
Record World := {
  PrepareDatasetSave :
    string → string → result (DS.Dataset * DS.Dataset * string);
  (** [r.Profile()] *)
  Repo_Profile : result Profile;
  (** [repo.NewMemRepo(pro, cafs.NewMapstore(), r.Filesystem(),
      profile.NewMemStore())] *)
  NewMemRepo : Profile → option error;
  (** [startf.ExecScript(ctx, changes, prev, opts...)], the options being
      the repo, the check made from [changes], the writer and the secrets *)
  ExecScript :
    repo → DS.Dataset → DS.Dataset → option string → gmap string string
    → DS.Dataset * option error;
  (** [base.ConvertBodyFormat(file, from, to)] *)
  ConvertBodyFormat :
    option string → DS.Structure_ → DS.Structure_ → result (option string);
  (** [ds.Assign(other)]: the final [*ds] *)
  Assign : DS.Dataset → DS.Dataset → DS.Dataset;
  (** [base.InferValues(pro, ds)]: the final [*ds] and the error *)
  InferValues : Profile → DS.Dataset → DS.Dataset * option error;
  (** [base.MaybeAddDefaultViz(ds)]: the final [*ds] *)
  MaybeAddDefaultViz : DS.Dataset → DS.Dataset;
  (** [base.CreateDataset(ctx, r, str, ds, prev, dryRun, pin, force,
      shouldRender)] *)
  CreateDataset :
    repo → DS.Dataset → DS.Dataset → bool → bool → bool → bool
    → DSRef.DatasetRef * option error
}.

Definition newline : string := String (Ascii.ascii_of_nat 10) "".

(** What [SaveDataset] returns: [ref] and [err]. *)
Definition returns : Type := DSRef.DatasetRef * option error.

Section WithWorld.
Variable w : World.

(** The test on the body format and the conversion: the final [*changes],
    or the error. *)
Definition convert (sw : SaveDatasetSwitches) (changes prev : DS.Dataset)
  : result DS.Dataset :=
  match DS.BodyFile changes, DS.Structure prev, DS.Structure changes with
  | Some file, Some prevStructure, Some structure =>
      if bool_decide (DS.Format prevStructure ≠ DS.Format structure) then
        if ConvertFormatToPrev sw then
          match ConvertBodyFormat w (Some file) structure prevStructure with
          | Err err => Err err
          | Ok f =>
              let changes :=
                DS.setStructure changes
                  (Some {| DS.Format := DS.Format prevStructure;
                           DS.Schema := DS.Schema structure |}) in
              Ok (DS.setBodyFile changes f)
          end
        else
          Err (Errorf ("Refusing to change structure from "
                       +:+ DS.Format prevStructure +:+ " to "
                       +:+ DS.Format structure))
      else Ok changes
  | _, _, _ => Ok changes
  end.

(** [SaveDataset] from [if !sw.Replace] to the end. *)
Definition create (r : repo) (pro : Profile) (sw : SaveDatasetSwitches)
    (changes prev mutable : DS.Dataset) (prevPath : string)
  : list event * returns :=
  let changes := if Replace sw then changes else Assign w mutable changes in
  let inferred := InferValues w pro changes in
  match inferred.2 with
  | Some err => ([], (DSRef.zero, Some err))
  | None =>
      let changes := inferred.1 in
      let changes :=
        if ShouldRender sw then MaybeAddDefaultViz w changes else changes in
      let changes := DS.setPreviousPath changes prevPath in
      ([EvCall "base.CreateDataset" [AStr (DS.Name changes)]],
       CreateDataset w r changes prev (DryRun sw) (Pin sw) (Force sw)
         (ShouldRender sw))
  end.

(** [SaveDataset].  [str.PrintErr] is an [EvPrint]; what is written to the
    caller's [*changes] is not part of the result. *)
Definition SaveDataset (changes : DS.Dataset) (secrets : gmap string string)
    (scriptOut : option string) (sw : SaveDatasetSwitches)
  : list event * returns :=
  match PrepareDatasetSave w (DS.Peername changes) (DS.Name changes) with
  | Err err => ([], (DSRef.zero, Some err))
  | Ok (prev, mutable, prevPath) =>
      match Repo_Profile w with
      | Err err => ([], (DSRef.zero, Some err))
      | Ok pro =>
          let t0 :=
            if DryRun sw then [EvPrint ("🏃🏽‍♀️ dry run" +:+ newline)] else [] in
          match (if DryRun sw then NewMemRepo w pro else None) with
          | Some err => (t0, (DSRef.zero, Some err))
          | None =>
              let r := if DryRun sw then InMemory else Given in
              let ran :=
                match DS.Transform changes with
                | Some _ => ExecScript w r changes prev scriptOut secrets
                | None => (changes, None)
                end in
              let t1 :=
                match DS.Transform changes with
                | Some _ => [EvPrint ("✅ transform complete" +:+ newline)]
                | None => []
                end in
              match ran.2 with
              | Some err => (t0, (DSRef.zero, Some err))
              | None =>
                  let changes := ran.1 in
                  if bool_decide (prevPath = "")
                     && bool_decide (DS.BodyFile changes = None)
                     && bool_decide (DS.Structure changes = None) then
                    (t0 ++ t1,
                     (DSRef.zero,
                      Some (Errorf ("creating a new dataset requires a "
                                    +:+ "structure or a body"))))
                  else
                    match convert sw changes prev with
                    | Err err => (t0 ++ t1, (DSRef.zero, Some err))
                    | Ok changes =>
                        let made :=
                          create r pro sw changes prev mutable prevPath in
                        (t0 ++ t1 ++ made.1, made.2)
                    end
              end
          end
      end
  end.

End WithWorld.
End ActionsSave.

(** ** Package lib: how a [DatasetRequests] is made *)
Module LibInst.

(** A [qfs.Filesystem], by name. *)
Definition Filesystem : Type := string.

(** [Instance], as far as [Get] and [List] read it.  [RPC] tells whether
    [inst.RPC()] is a client. *)
Record Instance := {
  qfs : Filesystem;
  RPC : bool
}.

(** [DatasetRequests] with its pointer to the instance, which may be nil.
    [cli] tells whether [r.cli] is a client.  [node] is taken to be set:
    the packages reached through it are the [World] of each request.
    [Lib.DatasetRequests] is the case of an instance that is set. *)
Record DatasetRequests := {
  cli : bool;
  inst : option Instance
}.

(** [NewDatasetRequests(node, cli)] leaves [inst] nil. *)
Definition NewDatasetRequests (cli : bool) : DatasetRequests :=
  {| cli := cli; inst := None |}.

(** [NewDatasetRequestsInstance(inst)] *)
Definition NewDatasetRequestsInstance (i : Instance) : DatasetRequests :=
  {| cli := RPC i; inst := Some i |}.

End LibInst.

(** ** Package lib: [Get] *)
Module LibGet.
Import Trace.

Record GetParams := {
  Paths : list string;
  UseFSI : bool;
  Format : string;
  FormatConfig : option string;
  Filter : string;
  Limit : Z;
  Offset : Z;
  All : bool
}.

(** What an [interface{}] of [Get] holds. *)
Inductive value :=
| Source (ds : DS.Dataset)          (* a [*source.Dataset] *)
| Slice (l : list DS.Dataset)       (* a [[]interface{}] of them *)
| Other (v : string).               (* what a filter or the encoder made *)

Record GetResult := {
  Sources : list DS.Dataset;
  Result : option value
}.

Definition setResult (res : GetResult) (v : option value) : GetResult :=
  {| Sources := Sources res; Result := v |}.

(** The packages [Get] calls into. *)
Record World := {
  (** [repo.ErrEmptyRef] *)
  ErrEmptyRef : error;
  ParseDatasetRef : string → result DSRef.DatasetRef;
  (** [repo.CanonicalizeDatasetRef(r.node.Repo, ref)]: the final [*ref]
      and the error *)
  CanonicalizeDatasetRef :
    DSRef.DatasetRef → DSRef.DatasetRef * option error;
  (** [dsfs.LoadDataset(ctx, r.node.Repo.Store(), path)] *)
  LoadDataset : string → result DS.Dataset;
  (** [base.OpenDataset(ctx, fs, ds)]: the final [*ds] and the error *)
  OpenDataset : DS.Dataset → DS.Dataset * option error;
  (** [filter.New(p.Filter, source.QFSResolver{FS: fs}).Apply(ctx, v)] *)
  filter_Apply :
    LibInst.Filesystem → string → option value → option value * option error;
  (** [Encode(format, formatConfig, v)] *)
  Encode : string → option string → option value → option value * option error;
  rpc_Get : GetParams → GetResult → GetResult * option error
}.

Section WithWorld.
Variable w : World.

(** One round of the loop over [p.Paths], up to the two [append]s. *)
Definition load (path : string) : result DS.Dataset :=
  if bool_decide (path = "") then Err (ErrEmptyRef w)
  else
    match ParseDatasetRef w path with
    | Err _ =>
        Err (Errorf ("'" +:+ path +:+ "' is not a valid dataset reference"))
    | Ok ref =>
        let canon := CanonicalizeDatasetRef w ref in
        match canon.2 with
        | Some err => Err err
        | None =>
            let ref := canon.1 in
            match LoadDataset w (DSRef.Path ref) with
            | Err _ => Err (Errorf "error loading dataset")
            | Ok ds =>
                let ds := DS.named ds (DSRef.Name ref) (DSRef.Peername ref) in
                let opened := OpenDataset w ds in
                match opened.2 with
                | Some err => Err err
                | None => Ok opened.1
                end
            end
        end
    end.

(** The loop: [res.Sources] and [results] grow together until a path
    fails. *)
Fixpoint loadAll (paths : list string) (sources results : list DS.Dataset)
  : list DS.Dataset * list DS.Dataset * option error :=
  match paths with
  | [] => (sources, results, None)
  | path :: paths =>
      match load path with
      | Err err => (sources, results, Some err)
      | Ok ds => loadAll paths (sources ++ [ds]) (results ++ [ds])
      end
  end.

(** From [if p.Filter != ""] to the end, for the value assigned to
    [res.Result].  The filter reads [r.inst.qfs]: the result is [None] when
    [r.inst] is nil. *)
Definition finish (r : LibInst.DatasetRequests) (p : GetParams)
    (res : GetResult) (v : option value)
  : option (GetResult * option error) :=
  let res := setResult res v in
  let filtered :=
    if bool_decide (Filter p ≠ "") then
      match LibInst.inst r with
      | Some inst =>
          Some (filter_Apply w (LibInst.qfs inst) (Filter p) (Result res))
      | None => None
      end
    else Some (Result res, None) in
  match filtered with
  | None => None
  | Some filtered =>
      let res := setResult res filtered.1 in
      match filtered.2 with
      | Some err => Some (res, Some err)
      | None =>
          let encoded := Encode w (Format p) (FormatConfig p) (Result res) in
          Some (setResult res encoded.1, encoded.2)
      end
  end.

(** [Get].  The result is [None] when [results[0]] is out of range or
    [r.inst] is read and is nil. *)
Definition Get (r : LibInst.DatasetRequests) (p : GetParams)
    (res : GetResult)
  : option (list event * GetResult * option error) :=
  if LibInst.cli r then
    let x := rpc_Get w p res in
    Some ([EvRPC "DatasetRequests.Get"], x.1, x.2)
  else
    let '(sources, results, err) := loadAll (Paths p) (Sources res) [] in
    let res := {| Sources := sources; Result := Result res |} in
    match err with
    | Some err => Some ([], res, Some err)
    | None =>
        match length (Sources res) with
        | 0 => Some ([], res, None)
        | 1 =>
            match results with
            | ds :: _ =>
                (λ x, ([], x.1, x.2)) <$> finish r p res (Some (Source ds))
            | [] => None
            end
        | _ => (λ x, ([], x.1, x.2)) <$> finish r p res (Some (Slice results))
        end
    end.

End WithWorld.
End LibGet.

(** ** Package lib: [List] *)
Module LibList.
Import Trace.

(** [ListParams], as far as [List] reads it. *)
Record ListParams := {
  RPC : bool;
  Limit : Z;
  Offset : Z;
  Peername : string;
  ProfileID : string;
  Term : string;
  Published : bool;
  ShowNumVersions : bool
}.

Definition setRPC (p : ListParams) (b : bool) : ListParams :=
  {| RPC := b; Limit := Limit p; Offset := Offset p; Peername := Peername p;
     ProfileID := ProfileID p; Term := Term p; Published := Published p;
     ShowNumVersions := ShowNumVersions p |}.

Definition setLimit (p : ListParams) (n : Z) : ListParams :=
  {| RPC := RPC p; Limit := n; Offset := Offset p; Peername := Peername p;
     ProfileID := ProfileID p; Term := Term p; Published := Published p;
     ShowNumVersions := ShowNumVersions p |}.

Definition setOffset (p : ListParams) (n : Z) : ListParams :=
  {| RPC := RPC p; Limit := Limit p; Offset := n; Peername := Peername p;
     ProfileID := ProfileID p; Term := Term p; Published := Published p;
     ShowNumVersions := ShowNumVersions p |}.

(** The packages [List] calls into. *)
Record World := {
  (** [repo.CanonicalizeProfile(r.node.Repo, ref)]: the final [*ref] and the
      error *)
  CanonicalizeProfile : DSRef.DatasetRef → DSRef.DatasetRef * option error;
  (** [r.node.Repo.Profile()], of which [List] reads the [Peername] *)
  Profile_Peername : result string;
  (** [base.ListDatasets(ctx, repo, term, limit, offset, RPC, publishedOnly,
      showVersions)] *)
  base_ListDatasets :
    string → Z → Z → bool → bool → bool → result (list DSRef.DatasetRef);
  (** [r.inst.remoteClient.ListDatasets(ctx, ref, term, offset, limit)] *)
  remoteClient_ListDatasets :
    DSRef.DatasetRef → string → Z → Z → result (list DSRef.DatasetRef);
  rpc_List :
    ListParams → list DSRef.DatasetRef
    → list DSRef.DatasetRef * option error
}.

(** The body of the loop over [*res]: [rep.Dataset] is a pointer, so the
    dataset the listed reference points to loses its schema.  [None] when
    [rep.Dataset] is nil. *)
Definition stripSchema (rep : DSRef.DatasetRef) : option DSRef.DatasetRef :=
  match DSRef.Dataset rep with
  | None => None
  | Some ds =>
      Some (DSRef.setDataset rep
              (Some match DS.Structure ds with
                    | Some s =>
                        DS.setStructure ds
                          (Some {| DS.Format := DS.Format s;
                                   DS.Schema := None |})
                    | None => ds
                    end))
  end.

(** From [if err != nil] after the listing call to the end. *)
Definition listed (t : list event) (p : ListParams)
    (res : list DSRef.DatasetRef) (refs : result (list DSRef.DatasetRef))
  : option (list event * (ListParams * list DSRef.DatasetRef) * option error) :=
  match refs with
  | Err err => Some (t, (p, res), Some err)
  | Ok refs =>
      if RPC p then
        match mapM stripSchema refs with
        | Some refs => Some (t, (p, refs), None)
        | None => None
        end
      else Some (t, (p, refs), None)
  end.

Section WithWorld.
Variable w : World.

(** [List].  Both [p] and [res] are written through; the result is [None]
    when [r.inst] is read and is nil, and when a listed reference has no
    dataset and [rep.Dataset.Structure] panics. *)
Definition List (r : LibInst.DatasetRequests) (p : ListParams)
    (res : list DSRef.DatasetRef)
  : option (list event * (ListParams * list DSRef.DatasetRef) * option error) :=
  if LibInst.cli r then
    let p := setRPC p true in
    let x := rpc_List w p res in
    Some ([EvRPC "DatasetRequests.List"], (p, x.1), x.2)
  else
    let p := if bool_decide (Limit p ≤ 0)%Z then setLimit p 25 else p in
    let p := if bool_decide (Offset p < 0)%Z then setOffset p 0 else p in
    let ref :=
      {| DSRef.Peername := Peername p; DSRef.ProfileID := ProfileID p;
         DSRef.Name := ""; DSRef.Path := ""; DSRef.FSIPath := "";
         DSRef.Published := false; DSRef.Dataset := None |} in
    let canon := CanonicalizeProfile w ref in
    match canon.2 with
    | Some err =>
        Some ([], (p, res),
              Some (Errorf ("error canonicalizing peer: " +:+ Error err)))
    | None =>
        let ref := canon.1 in
        match Profile_Peername w with
        | Err err => Some ([], (p, res), Some err)
        | Ok pro =>
            if bool_decide (DSRef.Peername ref = "")
               || bool_decide (pro = DSRef.Peername ref)
            then
              listed [EvCall "base.ListDatasets"
                        [AStr (Term p); AInt (Limit p); AInt (Offset p)]]
                p res
                (base_ListDatasets w (Term p) (Limit p) (Offset p) (RPC p)
                   (Published p) (ShowNumVersions p))
            else
              match LibInst.inst r with
              | None => None
              | Some _ =>
                  listed [EvCall "remoteClient.ListDatasets"
                            [AStr (Term p); AInt (Offset p); AInt (Limit p)]]
                    p res
                    (remoteClient_ListDatasets w ref (Term p) (Offset p)
                       (Limit p))
              end
        end
    end.

End WithWorld.
End LibList.

(** ** Package lib: the smaller dataset requests *)
Module LibRequests.
Import Trace.

Record SetPublishStatusParams := { Ref : string; PublishStatus : bool }.

Record RenameParams := { Current : DSRef.DatasetRef; New : DSRef.DatasetRef }.

(** [ValidateDatasetParams]: the two [io.Reader]s are what can be read from
    them; [None] is nil. *)
Record ValidateDatasetParams := {
  vRef : string;
  BodyFilename : string;
  Body : option string;
  Schema : option string
}.

Record DAGInfoParams := { RefStr : string; Label : string }.

(** A file made by [qfs.NewMemfileReader(name, reader)]. *)
Record File := { FileName : string; Reader : string }.

(** [jsonschema.ValError] *)
Record ValError := { PropertyPath : string; Message : string }.

(** [dag.Manifest] and [dag.Info] *)
Record Manifest := { Links : list (Z * Z); Nodes : list string }.

Record Info := {
  iManifest : option Manifest;
  Paths : gmap string Z;
  Sizes : list Z
}.

(** The packages these requests call into. *)
Record World := {
  ParseDatasetRef : string → result DSRef.DatasetRef;
  (** [repo.CanonicalizeDatasetRef(r.node.Repo, &ref)]: the final [ref] and
      the error *)
  CanonicalizeDatasetRef : DSRef.DatasetRef → DSRef.DatasetRef * option error;
  (** [ref.String()] and [ref.IsEmpty()] *)
  RefString : DSRef.DatasetRef → string;
  IsEmpty : DSRef.DatasetRef → bool;
  (** [base.SetPublishStatus(repo, &ref, published)]: the final [ref] and
      the error *)
  base_SetPublishStatus :
    DSRef.DatasetRef → bool → DSRef.DatasetRef * option error;
  (** [base.ModifyDatasetRef(ctx, repo, &current, &new, isRename)]: both
      final references and the error *)
  base_ModifyDatasetRef :
    DSRef.DatasetRef → DSRef.DatasetRef → bool
    → DSRef.DatasetRef * DSRef.DatasetRef * option error;
  (** [base.ReadDataset(ctx, repo, &ref)]: the final [ref] and the error *)
  base_ReadDataset : DSRef.DatasetRef → DSRef.DatasetRef * option error;
  (** [NewError(ErrBadArgs, msg)] *)
  NewError_ErrBadArgs : string → error;
  (** [base.Validate(ctx, repo, ref, body, schema)] *)
  base_Validate :
    DSRef.DatasetRef → option File → option File
    → list ValError * option error;
  (** [r.node.NewManifest(ctx, path)], [r.node.MissingManifest(ctx, a)] and
      [r.node.NewDAGInfo(ctx, path, label)] *)
  NewManifest : string → result Manifest;
  MissingManifest : Manifest → result Manifest;
  NewDAGInfo : string → string → result Info;
  (** [r.cli.Call(method, args, reply)]: the final [*reply] and the error *)
  rpc_SetPublishStatus :
    SetPublishStatusParams → DSRef.DatasetRef
    → DSRef.DatasetRef * option error;
  rpc_Rename :
    RenameParams → DSRef.DatasetRef → DSRef.DatasetRef * option error;
  rpc_Validate :
    ValidateDatasetParams → list ValError → list ValError * option error;
  rpc_Manifest : string → Manifest → Manifest * option error;
  (** the call [ManifestMissing] makes: the method is that of [Manifest],
      the argument a manifest *)
  rpc_Manifest_of : Manifest → Manifest → Manifest * option error;
  rpc_DAGInfo : DAGInfoParams → Info → Info * option error
}.

(** [return r.cli.Call(method, args, reply)] *)
Definition call {Σ} (method : string) (x : Σ * option error) : MS Σ unit :=
  λ _, ([EvRPC method], x.1,
        match x.2 with None => Ok tt | Some e => Err e end).

Section WithWorld.
Variable w : World.

Definition SetPublishStatus (r : Lib.DatasetRequests)
    (p : SetPublishStatusParams) : MS DSRef.DatasetRef unit :=
  if Lib.cli r then
    λ publishedRef,
      call "DatasetRequests.SetPublishStatus"
        (rpc_SetPublishStatus w p publishedRef) publishedRef
  else
    ref ← liftS (ParseDatasetRef w (Ref p));
    let canon := CanonicalizeDatasetRef w ref in
    liftErrS canon.2;;
    let ref := DSRef.setPublished canon.1 (PublishStatus p) in
    emitS (EvCall "base.SetPublishStatus" [AStr (RefString w ref)]);;
    let set := base_SetPublishStatus w ref (DSRef.Published ref) in
    liftErrS set.2;;
    modify (λ _, set.1).

(** [Rename].  [p.Current] and [p.New] are written through by the two
    calls into package base, [res] on success. *)
Definition Rename (r : Lib.DatasetRequests)
  : MS (RenameParams * DSRef.DatasetRef) unit :=
  if Lib.cli r then
    λ σ,
      let x := rpc_Rename w σ.1 σ.2 in
      call "DatasetRequests.Rename" ((σ.1, x.1), x.2) σ
  else
    σ ← get;
    let p := σ.1 in
    if IsEmpty w (Current p) then
      failS (Errorf "current name is required to rename a dataset")
    else
      emitS (EvCall "base.ModifyDatasetRef"
               [AStr (RefString w (Current p)); AStr (RefString w (New p))]);;
      let m := base_ModifyDatasetRef w (Current p) (New p) true in
      modify (λ σ, ({| Current := m.1.1; New := m.1.2 |}, σ.2));;
      liftErrS m.2;;
      let read := base_ReadDataset w m.1.2 in
      modify (λ σ, ({| Current := m.1.1; New := read.1 |}, σ.2));;
      (match read.2 with
       | Some err =>
           emitS (EvLog DebugLevel "%s" [AStr (Error err)]);;
           failS err
       | None => mret tt
       end);;
      modify (λ σ, (σ.1, New σ.1)).

Definition Validate (r : Lib.DatasetRequests) (p : ValidateDatasetParams)
  : MS (list ValError) unit :=
  if Lib.cli r then
    λ errors,
      call "DatasetRequests.Validate" (rpc_Validate w p errors) errors
  else if bool_decide (vRef p = "") && bool_decide (Body p = None)
          && bool_decide (Schema p = None) then
    failS (NewError_ErrBadArgs w
             ("please provide a dataset name, or a supply the --body and "
              +:+ "--schema flags with file paths"))
  else
    let body :=
      match Body p with
      | Some rd => Some {| FileName := BodyFilename p; Reader := rd |}
      | None => None
      end in
    let schema :=
      match Schema p with
      | Some rd => Some {| FileName := "schema.json"; Reader := rd |}
      | None => None
      end in
    ref ← (if bool_decide (vRef p ≠ "") then liftS (ParseDatasetRef w (vRef p))
           else mret DSRef.zero);
    let v := base_Validate w ref body schema in
    modify (λ _, v.1);;
    liftErrS v.2.

Definition Manifest_ (r : Lib.DatasetRequests) (refstr : string)
  : MS Manifest unit :=
  if Lib.cli r then
    λ m, call "DatasetRequests.Manifest" (rpc_Manifest w refstr m) m
  else
    ref ← liftS (ParseDatasetRef w refstr);
    let canon := CanonicalizeDatasetRef w ref in
    liftErrS canon.2;;
    mf ← liftS (NewManifest w (DSRef.Path canon.1));
    modify (λ _, mf).

Definition ManifestMissing (r : Lib.DatasetRequests) (a : Manifest)
  : MS Manifest unit :=
  if Lib.cli r then
    λ b, call "DatasetRequests.Manifest" (rpc_Manifest_of w a b) b
  else
    mf ← liftS (MissingManifest w a);
    modify (λ _, mf).

Definition DAGInfo (r : Lib.DatasetRequests) (s : DAGInfoParams)
  : MS Info unit :=
  if Lib.cli r then
    λ i, call "DatasetRequests.DAGInfo" (rpc_DAGInfo w s i) i
  else
    ref ← liftS (ParseDatasetRef w (RefStr s));
    let canon := CanonicalizeDatasetRef w ref in
    liftErrS canon.2;;
    info ← liftS (NewDAGInfo w (DSRef.Path canon.1) (Label s));
    modify (λ _, info).

End WithWorld.
End LibRequests.

(** ** Package lib: [Save] and [AbsolutizePaths] *)
Module LibSave.
Import Trace.

(** [SaveParams].  [ScriptOutput] is an [io.Writer], named by a handle. *)
Record SaveParams := {
  Dataset : option DS.Dataset;
  Ref : string;
  Title : string;
  Message : string;
  BodyPath : string;
  FilePaths : list string;
  Secrets : gmap string string;
  ScriptOutput : option string;
  ReadFSI : bool;
  WriteFSI : bool;
  Replace : bool;
  Private : bool;
  Publish : bool;
  DryRun : bool;
  ReturnBody : bool;
  ConvertFormatToPrev : bool;
  Recall : string;
  Force : bool;
  ShouldRender : bool
}.

Definition setPaths (p : SaveParams) (files : list string) (body : string)
  : SaveParams :=
  {| Dataset := Dataset p; Ref := Ref p; Title := Title p;
     Message := Message p; BodyPath := body; FilePaths := files;
     Secrets := Secrets p; ScriptOutput := ScriptOutput p;
     ReadFSI := ReadFSI p; WriteFSI := WriteFSI p; Replace := Replace p;
     Private := Private p; Publish := Publish p; DryRun := DryRun p;
     ReturnBody := ReturnBody p;
     ConvertFormatToPrev := ConvertFormatToPrev p; Recall := Recall p;
     Force := Force p; ShouldRender := ShouldRender p |}.

(** [base.SaveDatasetSwitches] *)
Record SaveDatasetSwitches := {
  swReplace : bool;
  swDryRun : bool;
  swPin : bool;
  swConvertFormatToPrev : bool;
  swForce : bool;
  swShouldRender : bool
}.

(** The packages [Save] calls into. *)
Record World := {
  (** [fsi.ErrNoLink] *)
  ErrNoLink : error;
  ParseDatasetRef : string → result DSRef.DatasetRef;
  (** [repo.CanonicalizeDatasetRef(r.node.Repo, &ref)]: the final [ref] and
      the error *)
  CanonicalizeDatasetRef : DSRef.DatasetRef → DSRef.DatasetRef * option error;
  RefString : DSRef.DatasetRef → string;
  fsi_ReadDir : string → result DS.Dataset;
  (** [ds.Assign(other)]: the final [*ds] *)
  Assign : DS.Dataset → DS.Dataset → DS.Dataset;
  base_Recall : string → DSRef.DatasetRef → result DS.Dataset;
  ReadDatasetFiles : list string → result DS.Dataset;
  (** [base.OpenDataset(ctx, fs, ds)]: the final [*ds] and the error *)
  OpenDataset : DS.Dataset → DS.Dataset * option error;
  base_SaveDataset :
    DS.Dataset → gmap string string → option string → SaveDatasetSwitches
    → result DSRef.DatasetRef;
  PutRef : DSRef.DatasetRef → option error;
  (** [base.InlineJSONBody(ref.Dataset)]: the final dataset and the error *)
  InlineJSONBody : option DS.Dataset → option DS.Dataset * option error;
  (** what [SetPublishStatus] meets once the dataset is saved *)
  saved : LibRequests.World;
  (** [qfs.AbsPath(&path)]: the final [path] and the error *)
  AbsPath : string → string * option error;
  rpc_Save : SaveParams → DSRef.DatasetRef → DSRef.DatasetRef * option error
}.

Section WithWorld.
Variable w : World.

(** The loop of [AbsolutizePaths] over [p.FilePaths]. *)
Fixpoint absAll (paths : list string) : list string * option error :=
  match paths with
  | [] => ([], None)
  | path :: paths =>
      let a := AbsPath w path in
      match a.2 with
      | Some err => (a.1 :: paths, Some err)
      | None => let rest := absAll paths in (a.1 :: rest.1, rest.2)
      end
  end.

(** [AbsolutizePaths], on a receiver that may be nil: the final [*p] and
    the error. *)
Definition AbsolutizePaths (p : option SaveParams)
  : option SaveParams * option error :=
  match p with
  | None => (None, None)
  | Some p =>
      let files := absAll (FilePaths p) in
      match files.2 with
      | Some err => (Some (setPaths p files.1 (BodyPath p)), Some err)
      | None =>
          let body := AbsPath w (BodyPath p) in
          (Some (setPaths p files.1 body.1),
           match body.2 with
           | Some err => Some (Errorf ("body file: " +:+ Error err))
           | None => None
           end)
      end
  end.

(** The test before "no changes to save". *)
Definition unchanged (ds : DS.Dataset) : bool :=
  bool_decide (DS.BodyPath ds = "") && bool_decide (DS.Body ds = None)
  && bool_decide (DS.BodyBytes ds = None)
  && bool_decide (DS.Structure ds = None) && bool_decide (DS.Meta ds = None)
  && bool_decide (DS.Viz ds = None) && bool_decide (DS.Transform ds = None).

(** The dataset [Save] hands to [base.OpenDataset]: from [ds :=
    &dataset.Dataset{}] to the [Assign] of the dataset files.  When
    [p.Dataset] is given it is the dataset the later calls write to; what
    it holds in the end is not part of the result. *)
Definition prepare (p : SaveParams) (ref : DSRef.DatasetRef)
  : MS DSRef.DatasetRef (DSRef.DatasetRef * DS.Dataset) :=
  '(ref, ds) ←
     (if ReadFSI p then
        let canon := CanonicalizeDatasetRef w ref in
        (match canon.2 with
         | Some err =>
             if bool_decide (eid err ≠ NoHistory) then failS err else mret tt
         | None => mret tt
         end);;
        let ref := canon.1 in
        if bool_decide (DSRef.FSIPath ref = "") then failS (ErrNoLink w)
        else
          ds ← liftS (fsi_ReadDir w (DSRef.FSIPath ref));
          mret (ref, ds)
      else mret (ref, DS.zero));
  let ds :=
    Assign w ds
      {| DS.Name := DSRef.Name ref; DS.Peername := DSRef.Peername ref;
         DS.Path := ""; DS.PreviousPath := ""; DS.BodyPath := BodyPath p;
         DS.Body := None; DS.BodyBytes := None; DS.BodyFile := None;
         DS.Commit :=
           Some {| Repo.Title := Title p; Repo.Message := Message p;
                   Repo.Timestamp := 0 |};
         DS.Structure := None; DS.Meta := None; DS.Viz := None;
         DS.Transform := None |} in
  let ds :=
    match Dataset p with
    | Some given => Assign w given ds
    | None => ds
    end in
  ds ←
    (if bool_decide (Recall p ≠ "") then
       recall ←
         liftS (base_Recall w (Recall p)
                  {| DSRef.Peername := DS.Peername ds; DSRef.ProfileID := "";
                     DSRef.Name := DS.Name ds; DSRef.Path := DS.Path ds;
                     DSRef.FSIPath := ""; DSRef.Published := false;
                     DSRef.Dataset := None |});
       mret (Assign w recall ds)
     else mret ds);
  ds ←
    (if bool_decide (0 < length (FilePaths p))%nat then
       dsf ← liftS (ReadDatasetFiles w (FilePaths p));
       mret (Assign w dsf ds)
     else mret ds);
  mret (ref, ds).

Definition switches (p : SaveParams) : SaveDatasetSwitches :=
  {| swReplace := Replace p; swDryRun := DryRun p; swPin := true;
     swConvertFormatToPrev := ConvertFormatToPrev p; swForce := Force p;
     swShouldRender := ShouldRender p |}.

(** [Save] from the return of [base.SaveDataset] on: [ref] is the reference
    it returned, [fsiPath] the link read before the save. *)
Definition finish (r : Lib.DatasetRequests) (p : SaveParams)
    (fsiPath : string) (ref : DSRef.DatasetRef) : MS DSRef.DatasetRef unit :=
  ref ←
    (if bool_decide (fsiPath ≠ "") then
       let ref := DSRef.setFSIPath ref fsiPath in
       emitS (EvCall "Repo.PutRef" [AStr (RefString w ref)]);;
       liftErrS (PutRef w ref);;
       mret ref
     else mret ref);
  ref ←
    (if ReturnBody p then
       let inlined := InlineJSONBody w (DSRef.Dataset ref) in
       liftErrS inlined.2;;
       mret (DSRef.setDataset ref inlined.1)
     else mret ref);
  (if Publish p then
     λ res,
       let x :=
         LibRequests.SetPublishStatus (saved w) r
           {| LibRequests.Ref := RefString w ref;
              LibRequests.PublishStatus := true |} DSRef.zero in
       (x.1.1, res, x.2)
   else mret tt);;
  modify (λ _, ref);;
  if WriteFSI p then
    emitS (EvCall "fsi.WriteComponents" [AStr (DSRef.FSIPath ref)])
  else mret tt.

Definition Save (r : Lib.DatasetRequests) (p : SaveParams)
  : MS DSRef.DatasetRef unit :=
  if Lib.cli r then
    λ res, LibRequests.call "DatasetRequests.Save" (rpc_Save w p res) res
  else if Private p then
    failS (Errorf ("option to make dataset private not yet implimented, "
                   +:+ "refer to https://github.com/qri-io/qri/issues/291 "
                   +:+ "for updates"))
  else
    ref ← liftS (ParseDatasetRef w (Ref p));
    '(ref, ds) ← prepare p ref;
    if bool_decide (DS.Name ds = "") then failS (Errorf "name is required")
    else if negb (Force p) && unchanged ds then
      failS (Errorf "no changes to save")
    else
      let opened := OpenDataset w ds in
      (match opened.2 with
       | Some err =>
           emitS (EvLog DebugLevel "open ds error: %s" [AStr (Error err)]);;
           failS err
       | None => mret tt
       end);;
      let ds := opened.1 in
      let fsiPath := DSRef.FSIPath ref in
      emitS (EvCall "base.SaveDataset" [AStr (DS.Name ds)]);;
      match base_SaveDataset w ds (Secrets p) (ScriptOutput p) (switches p)
      with
      | Err err =>
          emitS (EvLog DebugLevel ("create ds error: %s" +:+ Actions.newline)
                   [AStr (Error err)]);;
          failS err
      | Ok ref => finish r p fsiPath ref
      end.

End WithWorld.
End LibSave.

(** ** Package api: the server *)
Module Api.
Import Trace.

(** [LocalHostIP] *)
Definition LocalHostIP : string := "127.0.0.1".

Definition newline : string := String (Ascii.ascii_of_nat 10) "".

(** The double quote. *)
Definition quote : string := String (Ascii.ascii_of_nat 34) "".

(** [http.StatusOK], [http.StatusBadRequest], [http.StatusForbidden] and
    [http.StatusInternalServerError] *)
Definition StatusOK : Z := 200.
Definition StatusBadRequest : Z := 400.
Definition StatusForbidden : Z := 403.
Definition StatusInternalServerError : Z := 500.

(** The sections of [config.Config] the server reads, with the fields it
    reads.  Each section is a pointer; [None] is nil. *)
Record API_ := {
  Enabled : bool;
  ReadOnly : bool;
  WebsocketEnabled : bool;
  WebsocketPort : Z;
  DisconnectAfter : Z
}.

Record RPC_ := { rpcEnabled : bool; rpcPort : Z }.

Record P2P_ := { p2pEnabled : bool }.

Record Remote_ := { remoteEnabled : bool }.

Record Config_ := {
  API : option API_;
  RPC : option RPC_;
  P2P : option P2P_;
  Remote : option Remote_
}.

(** [Server]: [Config] is [s.Config()]. *)
Record Server := { Config : Config_ }.

(** [watchfs.FilesysEvent] *)
Record FilesysEvent := {
  Type_ : string;
  Source : string;
  Destination : string;
  Time_ : Z
}.

(** A set of handlers built by one of the constructors, with the read-only
    flag it was given. *)
Inductive handlers :=
| Handlers (constructor : string) (readOnly : option bool)
| RootHandler (dsh ph : handlers).

(** An [http.Handler] of the routes. *)
Inductive handler :=
| Func (name : string)
| Method (hs : handlers) (name : string)
| MethodOf (hs : handlers) (name : string) (arg : string)
| middleware (h : handler)
| datasetRefMiddleware (h : handler).

(** [http.ServeMux]: the registered patterns, in order of registration. *)
Definition ServeMux : Type := list (string * handler).

(** [m.Handle(pattern, h)] panics on an empty pattern and on a pattern
    that is registered already. *)
Definition Handle (m : ServeMux) (pattern : string) (h : handler)
  : option ServeMux :=
  if bool_decide (pattern = "") then None
  else if bool_decide (pattern ∈ m.*1) then None
  else Some (m ++ [(pattern, h)]).

(** The node, the instance and the packages the server calls into. *)
Record World := {
  (** [APIVersion] *)
  APIVersion : string;
  (** [cfg.SummaryString()] *)
  SummaryString : string;
  (** [s.Instance.Connect(ctx)] *)
  Connect : option error;
  (** [a.String()] for the addresses of [node.EncapsulatedAddresses()] *)
  EncapsulatedAddresses : list string;
  (** [StartServer(cfg.API, server)], for the handler of [server] *)
  StartServer : API_ → ServeMux → option error;
  (** [net.Listen(network, address)] *)
  net_Listen : string → string → option error;
  (** [rcvr.CoreRequestsName()] for the receivers of
      [lib.Receivers(s.Instance)] *)
  Receivers : list string;
  (** [rpc.Register(rcvr)], given the receivers registered before it *)
  rpc_Register : list string → string → option error;
  (** [node.Repo.Store().Get(ctx, path)] *)
  Store_Get : string → result string;
  (** [node.GetIPFSNamesys()]: the error *)
  GetIPFSNamesys : option error;
  (** [namesys.Resolve(ctx, name)], as [p.String()] *)
  namesys_Resolve : string → result string;
  (** [node.Repo.References(offset, limit)] *)
  References : Z → Z → result (list DSRef.DatasetRef);
  (** [component.IsKnownFilename(source, component.GetKnownFilenames())] *)
  IsKnownFilename : string → bool;
  (** what [%s] prints for an event *)
  FilesysEvent_String : FilesysEvent → string;
  (** [wsjson.Write(ctx, c, e)] *)
  wsjson_Write : string → FilesysEvent → option error;
  (** [srv.Serve(l)]: the error, and whether it is [http.ErrServerClosed] *)
  srv_Serve : error * bool
}.

(** [path[n:]]; [None] when the slice bound is out of range. *)
Definition sliceFrom (n : nat) (path : string) : option string :=
  if (String.length path <? n)%nat then None
  else Some (String.substring n (String.length path - n) path).

(** [go f()]: the goroutine is started, what it does is told apart. *)
Definition go (f : string) : event := EvCall "go" [AStr f].

Section WithWorld.
Variable w : World.

(** [apiutil.WriteErrResponse(w, status, err)] *)
Definition WriteErrResponse (status : Z) (err : error) : event :=
  EvCall "apiutil.WriteErrResponse" [AInt status; AErr err].

Definition readOnlyResponse (endpoint : string) : list event :=
  [WriteErrResponse StatusForbidden
     (Errorf ("qri server is in read-only mode, access to '" +:+ endpoint
              +:+ "' endpoint is forbidden"))].

Definition fetchCAFSPath (path : string) : list event :=
  EvCall "Store.Get" [AStr path] ::
  match Store_Get w path with
  | Err err => [WriteErrResponse StatusInternalServerError err]
  | Ok file => [EvCall "io.Copy" [AStr file]]
  end.

(** [HandleIPFSPath] for a request of [r.URL.Path = path].  [None] is a
    panic. *)
Definition HandleIPFSPath (s : Server) (path : string)
  : option (list event) :=
  api ← API (Config s);
  if ReadOnly api then Some (readOnlyResponse "/ipfs/")
  else Some (fetchCAFSPath path).

Definition HandleIPNSPath (s : Server) (path : string)
  : option (list event) :=
  api ← API (Config s);
  if ReadOnly api then Some (readOnlyResponse "/ipns/")
  else
    match GetIPFSNamesys w with
    | Some err =>
        Some [EvCall "node.GetIPFSNamesys" [];
              WriteErrResponse StatusBadRequest
                (Errorf ("no IPFS node present: " +:+ Error err))]
    | None =>
        name ← sliceFrom (String.length "/ipns/") path;
        match namesys_Resolve w name with
        | Err err =>
            Some [EvCall "node.GetIPFSNamesys" [];
                  EvCall "namesys.Resolve" [AStr name];
                  WriteErrResponse StatusBadRequest
                    (Errorf ("error resolving IPNS Name: " +:+ Error err))]
        | Ok p =>
            Some ([EvCall "node.GetIPFSNamesys" [];
                   EvCall "namesys.Resolve" [AStr name]]
                  ++ fetchCAFSPath p)
        end
    end.

Definition HealthCheckHandler : list event :=
  [EvCall "w.WriteHeader" [AInt StatusOK];
   EvCall "w.Write"
     [AStr ("{ " +:+ quote +:+ "meta" +:+ quote +:+ ": { " +:+ quote
            +:+ "code" +:+ quote +:+ ": 200, " +:+ quote +:+ "status"
            +:+ quote +:+ ": " +:+ quote +:+ "ok" +:+ quote +:+ ", "
            +:+ quote +:+ "versionzz" +:+ quote +:+ ":" +:+ quote
            +:+ APIVersion w +:+ quote +:+ " }, " +:+ quote +:+ "data"
            +:+ quote +:+ ": [] }")]].

(** [cfg.Remote != nil && cfg.Remote.Enabled] *)
Definition remoteMode (cfg : Config_) : bool :=
  match Remote cfg with
  | Some remote => remoteEnabled remote
  | None => false
  end.

(** [NewServerRoutes]: what it logs and the mux.  [None] is a panic, of
    [cfg.API.ReadOnly] or of [m.Handle]. *)
Definition NewServerRoutes (s : Server) : option (list event * ServeMux) :=
  let cfg := Config s in
  m ← Handle [] "/health" (middleware (Func "HealthCheckHandler"));
  m ← Handle m "/ipfs/" (middleware (Func "s.HandleIPFSPath"));
  m ← Handle m "/ipns/" (middleware (Func "s.HandleIPNSPath"));
  api ← API cfg;
  let ro := ReadOnly api in
  let proh := Handlers "NewProfileHandlers" (Some ro) in
  m ← Handle m "/me" (middleware (Method proh "ProfileHandler"));
  m ← Handle m "/profile" (middleware (Method proh "ProfileHandler"));
  m ← Handle m "/profile/photo"
        (middleware (Method proh "ProfilePhotoHandler"));
  m ← Handle m "/profile/poster" (middleware (Method proh "PosterHandler"));
  let ph := Handlers "NewPeerHandlers" (Some ro) in
  m ← Handle m "/peers" (middleware (Method ph "PeersHandler"));
  m ← Handle m "/peers/" (middleware (Method ph "PeerHandler"));
  m ← Handle m "/connect/" (middleware (Method ph "ConnectToPeerHandler"));
  m ← Handle m "/connections" (middleware (Method ph "ConnectionsHandler"));
  '(t, m) ←
    (if remoteMode cfg then
       let remh := Handlers "NewRemoteHandlers" None in
       m ← Handle m "/remote/dsync" (middleware (Method remh "DsyncHandler"));
       m ← Handle m "/remote/logsync"
             (middleware (Method remh "LogsyncHandler"));
       m ← Handle m "/remote/refs" (middleware (Method remh "RefsHandler"));
       Some ([EvCall "log.Info" [AStr "running in `remote` mode"]], m)
     else Some ([], m));
  let dsh := Handlers "NewDatasetHandlers" (Some ro) in
  m ← Handle m "/list" (middleware (Method dsh "ListHandler"));
  m ← Handle m "/list/" (middleware (Method dsh "PeerListHandler"));
  m ← Handle m "/save" (middleware (Method dsh "SaveHandler"));
  m ← Handle m "/save/" (middleware (Method dsh "SaveHandler"));
  m ← Handle m "/remove/" (middleware (Method dsh "RemoveHandler"));
  m ← Handle m "/me/" (middleware (Method dsh "GetHandler"));
  m ← Handle m "/add/" (middleware (Method dsh "AddHandler"));
  m ← Handle m "/rename" (middleware (Method dsh "RenameHandler"));
  m ← Handle m "/export/" (middleware (Method dsh "ZipDatasetHandler"));
  m ← Handle m "/diff" (middleware (Method dsh "DiffHandler"));
  m ← Handle m "/body/" (middleware (Method dsh "BodyHandler"));
  m ← Handle m "/stats/" (middleware (Method dsh "StatsHandler"));
  m ← Handle m "/unpack/" (middleware (Method dsh "UnpackHandler"));
  let remClientH := Handlers "NewRemoteClientHandlers" (Some ro) in
  m ← Handle m "/publish/" (middleware (Method remClientH "PublishHandler"));
  m ← Handle m "/fetch/"
        (middleware (MethodOf remClientH "NewFetchHandler" "/fetch"));
  let uh := Handlers "UpdateHandlers" (Some ro) in
  m ← Handle m "/update" (middleware (Method uh "UpdatesHandler"));
  m ← Handle m "/update/run" (middleware (Method uh "RunHandler"));
  m ← Handle m "/update/logs" (middleware (Method uh "LogsHandler"));
  m ← Handle m "/update/logs/file" (middleware (Method uh "LogFileHandler"));
  m ← Handle m "/update/service" (middleware (Method uh "ServiceHandler"));
  let fsih := Handlers "NewFSIHandlers" (Some ro) in
  m ← Handle m "/status/"
        (middleware (MethodOf fsih "StatusHandler" "/status"));
  m ← Handle m "/init/" (middleware (MethodOf fsih "InitHandler" "/init"));
  m ← Handle m "/checkout/"
        (middleware (MethodOf fsih "CheckoutHandler" "/checkout"));
  m ← Handle m "/restore/"
        (middleware (MethodOf fsih "RestoreHandler" "/restore"));
  m ← Handle m "/fsi/write/"
        (middleware (MethodOf fsih "WriteHandler" "/fsi/write"));
  let renderh := Handlers "NewRenderHandlers" None in
  m ← Handle m "/render/" (middleware (Method renderh "RenderHandler"));
  let lh := Handlers "NewLogHandlers" None in
  m ← Handle m "/history/" (middleware (Method lh "LogHandler"));
  let rch := Handlers "NewRegistryClientHandlers" (Some ro) in
  m ← Handle m "/registry/profile/new"
        (middleware (Method rch "CreateProfileHandler"));
  m ← Handle m "/registry/profile/prove"
        (middleware (Method rch "ProveProfileKeyHandler"));
  let sh := Handlers "NewSearchHandlers" None in
  m ← Handle m "/search" (middleware (Method sh "SearchHandler"));
  let rh := RootHandler dsh ph in
  m ← Handle m "/" (datasetRefMiddleware (middleware (Method rh "Handler")));
  Some (t, m).

(** The loop of [MaybeServeRPC] over the receivers: the calls, and the
    error that ended it. *)
Fixpoint register (done rcvrs : list string) : list event * option error :=
  match rcvrs with
  | [] => ([], None)
  | rcvr :: rcvrs =>
      let call := EvCall "rpc.Register" [AStr rcvr] in
      match rpc_Register w done rcvr with
      | Some err =>
          ([call;
            EvLog ErrorLevel
              "cannot start RPC: error registering RPC receiver %s: %s"
              [AStr rcvr; AStr (Error err)]], Some err)
      | None =>
          let rest := register (done ++ [rcvr]) rcvrs in
          (call :: rest.1, rest.2)
      end
  end.

(** [MaybeServeRPC], up to the return of [rpc.Accept].  [None] is a panic,
    of [cfg.RPC.Enabled]. *)
Definition MaybeServeRPC (s : Server) : option (list event) :=
  rpc ← RPC (Config s);
  if negb (rpcEnabled rpc) then Some []
  else
    let address := LocalHostIP +:+ ":" +:+ pretty (rpcPort rpc) in
    let listen := EvCall "net.Listen" [AStr "tcp"; AStr address] in
    match net_Listen w "tcp" address with
    | Some err =>
        Some [listen;
              EvCall "log.Infof"
                [AStr "RPC listen on port %d error: %s"; AInt (rpcPort rpc);
                 AErr err]]
    | None =>
        let registered := register [] (Receivers w) in
        match registered.2 with
        | Some _ => Some (listen :: registered.1)
        | None =>
            Some (listen :: registered.1
                  ++ [go "<-ctx.Done(); listener.Close()";
                      EvCall "rpc.Accept" [AStr address]])
        end
    end.

(** The loop of [startFilesysWatcher] over the references. *)
Fixpoint fsiPaths (paths : list string) (refs : list DSRef.DatasetRef)
  : list string :=
  match refs with
  | [] => paths
  | ref :: refs =>
      if bool_decide (DSRef.FSIPath ref ≠ "")
      then fsiPaths (paths ++ [DSRef.FSIPath ref]) refs
      else fsiPaths paths refs
  end.

Definition startFilesysWatcher : list event * option error :=
  match References w 0 100 with
  | Err err => ([], Some err)
  | Ok refs =>
      ([EvCall "Watcher.Begin" (AStr <$> fsiPaths [] refs)], None)
  end.

Definition filterEvent (e : FilesysEvent) : bool :=
  IsKnownFilename w (Source e).

(** The loop over [connections] for an event that passed the filter; [k]
    is the index of the first connection of the list. *)
Fixpoint writeAll (k : Z) (connections : list string) (e : FilesysEvent)
  : list event :=
  match connections with
  | [] => []
  | c :: connections =>
      EvCall "wsjson.Write" [AStr c; AStr (FilesysEvent_String w e)]
      :: match wsjson_Write w c e with
         | Some err =>
             [EvLog ErrorLevel "connection %d: wsjson write error: %s"
                [AInt k; AErr err]]
         | None => []
         end
      ++ writeAll (k + 1) connections e
  end.

(** One round of the forwarding loop, for the event received and the
    connections collected so far. *)
Definition forward (connections : list string) (e : FilesysEvent)
  : list event :=
  if filterEvent e then
    EvLog DebugLevel ("filesys event: %s" +:+ newline)
      [AStr (FilesysEvent_String w e)]
    :: writeAll 0 connections e
  else [].

(** The handler of the websocket server, for the outcome of
    [websocket.Accept]: what it logs and the connections afterwards. *)
Definition accept (connections : list string) (c : result string)
  : list event * list string :=
  match c with
  | Err err =>
      ([EvCall "log.Infof" [AStr "Websocket accept error: %s"; AErr err]],
       connections)
  | Ok c => ([], connections ++ [c])
  end.

(** What the websocket server meets: a client whose upgrade
    [websocket.Accept] answered, or an event on [fsmessages]. *)
Inductive input :=
| Accepted (c : result string)
| Message (e : FilesysEvent).

(** The handler and the forwarding loop, stepped by what arrives: a round
    of the loop ranges over the connections collected when it starts. *)
Fixpoint exchange (connections : list string) (inputs : list input)
  : list event :=
  match inputs with
  | [] => []
  | Accepted c :: inputs =>
      (accept connections c).1 ++ exchange (accept connections c).2 inputs
  | Message e :: inputs =>
      forward connections e ++ exchange connections inputs
  end.

(** The goroutine [MaybeServeWebsocket] starts, up to its return. *)
Definition serveWebsocket (api : API_) : list event :=
  let address := LocalHostIP +:+ ":" +:+ pretty (WebsocketPort api) in
  let listen := EvCall "net.Listen" [AStr "tcp"; AStr address] in
  match net_Listen w "tcp" address with
  | Some err =>
      [listen;
       EvCall "log.Infof"
         [AStr "Websocket listen on port %d error: %s";
          AInt (WebsocketPort api); AErr err]]
  | None =>
      [listen; go "forward filesystem events";
       EvCall "srv.Serve" [AStr address]]
      ++ (if (srv_Serve w).2 then []
          else [EvCall "log.Infof"
                  [AStr "failed to listen and serve: %v";
                   AErr (srv_Serve w).1]])
      ++ [EvCall "srv.Close" []; EvCall "l.Close" [AStr address]]
  end.

Definition MaybeServeWebsocket (s : Server) : list event :=
  match API (Config s) with
  | None => []
  | Some api =>
      if negb (Enabled api) || negb (WebsocketEnabled api) then []
      else
        let watching := startFilesysWatcher in
        match watching.2 with
        | Some err =>
            watching.1
            ++ [EvCall "log.Infof"
                  [AStr "Watching filesystem error: %s"; AErr err]]
        | None => watching.1 ++ [go "serve the websocket"]
        end
  end.

(** The loop of [Serve] over the addresses. *)
Fixpoint addresses (info : string) (addrs : list string) : string :=
  match addrs with
  | [] => info
  | a :: addrs => addresses (info +:+ newline +:+ "  " +:+ a) addrs
  end.

(** [Serve], up to the return of [StartServer]: the events and the error.
    [None] is a panic. *)
Definition Serve (s : Server) : option (list event * option error) :=
  let cfg := Config s in
  '(t, mux) ← NewServerRoutes s;
  let t := t ++ [go "s.MaybeServeRPC"; go "s.MaybeServeWebsocket"] in
  let info :=
    newline +:+ "📡 Qri v" +:+ APIVersion w +:+ newline +:+ " connect is running. Connection details:"
    +:+ newline in
  let info := info +:+ SummaryString w in
  let p2p := match P2P cfg with Some p2p => p2pEnabled p2p | None => false end in
  match (if p2p then Connect w else None) with
  | Some err => Some (t ++ [EvCall "Instance.Connect" []], Some err)
  | None =>
      let t := if p2p then t ++ [EvCall "Instance.Connect" []] else t in
      let info :=
        if p2p then
          addresses (info +:+ "IPFS Addresses:") (EncapsulatedAddresses w)
        else info in
      let info := info +:+ newline +:+ newline in
      let t := t ++ [EvCall "LocalStreams.Print" [AStr info]] in
      api ← API cfg;
      let t :=
        if bool_decide (DisconnectAfter api ≠ 0%Z) then
          t ++ [EvCall "log.Infof"
                  [AStr "disconnecting after %d seconds";
                   AInt (DisconnectAfter api)];
                go "<-time.After(t); server.Close()"]
        else t in
      let t := t ++ [go "<-ctx.Done(); server.Close()";
                     EvCall "StartServer" []] in
      Some (t, StartServer w api mux)
  end.

End WithWorld.
End Api.

(** ** Vocabulary of the further properties *)
Module Spec2.
Import Repo Trace.

(** The line the registry goroutine prints once the pull has succeeded. *)
Definition fetchedLine : event :=
  EvPrint ("🗼 fetched from registry" +:+ Actions.newline).

(** The registry goroutine has printed its line and, when the store of
    [node] pins, has pinned the path of its reference without error. *)
Definition pinnedBefore (node : Actions.QriNode) (st : Actions.AddSt)
  : Prop :=
  fetchedLine ∈ Actions.trace st
  ∧ ∀ pin, Actions.Pinner node = Some pin →
      ∃ c, EvPin c (Path (Actions.refCopy st)) true ∈ Actions.trace st
           ∧ pin c (Path (Actions.refCopy st)) true = None.

(** What the trace tells about the registry goroutine, by its state. *)
Definition registryInv (node : Actions.QriNode) (st : Actions.AddSt)
  : Prop :=
  match Actions.registry st with
  | Some Actions.Fetched =>
      fetchedLine ∈ Actions.trace st
      ∧ ∀ e, EvRecv Registry e ∉ Actions.trace st
  | Some (Actions.Sending None) =>
      pinnedBefore node st ∧ ∀ e, EvRecv Registry e ∉ Actions.trace st
  | Some Actions.Done =>
      EvRecv Registry None ∈ Actions.trace st → pinnedBefore node st
  | _ => ∀ e, EvRecv Registry e ∉ Actions.trace st
  end.

(** [refCopy] as [AddDataset] builds it from [*ref]. *)
Definition copyOf (ref : DatasetRef) : DatasetRef :=
  {| Peername := Peername ref; ProfileID := ProfileID ref; Name := Name ref;
     Path := Path ref; FSIPath := ""; Published := false; Dataset := None |}.

(** What holds of [*ref] while the registry goroutine is the only one. *)
Definition copyInv (ref0 : DatasetRef) (st : Actions.AddSt) : Prop :=
  Actions.p2p st = None
  ∧ (if Actions.success st
     then Actions.registry st = Some Actions.Done
          ∧ Actions.ref st = Actions.refCopy st
     else Actions.ref st = ref0)
  ∧ (Path ref0 ≠ "" → Actions.refCopy st = copyOf ref0).

(** [e] is a call of [fn]. *)
Definition isCall (fn : string) (e : event) : bool :=
  match e with
  | EvCall f _ => bool_decide (f = fn)
  | _ => false
  end.

(** The calls [Remove] makes into fsi: they touch the working directory and
    its link, not the repo. *)
Definition fsiCall (e : event) : Prop :=
  match e with
  | EvCall fn _ => fn = "fsi.DeleteDatasetFiles" ∨ fn = "fsi.Unlink"
  | _ => True
  end.

(** The calls of [Save] that write to the repo or to the linked directory. *)
Definition saveWrite (e : event) : bool :=
  isCall "Repo.PutRef" e || isCall "base.SetPublishStatus" e
  || isCall "fsi.WriteComponents" e.

(** What [List] leaves in [*res] and returns once the lister has answered
    [refs]: its error, or the references listed, which over RPC have lost
    their schemas. *)
Definition listedAs (RPC : bool) (refs : result (list DSRef.DatasetRef))
    (res : list DSRef.DatasetRef) (err : option error) : Prop :=
  match refs with
  | Err e => err = Some e
  | Ok refs =>
      err = None
      ∧ if RPC then mapM LibList.stripSchema refs = Some res else res = refs
  end.

(** A listed reference has a dataset, and that dataset has no schema. *)
Definition noSchema (rep : DSRef.DatasetRef) : Prop :=
  ∃ ds, DSRef.Dataset rep = Some ds
        ∧ ∀ s, DS.Structure ds = Some s → DS.Schema s = None.

End Spec2.

(** ** Further collaborators and inputs *)
Module Scenario.
Import Repo Trace.

(** [w] with another JSON decoder. *)
Definition withDecode (w : Remote.World)
    (decode : Http.Response → DatasetRef → DatasetRef * option error)
  : Remote.World :=
  {| Remote.time_Now_Unix := Remote.time_Now_Unix w;
     Remote.multihash_Sum := Remote.multihash_Sum w;
     Remote.B58String := Remote.B58String w;
     Remote.base64_EncodeToString := Remote.base64_EncodeToString w;
     Remote.ProfileID_String := Remote.ProfileID_String w;
     Remote.peer_Cast := Remote.peer_Cast w;
     Remote.url_Parse := Remote.url_Parse w;
     Remote.http_NewRequest := Remote.http_NewRequest w;
     Remote.http_Do := Remote.http_Do w;
     Remote.json_Decode := decode;
     Remote.dsync_NewPush := Remote.dsync_NewPush w;
     Remote.dsync_PushDo := Remote.dsync_PushDo w;
     Remote.dsync_NewPull := Remote.dsync_NewPull w;
     Remote.dsync_PullDo := Remote.dsync_PullDo w;
     Remote.logsync_Do := Remote.logsync_Do w |}.

(** A remote that knows the head of every dataset: it answers a resolve
    request with the path "/ipfs/QmPopV1". *)
Definition resolving : Remote.World :=
  withDecode Demo.world
    (λ _ ref,
       ({| Peername := Peername ref; ProfileID := ProfileID ref;
           Name := Name ref; Path := "/ipfs/QmPopV1"; FSIPath := FSIPath ref;
           Published := Published ref; Dataset := Dataset ref |}, None)).

(** The collaborators of [AddDataset] with a registry that answers. *)
Definition registryUp : Actions.World (list DatasetRef) :=
  {| Actions.remote := Demo.world;
     Actions.Complete := Actions.Complete (Demo.actions None None);
     Actions.ResolveDatasetRef :=
       Actions.ResolveDatasetRef (Demo.actions None None);
     Actions.FetchDataset := Actions.FetchDataset (Demo.actions None None);
     Actions.GetRef := Demo.getRef;
     Actions.PutRef := Demo.putRef;
     Actions.LoadDataset := Demo.loadDataset;
     Actions.moreRecent := Actions.moreRecent (Demo.actions None None) |}.

(** "alice/pop", checked out to a working directory. *)
Definition popLinked : DatasetRef := setFSIPath Demo.pop "/home/alice/pop".

(** [w] with another reference parser and another canonicalization. *)
Definition withRefs (w : Lib.World) (parse : string → result DatasetRef)
    (canon : DatasetRef → DatasetRef * option error) : Lib.World :=
  {| Lib.remote := Lib.remote w;
     Lib.AllGenerations := Lib.AllGenerations w;
     Lib.ParseDatasetRef := parse;
     Lib.CanonicalizeDatasetRef := canon;
     Lib.RefString := Lib.RefString w;
     Lib.AliasString := Lib.AliasString w;
     Lib.fsi_DeleteDatasetFiles := Lib.fsi_DeleteDatasetFiles w;
     Lib.fsi_Unlink := Lib.fsi_Unlink w;
     Lib.DeleteDataset := Lib.DeleteDataset w;
     Lib.DatasetLog := Lib.DatasetLog w;
     Lib.ModifyDatasetRef := Lib.ModifyDatasetRef w;
     Lib.ConvertToDsref := Lib.ConvertToDsref w;
     Lib.WriteVersionDelete := Lib.WriteVersionDelete w;
     Lib.rpc_Remove := Lib.rpc_Remove w;
     Lib.rpc_Add := Lib.rpc_Add w;
     Lib.Client_AddDataset := Lib.Client_AddDataset w;
     Lib.Checkout := Lib.Checkout w |}.

(** The demo node with "alice/pop" checked out. *)
Definition linked : Lib.World :=
  withRefs Demo.lib (λ _, Ok popLinked) (λ ref, (ref, None)).

(** The demo node with a working directory for "alice/pop" that has no
    version yet. *)
Definition unsaved : Lib.World :=
  withRefs Demo.lib (λ _, Ok popLinked)
    (λ ref, (ref, Some (MkErr NoHistory "repo: no history"))).

Definition removeAll : Lib.RemoveParams :=
  {| Lib.Ref := "alice/pop";
     Lib.Revision := {| Lib.Field := "ds"; Lib.Gen := -1 |};
     Lib.Unlink := false; Lib.DeleteFSIFiles := false |}.


(** A configuration file without profile section, and a path that cannot
    be read. *)
Definition files : CoreLoad.World :=
  {| CoreLoad.config_ReadFromFile := λ path,
       if bool_decide (path = "/home/alice/.qri/config.yaml") then
         (Some Demo.config, None)
       else if bool_decide (path = "/tmp/noprofile.yaml") then
         (Some {| Core.Profile := None; Core.P2P := None;
                  Core.Others := [] |}, None)
       else (None, Some (Errorf "no such file or directory"));
     CoreLoad.Logging_Levels := λ _, Some [("qriapi", "info")];
     CoreLoad.WriteToFile := λ _ _, None |}.

(** A repo that holds "alice/pop" and "alice/temp". *)
Definition popDs : DS.Dataset :=
  {| DS.Name := ""; DS.Peername := ""; DS.Path := "/ipfs/QmPopV1";
     DS.PreviousPath := ""; DS.BodyPath := ""; DS.Body := None;
     DS.BodyBytes := None; DS.BodyFile := None; DS.Commit := None;
     DS.Structure :=
       Some {| DS.Format := "csv"; DS.Schema := Some "{type: array}" |};
     DS.Meta := None; DS.Viz := None; DS.Transform := None |}.

Definition refOf (name : string) : DSRef.DatasetRef :=
  {| DSRef.Peername := "alice"; DSRef.ProfileID := "QmAliceProfile";
     DSRef.Name := name; DSRef.Path := "/ipfs/Qm" +:+ name;
     DSRef.FSIPath := ""; DSRef.Published := false;
     DSRef.Dataset := Some popDs |}.

Definition getting : LibGet.World :=
  {| LibGet.ErrEmptyRef := Errorf "repo: empty dataset reference";
     LibGet.ParseDatasetRef := λ s,
       if bool_decide (s = "alice/pop") then Ok (refOf "pop")
       else if bool_decide (s = "alice/temp") then Ok (refOf "temp")
       else Err (Errorf "invalid dataset reference");
     LibGet.CanonicalizeDatasetRef := λ ref, (ref, None);
     LibGet.LoadDataset := λ path,
       if bool_decide (path = "/ipfs/Qmpop") || bool_decide (path = "/ipfs/Qmtemp")
       then Ok popDs else Err (Errorf "not found");
     LibGet.OpenDataset := λ ds, (ds, None);
     LibGet.filter_Apply := λ _ filter _,
       (Some (LibGet.Other ("filtered by " +:+ filter)), None);
     LibGet.Encode := λ _ _ v, (v, None);
     LibGet.rpc_Get := λ _ res, (res, None) |}.

Definition getParams (paths : list string) : LibGet.GetParams :=
  {| LibGet.Paths := paths; LibGet.UseFSI := false; LibGet.Format := "json";
     LibGet.FormatConfig := None; LibGet.Filter := ""; LibGet.Limit := 0;
     LibGet.Offset := 0; LibGet.All := true |}.

Definition noResult : LibGet.GetResult :=
  {| LibGet.Sources := []; LibGet.Result := None |}.

(** Requests made by [NewDatasetRequests] and by
    [NewDatasetRequestsInstance], both without an RPC client. *)
Definition bare : LibInst.DatasetRequests :=
  LibInst.NewDatasetRequests false.

Definition withInstance : LibInst.DatasetRequests :=
  LibInst.NewDatasetRequestsInstance
    {| LibInst.qfs := "local"; LibInst.RPC := false |}.

Definition filtering (paths : list string) : LibGet.GetParams :=
  {| LibGet.Paths := paths; LibGet.UseFSI := false; LibGet.Format := "json";
     LibGet.FormatConfig := None; LibGet.Filter := "meta.title";
     LibGet.Limit := 0; LibGet.Offset := 0; LibGet.All := true |}.

(** A listing of the datasets of another peer. *)
Definition listBob : LibList.ListParams :=
  {| LibList.RPC := false; LibList.Limit := 10; LibList.Offset := 0;
     LibList.Peername := "bob"; LibList.ProfileID := ""; LibList.Term := "";
     LibList.Published := false; LibList.ShowNumVersions := false |}.

Definition listing : LibList.World :=
  {| LibList.CanonicalizeProfile := λ ref, (ref, None);
     LibList.Profile_Peername := Ok "alice";
     LibList.base_ListDatasets := λ _ _ _ _ _ _, Ok [refOf "pop"; refOf "temp"];
     LibList.remoteClient_ListDatasets := λ _ _ _ _, Ok [];
     LibList.rpc_List := λ _ res, (res, None) |}.

Definition listParams : LibList.ListParams :=
  {| LibList.RPC := true; LibList.Limit := 0; LibList.Offset := -3;
     LibList.Peername := ""; LibList.ProfileID := ""; LibList.Term := "";
     LibList.Published := false; LibList.ShowNumVersions := false |}.


(** What "alice/pop" parses to. *)
Definition parsedPop : DSRef.DatasetRef :=
  {| DSRef.Peername := "alice"; DSRef.ProfileID := ""; DSRef.Name := "pop";
     DSRef.Path := ""; DSRef.FSIPath := ""; DSRef.Published := false;
     DSRef.Dataset := None |}.

(** Collaborators of the smaller requests on alice's repo. *)
Definition lesser : LibRequests.World :=
  {| LibRequests.ParseDatasetRef := λ s,
       if bool_decide (s = "alice/pop") then Ok parsedPop
       else Err (Errorf "invalid dataset reference");
     LibRequests.CanonicalizeDatasetRef := λ ref,
       (refOf (DSRef.Name ref), None);
     LibRequests.RefString := λ ref,
       DSRef.Peername ref +:+ "/" +:+ DSRef.Name ref;
     LibRequests.IsEmpty := λ ref,
       bool_decide (DSRef.Peername ref = "" ∧ DSRef.Name ref = ""
                    ∧ DSRef.Path ref = "");
     LibRequests.base_SetPublishStatus := λ ref _, (ref, None);
     LibRequests.base_ModifyDatasetRef := λ cur new _, (cur, new, None);
     LibRequests.base_ReadDataset := λ ref, (ref, None);
     LibRequests.NewError_ErrBadArgs := Errorf;
     LibRequests.base_Validate := λ _ _ _,
       ([{| LibRequests.PropertyPath := "/0/1";
            LibRequests.Message := "type should be integer" |}],
        Some (Errorf "validation failed"));
     LibRequests.NewManifest := λ _, Err (Errorf "no such path");
     LibRequests.MissingManifest := λ m, Ok m;
     LibRequests.NewDAGInfo := λ _ _, Err (Errorf "no such path");
     LibRequests.rpc_SetPublishStatus := λ _ ref, (ref, None);
     LibRequests.rpc_Rename := λ _ ref, (ref, None);
     LibRequests.rpc_Validate := λ _ errs, (errs, None);
     LibRequests.rpc_Manifest := λ _ m, (m, None);
     LibRequests.rpc_Manifest_of := λ _ m, (m, None);
     LibRequests.rpc_DAGInfo := λ _ i, (i, None) |}.

(** A request to validate "alice/pop" against what is stored. *)
Definition validatePop : LibRequests.ValidateDatasetParams :=
  {| LibRequests.vRef := "alice/pop"; LibRequests.BodyFilename := "";
     LibRequests.Body := None; LibRequests.Schema := None |}.

(** Collaborators of [Save]: "alice/pop" is linked to a directory, every
    call succeeds, and [Assign] takes the name, the peername and the body
    path of its argument where they are set. *)
Definition saving : LibSave.World :=
  {| LibSave.ErrNoLink := Errorf "dataset is not linked to a directory";
     LibSave.ParseDatasetRef := LibRequests.ParseDatasetRef lesser;
     LibSave.CanonicalizeDatasetRef := λ ref,
       (DSRef.setFSIPath (refOf (DSRef.Name ref)) "/home/alice/pop",
        None);
     LibSave.RefString := LibRequests.RefString lesser;
     LibSave.fsi_ReadDir := λ _, Ok popDs;
     LibSave.Assign := λ ds other,
       {| DS.Name := if bool_decide (DS.Name other = "") then DS.Name ds
                     else DS.Name other;
          DS.Peername := if bool_decide (DS.Peername other = "")
                         then DS.Peername ds else DS.Peername other;
          DS.Path := DS.Path ds; DS.PreviousPath := DS.PreviousPath ds;
          DS.BodyPath := if bool_decide (DS.BodyPath other = "")
                         then DS.BodyPath ds else DS.BodyPath other;
          DS.Body := DS.Body ds; DS.BodyBytes := DS.BodyBytes ds;
          DS.BodyFile := DS.BodyFile ds; DS.Commit := DS.Commit other;
          DS.Structure := DS.Structure ds; DS.Meta := DS.Meta ds;
          DS.Viz := DS.Viz ds; DS.Transform := DS.Transform ds |};
     LibSave.base_Recall := λ _ _, Err (Errorf "nothing to recall");
     LibSave.ReadDatasetFiles := λ _, Err (Errorf "no such file");
     LibSave.OpenDataset := λ ds, (ds, None);
     LibSave.base_SaveDataset := λ ds _ _ _,
       Ok {| DSRef.Peername := DS.Peername ds;
             DSRef.ProfileID := "QmAliceProfile"; DSRef.Name := DS.Name ds;
             DSRef.Path := "/ipfs/QmPopV2"; DSRef.FSIPath := "";
             DSRef.Published := false; DSRef.Dataset := Some ds |};
     LibSave.PutRef := λ _, None;
     LibSave.InlineJSONBody := λ ds, (ds, None);
     LibSave.saved := lesser;
     LibSave.AbsPath := λ path, ("/home/alice/" +:+ path, None);
     LibSave.rpc_Save := λ _ res, (res, None) |}.

(** Save the linked directory of "alice/pop" and publish it. *)
Definition savePop : LibSave.SaveParams :=
  {| LibSave.Dataset := None; LibSave.Ref := "alice/pop";
     LibSave.Title := "add 2019"; LibSave.Message := "";
     LibSave.BodyPath := ""; LibSave.FilePaths := [];
     LibSave.Secrets := ∅; LibSave.ScriptOutput := None;
     LibSave.ReadFSI := true; LibSave.WriteFSI := true;
     LibSave.Replace := false; LibSave.Private := false;
     LibSave.Publish := true; LibSave.DryRun := false;
     LibSave.ReturnBody := false; LibSave.ConvertFormatToPrev := false;
     LibSave.Recall := ""; LibSave.Force := false;
     LibSave.ShouldRender := false |}.


(** Collaborators of [SaveDataset] for a dataset that has no version yet;
    every call succeeds. *)
Definition creating : ActionsSave.World :=
  {| ActionsSave.PrepareDatasetSave := λ _ _, Ok (DS.zero, DS.zero, "");
     ActionsSave.Repo_Profile :=
       Ok {| ActionsSave.pID := "QmAliceProfile";
             ActionsSave.pPeername := "alice" |};
     ActionsSave.NewMemRepo := λ _, None;
     ActionsSave.ExecScript := λ _ changes _ _ _, (changes, None);
     ActionsSave.ConvertBodyFormat := λ file _ _, Ok file;
     ActionsSave.Assign := λ _ other, other;
     ActionsSave.InferValues := λ _ ds, (ds, None);
     ActionsSave.MaybeAddDefaultViz := λ ds, ds;
     ActionsSave.CreateDataset := λ _ ds _ _ _ _ _,
       ({| DSRef.Peername := DS.Peername ds;
           DSRef.ProfileID := "QmAliceProfile"; DSRef.Name := DS.Name ds;
           DSRef.Path := "/ipfs/QmPopV1"; DSRef.FSIPath := "";
           DSRef.Published := false; DSRef.Dataset := Some ds |}, None) |}.

Definition dryRun : ActionsSave.SaveDatasetSwitches :=
  {| ActionsSave.Replace := false; ActionsSave.DryRun := true;
     ActionsSave.Pin := true; ActionsSave.ConvertFormatToPrev := false;
     ActionsSave.Force := false; ActionsSave.ShouldRender := false |}.

(** A server with RPC on port 2504 and a writable API; the second RPC
    receiver cannot be registered. *)
Definition served : Api.Server :=
  {| Api.Config :=
       {| Api.API :=
            Some {| Api.Enabled := true; Api.ReadOnly := false;
                    Api.WebsocketEnabled := true;
                    Api.WebsocketPort := 2506; Api.DisconnectAfter := 0 |};
          Api.RPC := Some {| Api.rpcEnabled := true; Api.rpcPort := 2504 |};
          Api.P2P := Some {| Api.p2pEnabled := false |};
          Api.Remote := None |} |}.

Definition serving : Api.World :=
  {| Api.APIVersion := "0.9.1";
     Api.SummaryString := "API: 2503";
     Api.Connect := None;
     Api.EncapsulatedAddresses := [];
     Api.StartServer := λ _ _, Some (Errorf "http: Server closed");
     Api.net_Listen := λ _ _, None;
     Api.Receivers := ["datasets"; "peers"; "profile"];
     Api.rpc_Register := λ _ rcvr,
       if bool_decide (rcvr = "peers")
       then Some (Errorf "rpc: service already defined: PeerRequests")
       else None;
     Api.Store_Get := λ path,
       if bool_decide (path = "/ipfs/QmPopV1") then Ok "dataset.json"
       else Err (Errorf "not found");
     Api.GetIPFSNamesys := None;
     Api.namesys_Resolve := λ name,
       if bool_decide (name = "alice.example") then Ok "/ipfs/QmPopV1"
       else Err (Errorf "could not resolve name");
     Api.References := λ _ _, Ok [refOf "pop"];
     Api.IsKnownFilename := λ source, bool_decide (source = "meta.json");
     Api.FilesysEvent_String := Api.Source;
     Api.wsjson_Write := λ _ _, None;
     Api.srv_Serve := (Errorf "http: Server closed", true) |}.

End Scenario.

(** ** Vocabulary of the properties of the server *)
Module ApiSpec.
Import Trace Spec2 Api.

(** [e] writes the response of a handler. *)
Definition responds (e : event) : bool :=
  isCall "apiutil.WriteErrResponse" e || isCall "io.Copy" e.

(** The write of [e] to the connection [c]. *)
Definition writing (w : World) (e : FilesysEvent) (c : string) : event :=
  EvCall "wsjson.Write" [AStr c; AStr (FilesysEvent_String w e)].

(** The connections a run of upgrades and events has added. *)
Fixpoint accepted (inputs : list input) : list string :=
  match inputs with
  | [] => []
  | Accepted (Ok c) :: inputs => c :: accepted inputs
  | _ :: inputs => accepted inputs
  end.

(** The read-only flags the handler sets behind a handler were given. *)
Fixpoint flags (hs : handlers) : list bool :=
  match hs with
  | Handlers _ (Some readOnly) => [readOnly]
  | Handlers _ None => []
  | RootHandler dsh ph => flags dsh ++ flags ph
  end.

Fixpoint handlerFlags (h : handler) : list bool :=
  match h with
  | Func _ => []
  | Method hs _ | MethodOf hs _ _ => flags hs
  | middleware h | datasetRefMiddleware h => handlerFlags h
  end.

(** [h] is [s.middleware(...)], or that inside
    [s.datasetRefMiddleware(...)]. *)
Definition wrapped (h : handler) : bool :=
  match h with
  | middleware _ | datasetRefMiddleware (middleware _) => true
  | _ => false
  end.

(** The first lines of the info [Serve] prints. *)
Definition banner (w : World) : string :=
  newline +:+ "📡 Qri v" +:+ APIVersion w +:+ newline +:+ " connect is running. Connection details:"
  +:+ newline.

(** The lines [Serve] adds to the info for the addresses. *)
Fixpoint addressLines (addrs : list string) : string :=
  match addrs with
  | [] => ""
  | a :: addrs => newline +:+ "  " +:+ a +:+ addressLines addrs
  end.

(** A call of [rpc.Register]. *)
Definition registering (rcvr : string) : event :=
  EvCall "rpc.Register" [AStr rcvr].

End ApiSpec.

(** ** Tactics *)

(** Closes the side goals of a goroutine step; [H] says where the goroutine
    stood. *)
Ltac task_goal H :=
  first
    [ done
    | by rewrite app_assoc
    | apply Forall_app; split; [done | by repeat constructor]
    | by repeat constructor
    | intros [|]; cbn; try done; rewrite H; split; congruence ].

(** Membership of an event in an explicit list of events of other kinds. *)
Ltac not_among H :=
  repeat (apply elem_of_cons in H as [H|H]; [discriminate|]);
  by apply elem_of_nil in H.

(** * Properties *)

(** ** Package remote *)
Module RemoteFacts.
Import Repo Trace Remote Spec.

Lemma setAll_lookup (params : gmap string string)
    (q : gmap string (list string)) (k : string) :
  setAll params q !! k =
  match params !! k with
  | Some v => Some [v]
  | None => q !! k
  end.
Proof.
  unfold setAll.
  apply (map_fold_weak_ind
           (λ r (m : gmap string string),
              r !! k = match m !! k with Some v => Some [v] | None => q !! k end)).
  - by rewrite lookup_empty.
  - intros i x m r Hi IH. unfold Url.Values_Set.
    destruct (decide (i = k)) as [->|Hne].
    + by rewrite !lookup_insert_eq.
    + by rewrite !lookup_insert_ne.
Qed.

Lemma sigParams_signed (w : World) (pk : PrivKey) (ref : DatasetRef)
    (params : gmap string string) :
  sigParams w pk ref = Ok params → signedParams w pk ref params.
Proof.
  unfold sigParams, calcProfileID, signString, requestSigningString.
  destruct (GetPublic_Bytes pk) as [pub|] eqn:Hpub; [|done].
  destruct (multihash_Sum w pub SHA2_256 32) as [mh|] eqn:Hmh; [|done].
  cbn.
  destruct (Sign pk _) as [sg|] eqn:Hsig; [|done].
  cbn. intros [= <-].
  exists pub, mh, sg. split_and!; [done..|].
  unfold sevenParams, sevenKeys.
  rewrite !dom_insert_L, dom_empty_L. set_solver.
Qed.

(** The address [PushDataset] hands to dsync. *)
Lemma PushDataset_trace (w : World) (c : Client) (ctx : Context)
    (ref : DatasetRef) (remoteAddr : string) (params : gmap string string) :
  let addr :=
    if bool_decide (addressType w remoteAddr = "http")
    then remoteAddr +:+ "/remote/dsync" else remoteAddr in
  dsync_NewPush w (Path ref) addr true = None →
  sigParams w (pk c) ref = Ok params →
  (PushDataset w (Some c) ctx ref remoteAddr).1 =
  [EvLog DebugLevel "pushing dataset %s to %s" [AStr (Path ref); AStr addr];
   EvDsyncPush ctx (Path ref) addr true params].
Proof.
  intros addr Hnew Hsig. unfold PushDataset. fold addr.
  unfold mbind, M_bind, emit, liftErr, lift. cbn.
  rewrite Hnew. cbn. rewrite Hsig. cbn.
  by destruct (dsync_PushDo w ctx (Path ref) addr true params).
Qed.

Lemma PushDataset_signed (w : World) (c : Client) (ctx : Context)
    (ref : DatasetRef) (remoteAddr : string) :
  Forall (carriesSigned w (pk c) ref remoteAddr)
    (PushDataset w (Some c) ctx ref remoteAddr).1.
Proof.
  unfold PushDataset.
  set (addr := if bool_decide _ then _ else _).
  unfold mbind, M_bind, emit, liftErr, lift. cbn.
  destruct (dsync_NewPush w (Path ref) addr true); cbn.
  { repeat constructor. }
  destruct (sigParams w (pk c) ref) as [params|e] eqn:Hsig; cbn.
  2:{ repeat constructor. }
  apply sigParams_signed in Hsig.
  destruct (dsync_PushDo w ctx (Path ref) addr true params); cbn;
    repeat constructor; done.
Qed.

Lemma ResolveHeadRef_unsigned (w : World) (c : option Client) (ctx : Context)
    (ref : DatasetRef) (remoteAddr : string) (e : event) :
  e ∈ (ResolveHeadRef w c ctx ref remoteAddr).1.1 →
  ∃ u, e = EvHTTP ctx "GET" u ∧ Url.Path u = "/remote/refs".
Proof.
  unfold ResolveHeadRef, resolveHeadRefHTTP.
  destruct c as [c|]; cbn; [|by intros ?%elem_of_nil].
  case_bool_decide; cbn; [|by intros ?%elem_of_nil].
  destruct (url_Parse w remoteAddr) as [u|]; cbn; [|by intros ?%elem_of_nil].
  destruct (http_NewRequest w "GET" _); cbn; [by intros ?%elem_of_nil|].
  destruct (http_Do w ctx "GET" _) as [res|]; cbn.
  - case_bool_decide; cbn; intros ->%list_elem_of_singleton; eauto.
  - intros ->%list_elem_of_singleton; eauto.
Qed.

Lemma PullDataset_signed (w : World) (c : Client) (ctx : Context)
    (ref : DatasetRef) (remoteAddr : string) :
  Forall
    (carriesSigned w (pk c)
       (PullDataset w (Some c) ctx ref remoteAddr).1.2 remoteAddr)
    (PullDataset w (Some c) ctx ref remoteAddr).1.1.
Proof.
  unfold PullDataset.
  set (res := if bool_decide (Path ref = "") then _ else _).
  assert (Hres : ∀ e, e ∈ res.1.1 → ∃ u, e = EvHTTP ctx "GET" u).
  { subst res. case_bool_decide.
    - intros e He. apply ResolveHeadRef_unsigned in He as (u & -> & _). eauto.
    - cbn. by intros e ?%elem_of_nil. }
  destruct res as [[t1 ref1] resolveErr]. cbn in Hres.
  assert (Ht1 : ∀ r, Forall (carriesSigned w (pk c) r remoteAddr) t1).
  { intros r. apply Forall_forall. intros e He.
    destruct (Hres e He) as [u ->]. cbn. done. }
  destruct resolveErr as [err|]; cbn.
  { constructor; [done|]. apply Forall_app. split; [done|]. by repeat constructor. }
  destruct (sigParams w (pk c) ref1) as [params|err] eqn:Hsig; cbn.
  2:{ constructor; [done|]. apply Forall_app. split; [done|]. by repeat constructor. }
  apply sigParams_signed in Hsig.
  destruct (dsync_NewPull w (Path ref1) _ params); cbn.
  { constructor; [done|]. apply Forall_app. split; [done|]. by repeat constructor. }
  constructor; [done|]. apply Forall_app. split; [done|]. by repeat constructor.
Qed.

Lemma RemoveDataset_signed (w : World) (c : Client) (ctx : Context)
    (ref : DatasetRef) (remoteAddr : string) :
  Forall (carriesSigned w (pk c) ref remoteAddr)
    (RemoveDataset w (Some c) ctx ref remoteAddr).1.
Proof.
  unfold RemoveDataset, removeDatasetHTTP.
  unfold mbind, M_bind, emit, liftErr, lift, fail. cbn.
  destruct (sigParams w (pk c) ref) as [params|e] eqn:Hsig; cbn.
  2:{ repeat constructor. }
  apply sigParams_signed in Hsig.
  case_bool_decide; cbn; [|by repeat constructor].
  destruct (url_Parse w remoteAddr) as [u0|] eqn:Hu; cbn;
    [|by repeat constructor].
  destruct (http_NewRequest w "DELETE" _); cbn; [by repeat constructor|].
  assert (carriesSigned w (pk c) ref remoteAddr
            (EvHTTP ctx "DELETE"
               (Url.setRawQuery (Url.setPath u0 "/remote/refs")
                  (setAll params (Url.RawQuery (Url.setPath u0 "/remote/refs"))))))
    as Hreq.
  { cbn. intros _. exists params, u0. split_and!; [done..|].
    intros k. apply setAll_lookup. }
  destruct (http_Do w ctx "DELETE" _) as [res|]; cbn.
  2:{ by repeat constructor. }
  case_bool_decide; cbn; [|by repeat constructor].
  destruct (Http.ReadErr res); cbn; by repeat constructor.
Qed.

Lemma list_ascii_app (s t : string) :
  String.list_ascii_of_string (s +:+ t) =
  String.list_ascii_of_string s ++ String.list_ascii_of_string t.
Proof. induction s as [|a s IH]; simpl; [done|]. by f_equal. Qed.

Lemma isB58_suffix (s : string) : isB58 (s +:+ "/remote/logsync") = false.
Proof.
  unfold isB58. rewrite list_ascii_app, forallb_app.
  apply andb_false_iff. right. reflexivity.
Qed.

Lemma prefix_append (p s t : string) :
  String.prefix p s = true → String.prefix p (s +:+ t) = true.
Proof.
  revert s. induction p as [|a p IH]; intros s.
  - intros _. by destruct (s +:+ t).
  - destruct s as [|b s]; simpl; [done|].
    destruct (Ascii.ascii_dec a b); [apply IH|done].
Qed.

Lemma addressType_cases (w : World) (remoteAddr : string) :
  addressType w remoteAddr =
  match IDB58Decode w remoteAddr with
  | Ok _ => "p2p"
  | Err _ => if String.prefix "http" remoteAddr then "http" else ""
  end.
Proof. reflexivity. Qed.

Example addressType_peer : addressType Demo.world "QmRemotePeer" = "p2p".
Proof. reflexivity. Qed.

Example addressType_http :
  addressType Demo.world "http://registry.example" = "http".
Proof. reflexivity. Qed.

Example addressType_other : addressType Demo.world "registry.example" = "".
Proof. reflexivity. Qed.

Example requestSigningString_pop :
  requestSigningString "1572000000" "Qmalice-pub" "/ipfs/QmPopV1"
  = "1572000000.Qmalice-pub./ipfs/QmPopV1".
Proof. reflexivity. Qed.

Example sigParams_pop :
  sigParams Demo.world Demo.aliceKey Demo.pop = Ok Demo.popParams.
Proof. reflexivity. Qed.

Example sigParams_locked :
  sigParams Demo.world Demo.lockedKey Demo.pop
  = Err (Errorf "error signing key is locked").
Proof. reflexivity. Qed.

(** The transport-unsupported errors of the two HTTP-only operations. *)
Lemma ResolveHeadRef_not_http (w : World) (c : Client) (ctx : Context)
    (ref : DatasetRef) (remoteAddr : string) :
  addressType w remoteAddr ≠ "http" →
  ResolveHeadRef w (Some c) ctx ref remoteAddr =
  ([], ref,
   Some (Errorf "dataset name resolution currently only works over HTTP")).
Proof. intros H. unfold ResolveHeadRef. by rewrite bool_decide_false. Qed.

Lemma RemoveDataset_not_http (w : World) (c : Client) (ctx : Context)
    (ref : DatasetRef) (remoteAddr : string) :
  addressType w remoteAddr ≠ "http" →
  RemoveDataset w (Some c) ctx ref remoteAddr =
  ([EvLog DebugLevel "requesting remove dataset %s from remote %s"
      [AStr (Path ref); AStr remoteAddr]],
   match sigParams w (pk c) ref with
   | Ok _ =>
       Err (Errorf "dataset remove requests currently only work over HTTP")
   | Err e => Err e
   end).
Proof.
  intros H. unfold RemoveDataset.
  unfold mbind, M_bind, emit, liftErr, lift, fail. cbn.
  destruct (sigParams w (pk c) ref); cbn; [|done].
  by rewrite bool_decide_false.
Qed.

Lemma ResolveHeadRef_http (w : World) (c : Client) (ctx : Context)
    (ref : DatasetRef) (remoteAddr : string) (u0 : Url.URL) :
  addressType w remoteAddr = "http" →
  url_Parse w remoteAddr = Ok u0 →
  let u :=
    Url.setRawQuery (Url.setPath u0 "/remote/refs")
      (<["name" := [Name ref]]>
         (<["peername" := [Peername ref]]> (Url.RawQuery u0))) in
  http_NewRequest w "GET" u = None →
  (ResolveHeadRef w (Some c) ctx ref remoteAddr).1.1 = [EvHTTP ctx "GET" u].
Proof.
  intros H Hu u Hreq. unfold ResolveHeadRef, resolveHeadRefHTTP.
  rewrite bool_decide_true by done. rewrite Hu. cbn.
  unfold Url.Values_Set. cbn. fold u. rewrite Hreq.
  destruct (http_Do w ctx "GET" u); [|done].
  by case_bool_decide.
Qed.

Lemma RemoveDataset_http (w : World) (c : Client) (ctx : Context)
    (ref : DatasetRef) (remoteAddr : string) (u0 : Url.URL)
    (params : gmap string string) :
  addressType w remoteAddr = "http" →
  sigParams w (pk c) ref = Ok params →
  url_Parse w remoteAddr = Ok u0 →
  let u :=
    Url.setRawQuery (Url.setPath u0 "/remote/refs")
      (setAll params (Url.RawQuery u0)) in
  http_NewRequest w "DELETE" u = None →
  EvHTTP ctx "DELETE" u ∈ (RemoveDataset w (Some c) ctx ref remoteAddr).1.
Proof.
  intros H Hsig Hu u Hreq. unfold RemoveDataset, removeDatasetHTTP.
  unfold mbind, M_bind, emit, liftErr, lift, fail. cbn.
  rewrite Hsig. cbn. rewrite bool_decide_true by done. rewrite Hu. cbn.
  fold u. rewrite Hreq. cbn.
  destruct (http_Do w ctx "DELETE" u) as [res|]; cbn; [|set_solver].
  case_bool_decide; cbn; [|set_solver].
  destruct (Http.ReadErr res); cbn; set_solver.
Qed.

(** C1: every privileged request of the sync client (dataset push, pull and
    remove) is signed.  [sigParams] builds the signing string
    "<unix timestamp>.<author profile id>.<content path>", where the profile
    id is the base58 form of the SHA2-256 multihash of the author's public
    key bytes, signs it with the author's key, base64-encodes the signature
    and returns exactly the parameters peername, name, profileID, path, pid,
    timestamp and signature.  Every dsync push, dsync pull and HTTP DELETE
    the three operations issue carries exactly that map (the pull for the
    reference as resolved), and the request is issued whenever the signing
    and the set-up of the transport succeed. *)
Theorem privileged_requests_signed (w : World) (c : Client) (ctx : Context)
    (ref : DatasetRef) (remoteAddr : string) :
  (∀ params, sigParams w (pk c) ref = Ok params →
             signedParams w (pk c) ref params)
  ∧ Forall (carriesSigned w (pk c) ref remoteAddr)
      (PushDataset w (Some c) ctx ref remoteAddr).1
  ∧ Forall
      (carriesSigned w (pk c)
         (PullDataset w (Some c) ctx ref remoteAddr).1.2 remoteAddr)
      (PullDataset w (Some c) ctx ref remoteAddr).1.1
  ∧ Forall (carriesSigned w (pk c) ref remoteAddr)
      (RemoveDataset w (Some c) ctx ref remoteAddr).1
  ∧ (∀ params,
       sigParams w (pk c) ref = Ok params →
       let addr :=
         if bool_decide (addressType w remoteAddr = "http")
         then remoteAddr +:+ "/remote/dsync" else remoteAddr in
       dsync_NewPush w (Path ref) addr true = None →
       EvDsyncPush ctx (Path ref) addr true params
       ∈ (PushDataset w (Some c) ctx ref remoteAddr).1)
  ∧ (∀ params,
       sigParams w (pk c) ref = Ok params →
       Path ref ≠ "" →
       dsync_NewPull w (Path ref) (remoteAddr +:+ "/remote/dsync") params
       = None →
       EvDsyncPull ctx (Path ref) (remoteAddr +:+ "/remote/dsync") params
       ∈ (PullDataset w (Some c) ctx ref remoteAddr).1.1)
  ∧ (∀ params u0,
       sigParams w (pk c) ref = Ok params →
       addressType w remoteAddr = "http" →
       url_Parse w remoteAddr = Ok u0 →
       let u :=
         Url.setRawQuery (Url.setPath u0 "/remote/refs")
           (setAll params (Url.RawQuery u0)) in
       http_NewRequest w "DELETE" u = None →
       EvHTTP ctx "DELETE" u
       ∈ (RemoveDataset w (Some c) ctx ref remoteAddr).1).
Proof.
  split_and!.
  - apply sigParams_signed.
  - apply PushDataset_signed.
  - apply PullDataset_signed.
  - apply RemoveDataset_signed.
  - intros params Hsig addr Hnew.
    rewrite (PushDataset_trace w c ctx ref remoteAddr params Hnew Hsig).
    set_solver.
  - intros params Hsig Hpath Hnew. unfold PullDataset.
    rewrite bool_decide_false by done. cbn. rewrite Hsig, Hnew. cbn.
    set_solver.
  - intros params u0 Hsig Hhttp Hu u Hreq.
    by apply RemoveDataset_http.
Qed.

(** On the demo world the three requests go out with the seven parameters
    of [Demo.pop]. *)
Lemma privileged_requests_signed_demo :
  signedParams Demo.world Demo.aliceKey Demo.pop Demo.popParams
  ∧ EvDsyncPush false "/ipfs/QmPopV1" "http://registry.example/remote/dsync"
      true Demo.popParams
    ∈ (PushDataset Demo.world (Some Demo.alice) false Demo.pop
         "http://registry.example").1
  ∧ EvDsyncPull false "/ipfs/QmPopV1" "http://registry.example/remote/dsync"
      Demo.popParams
    ∈ (PullDataset Demo.world (Some Demo.alice) false Demo.pop
         "http://registry.example").1.1
  ∧ EvHTTP false "DELETE"
      {| Url.Scheme := "http"; Url.Host := "registry.example";
         Url.Path := "/remote/refs";
         Url.RawQuery := setAll Demo.popParams ∅ |}
    ∈ (RemoveDataset Demo.world (Some Demo.alice) false Demo.pop
         "http://registry.example").1.
Proof.
  destruct (privileged_requests_signed Demo.world Demo.alice false Demo.pop
              "http://registry.example")
    as (Hsig & _ & _ & _ & Hpush & Hpull & Hremove).
  split_and!.
  - apply Hsig. reflexivity.
  - apply (Hpush Demo.popParams); reflexivity.
  - apply (Hpull Demo.popParams); [reflexivity|discriminate|reflexivity].
  - apply (Hremove Demo.popParams
             {| Url.Scheme := "http"; Url.Host := "registry.example";
                Url.Path := ""; Url.RawQuery := ∅ |}); reflexivity.
Defined.

(** C2: [PullLogs], [PushLogs] and [RemoveLogs] choose the transport by
    parsing the remote address.  An address that decodes as a base58 peer
    identifier goes to the peer-network transport unchanged; otherwise an
    address with the prefix "http" goes to the HTTP transport with
    "/remote/logsync" appended; any other address ends in the
    unrecognized-address error and no exchange. *)
Theorem logs_transport_selection (w : World) (op : logOp) (c : Client)
    (ctx : Context) (ref : Ref) (remoteAddr : string) :
  logs op w (Some c) ctx ref remoteAddr =
  match IDB58Decode w remoteAddr with
  | Ok _ =>
      ([debugLine op ref remoteAddr; EvLogsync op "p2p" ctx ref remoteAddr],
       (liftErr (logsync_Do w op "p2p" ctx ref remoteAddr)).2)
  | Err _ =>
      if String.prefix "http" remoteAddr then
        let addr := remoteAddr +:+ "/remote/logsync" in
        ([debugLine op ref addr; EvLogsync op "http" ctx ref addr],
         (liftErr (logsync_Do w op "http" ctx ref addr)).2)
      else
        ([debugLine op ref remoteAddr],
         Err (Errorf ("unrecognized address: " +:+ remoteAddr)))
  end.
Proof.
  assert (Hrun : ∀ addr,
    logsync_run w op ctx ref addr =
    match logsync_remoteClient w addr with
    | Ok t => ([EvLogsync op t ctx ref addr],
               (liftErr (logsync_Do w op t ctx ref addr)).2)
    | Err e => ([], Err e)
    end).
  { intros addr. unfold logsync_run, mbind, M_bind, emit, lift. cbn.
    destruct (logsync_remoteClient w addr) as [t|]; cbn; [|done].
    by destruct (logsync_Do w op t ctx ref addr). }
  assert (Hop : logs op w (Some c) ctx ref remoteAddr =
    let addr := if bool_decide (addressType w remoteAddr = "http")
                then remoteAddr +:+ "/remote/logsync" else remoteAddr in
    (debugLine op ref addr :: (logsync_run w op ctx ref addr).1,
     (logsync_run w op ctx ref addr).2)).
  { destruct op; cbn; unfold PullLogs, PushLogs, RemoveLogs;
      unfold mbind, M_bind, emit; cbn;
      by destruct (logsync_run w _ ctx ref _) as [t [|]]. }
  rewrite Hop. cbn. rewrite addressType_cases.
  destruct (IDB58Decode w remoteAddr) as [id|e] eqn:Hid.
  - rewrite bool_decide_false by done. rewrite Hrun.
    unfold logsync_remoteClient. by rewrite Hid.
  - destruct (String.prefix "http" remoteAddr) eqn:Hp.
    + rewrite bool_decide_true by done. rewrite Hrun.
      unfold logsync_remoteClient, IDB58Decode.
      rewrite isB58_suffix. by rewrite prefix_append.
    + rewrite bool_decide_false by done. rewrite Hrun.
      unfold logsync_remoteClient. by rewrite Hid, Hp.
Qed.

(** On the demo world: a peer identifier, an HTTP address and an address
    that is neither. *)
Lemma logs_transport_selection_demo :
  PullLogs Demo.world (Some Demo.alice) false Demo.popLog "QmRemotePeer"
  = ([debugLine LogPull Demo.popLog "QmRemotePeer";
      EvLogsync LogPull "p2p" false Demo.popLog "QmRemotePeer"], Ok tt)
  ∧ PushLogs Demo.world (Some Demo.alice) false Demo.popLog
      "http://registry.example"
    = ([debugLine LogPush Demo.popLog "http://registry.example/remote/logsync";
        EvLogsync LogPush "http" false Demo.popLog
          "http://registry.example/remote/logsync"], Ok tt)
  ∧ RemoveLogs Demo.world (Some Demo.alice) false Demo.popLog
      "registry.example"
    = ([debugLine LogRemove Demo.popLog "registry.example"],
       Err (Errorf "unrecognized address: registry.example")).
Proof.
  split_and!.
  - exact (logs_transport_selection Demo.world LogPull Demo.alice false
             Demo.popLog "QmRemotePeer").
  - exact (logs_transport_selection Demo.world LogPush Demo.alice false
             Demo.popLog "http://registry.example").
  - exact (logs_transport_selection Demo.world LogRemove Demo.alice false
             Demo.popLog "registry.example").
Defined.

(** C7, as the code has it: on a configured client, for a remote address
    that does not parse as an HTTP address, [ResolveHeadRef] fails with its
    transport-unsupported error and [RemoveDataset] does so once the request
    parameters are signed (a signing error is returned first); neither issues
    a request.  Over an HTTP address whose URL parses and for which a request
    can be built, they issue a GET, respectively a DELETE, to the path
    "/remote/refs". *)
Theorem http_only_operations (w : World) (c : Client) (ctx : Context)
    (ref : DatasetRef) (remoteAddr : string) :
  (addressType w remoteAddr ≠ "http" →
   ResolveHeadRef w (Some c) ctx ref remoteAddr =
   ([], ref,
    Some (Errorf "dataset name resolution currently only works over HTTP"))
   ∧ RemoveDataset w (Some c) ctx ref remoteAddr =
     ([EvLog DebugLevel "requesting remove dataset %s from remote %s"
         [AStr (Path ref); AStr remoteAddr]],
      match sigParams w (pk c) ref with
      | Ok _ =>
          Err (Errorf "dataset remove requests currently only work over HTTP")
      | Err e => Err e
      end))
  ∧ (addressType w remoteAddr = "http" →
     ∀ u0, url_Parse w remoteAddr = Ok u0 →
     (let u :=
        Url.setRawQuery (Url.setPath u0 "/remote/refs")
          (<["name" := [Name ref]]>
             (<["peername" := [Peername ref]]> (Url.RawQuery u0))) in
      Url.Path u = "/remote/refs"
      ∧ (http_NewRequest w "GET" u = None →
         (ResolveHeadRef w (Some c) ctx ref remoteAddr).1.1
         = [EvHTTP ctx "GET" u]))
     ∧ (∀ params,
          sigParams w (pk c) ref = Ok params →
          let u :=
            Url.setRawQuery (Url.setPath u0 "/remote/refs")
              (setAll params (Url.RawQuery u0)) in
          Url.Path u = "/remote/refs"
          ∧ (http_NewRequest w "DELETE" u = None →
             EvHTTP ctx "DELETE" u
             ∈ (RemoveDataset w (Some c) ctx ref remoteAddr).1))).
Proof.
  split.
  - intros H. split.
    + by apply ResolveHeadRef_not_http.
    + by apply RemoveDataset_not_http.
  - intros H u0 Hu. split.
    + split; [done|]. intros Hreq. by apply ResolveHeadRef_http.
    + intros params Hsig. split; [done|]. intros Hreq.
      by apply RemoveDataset_http.
Qed.

(** On the demo world: a peer address is refused by both operations, an
    HTTP address gets the two requests. *)
Lemma http_only_operations_demo :
  (ResolveHeadRef Demo.world (Some Demo.alice) false Demo.pop "QmRemotePeer"
   = ([], Demo.pop,
      Some (Errorf "dataset name resolution currently only works over HTTP"))
   ∧ returned
       (RemoveDataset Demo.world (Some Demo.alice) false Demo.pop
          "QmRemotePeer")
     = Some (Errorf "dataset remove requests currently only work over HTTP"))
  ∧ (ResolveHeadRef Demo.world (Some Demo.alice) false Demo.pop
       "http://registry.example").1.1
    = [EvHTTP false "GET"
         {| Url.Scheme := "http"; Url.Host := "registry.example";
            Url.Path := "/remote/refs";
            Url.RawQuery := {[ "name" := ["pop"]; "peername" := ["alice"] ]}
         |}]
  ∧ EvHTTP false "DELETE"
      {| Url.Scheme := "http"; Url.Host := "registry.example";
         Url.Path := "/remote/refs";
         Url.RawQuery := setAll Demo.popParams ∅ |}
    ∈ (RemoveDataset Demo.world (Some Demo.alice) false Demo.pop
         "http://registry.example").1.
Proof.
  destruct (http_only_operations Demo.world Demo.alice false Demo.pop
              "QmRemotePeer") as [Hpeer _].
  destruct (http_only_operations Demo.world Demo.alice false Demo.pop
              "http://registry.example") as [_ Hhttp].
  specialize (Hpeer ltac:(discriminate)).
  specialize (Hhttp eq_refl
                {| Url.Scheme := "http"; Url.Host := "registry.example";
                   Url.Path := ""; Url.RawQuery := ∅ |} eq_refl).
  destruct Hpeer as [Hresolve Hremove].
  destruct Hhttp as [[_ Hget] Hdelete].
  split_and!.
  - exact Hresolve.
  - rewrite Hremove. reflexivity.
  - apply Hget. reflexivity.
  - apply (Hdelete Demo.popParams eq_refl). reflexivity.
Defined.

(** The claim C7 as stated fails: with a key that cannot sign,
    [RemoveDataset] on a peer address returns the signing error, not the
    transport-unsupported error; and over an address with the prefix "http"
    that [url.Parse] rejects, [ResolveHeadRef] issues no request. *)
Lemma remove_signs_before_transport_check :
  addressType Demo.world "QmRemotePeer" ≠ "http"
  ∧ returned
      (RemoveDataset Demo.world (Some Demo.lockedAlice) false Demo.pop
         "QmRemotePeer")
    = Some (Errorf "error signing key is locked")
  ∧ Errorf "error signing key is locked"
    ≠ Errorf "dataset remove requests currently only work over HTTP"
  ∧ addressType Demo.world "http://bad host" = "http"
  ∧ ResolveHeadRef Demo.world (Some Demo.alice) false Demo.pop
      "http://bad host"
    = ([], Demo.pop, Some (Errorf "invalid character in host name")).
Proof. split_and!; [discriminate|reflexivity|discriminate|reflexivity..]. Qed.

(** A nil client answers every operation with [ErrNoRemoteClient], emits
    nothing and leaves the reference it was handed untouched. *)
Lemma nil_client (w : World) (ctx : Context) (ref : DatasetRef)
    (logRef : Ref) (remoteAddr : string) :
  PullLogs w None ctx logRef remoteAddr = ([], Err ErrNoRemoteClient)
  ∧ PushLogs w None ctx logRef remoteAddr = ([], Err ErrNoRemoteClient)
  ∧ RemoveLogs w None ctx logRef remoteAddr = ([], Err ErrNoRemoteClient)
  ∧ PushDataset w None ctx ref remoteAddr = ([], Err ErrNoRemoteClient)
  ∧ PullDataset w None ctx ref remoteAddr = ([], ref, Some ErrNoRemoteClient)
  ∧ RemoveDataset w None ctx ref remoteAddr = ([], Err ErrNoRemoteClient)
  ∧ ResolveHeadRef w None ctx ref remoteAddr
    = ([], ref, Some ErrNoRemoteClient).
Proof. by split_and!. Qed.

End RemoteFacts.

(** ** Package actions *)
Module ActionsFacts.
Import Repo Trace Actions Spec.

Lemma taskEvent_beforeSuccess (ctx : Context) (e : event) :
  taskEvent ctx e → beforeSuccess ctx e.
Proof. by destruct e. Qed.

Lemma lastRecv_app_task (ctx : Context) (t t' : list event) :
  Forall (taskEvent ctx) t' → lastRecv (t ++ t') = lastRecv t.
Proof.
  intros Ht'. induction t as [|e t IH]; cbn.
  - induction Ht' as [|e' t' He' _ IH']; cbn; [done|].
    rewrite IH'. by destruct e'.
  - by rewrite IH.
Qed.

Lemma lastRecv_snoc (t : list event) (s : source) (e : option error) :
  lastRecv (t ++ [EvRecv s e]) = Some (s, e).
Proof. induction t as [|e' t IH]; cbn; [done|]. by rewrite IH. Qed.

Lemma PullDataset_taskEvents (rw : Remote.World) (c : option Remote.Client)
    (ctx : Context) (ref : DatasetRef) (remoteAddr : string) :
  Forall (taskEvent ctx) (Remote.PullDataset rw c ctx ref remoteAddr).1.1.
Proof.
  unfold Remote.PullDataset. destruct c as [c|]; cbn; [|constructor].
  set (res := if bool_decide (Path ref = "") then _ else _).
  assert (Hres : Forall (taskEvent ctx) res.1.1).
  { subst res. case_bool_decide; [|constructor].
    apply Forall_forall. intros e He.
    destruct (RemoteFacts.ResolveHeadRef_unsigned rw (Some c) ctx ref
                remoteAddr e He) as (u & -> & _). done. }
  destruct res as [[t1 ref1] resolveErr]. cbn in Hres.
  destruct resolveErr as [e|]; cbn.
  { constructor; [done|]. apply Forall_app. split; [done|]. by repeat constructor. }
  destruct (Remote.sigParams rw (Remote.pk c) ref1) as [params|e]; cbn.
  2:{ constructor; [done|]. apply Forall_app. split; [done|]. by repeat constructor. }
  destruct (Remote.dsync_NewPull rw (Path ref1) _ params); cbn;
    (constructor; [done|]; apply Forall_app; split; [done|];
     by repeat constructor).
Qed.

Section Coordinator.
Context {R : Type}.
Variable w : World R.
Variable node : QriNode.
Variable rc : option Remote.Client.
Variable remoteAddr : string.

(** A goroutine step emits events under the context it reads and touches
    none of the coordinator's variables. *)
Lemma runTask_spec (s : source) (st : AddSt) :
  ∃ t, trace (runTask w node rc remoteAddr s st) = trace st ++ t
       ∧ Forall (taskEvent (cancelled st)) t
       ∧ cancelled (runTask w node rc remoteAddr s st) = cancelled st
       ∧ success (runTask w node rc remoteAddr s st) = success st
       ∧ i (runTask w node rc remoteAddr s st) = i st
       ∧ err (runTask w node rc remoteAddr s st) = err st
       ∧ tasks (runTask w node rc remoteAddr s st) = tasks st
       ∧ doneCount (runTask w node rc remoteAddr s st) = doneCount st
       ∧ (∀ s', taskOf s' (runTask w node rc remoteAddr s st) = Some Done
                ↔ taskOf s' st = Some Done).
Proof.
  unfold runTask.
  destruct s; cbn.
  - destruct (registry st) as [[| |e|]|] eqn:Hreg;
      try (exists []; rewrite app_nil_r; split_and!; by try constructor).
    + pose proof (PullDataset_taskEvents (remote w) rc (cancelled st)
                    (refCopy st) remoteAddr) as Hpull.
      destruct (Remote.PullDataset (remote w) rc (cancelled st) (refCopy st)
                  remoteAddr) as [[t ref'] [e|]]; cbn in Hpull.
      * exists t. unfold tasks, doneCount. cbn. rewrite Hreg.
        split_and!; task_goal Hreg.
      * destruct (Pinner node);
          (exists (t ++ [EvPrint ("🗼 fetched from registry" +:+ newline)]);
           unfold tasks, doneCount; cbn; rewrite Hreg;
           split_and!; task_goal Hreg).
    + destruct (Pinner node) as [pin|].
      * exists [EvPin (cancelled st) (Path (refCopy st)) true].
        unfold tasks, doneCount. cbn. rewrite Hreg.
        split_and!; task_goal Hreg.
      * exists []. unfold tasks, doneCount. cbn. rewrite Hreg, app_nil_r.
        split_and!; task_goal Hreg.
  - destruct (p2p st) as [[| |e|]|] eqn:Hp2p;
      try (exists []; rewrite app_nil_r; split_and!; by try constructor).
    exists [EvFetchDataset (cancelled st) (ref st)].
    unfold tasks, doneCount. cbn. rewrite Hp2p.
    split_and!; task_goal Hp2p.
Qed.

Lemma recv_finished (s : source) (st : AddSt) :
  finished st = true → recv s st = st.
Proof. intros H. unfold recv. by rewrite H. Qed.

Lemma step_tasks (a : action) (st : AddSt) :
  tasks (step w node rc remoteAddr a st) = tasks st.
Proof.
  destruct a as [s|s]; cbn.
  - by destruct (runTask_spec s st) as (t & _ & _ & _ & _ & _ & _ & H & _).
  - unfold recv. destruct (finished st); [done|].
    destruct s; cbn.
    + destruct (registry st) as [[| |[e|]|]|] eqn:H; try done;
        unfold tasks; cbn; by rewrite H.
    + destruct (p2p st) as [[| |[e|]|]|] eqn:H; try done;
        unfold tasks; cbn; by rewrite H.
Qed.

Lemma exec_tasks (sched : list action) (st : AddSt) :
  tasks (exec w node rc remoteAddr sched st) = tasks st.
Proof.
  revert st. induction sched as [|a sched IH]; intros st; cbn; [done|].
  unfold exec in IH. rewrite IH. apply step_tasks.
Qed.

Lemma exec_app (sched1 sched2 : list action) (st : AddSt) :
  exec w node rc remoteAddr (sched1 ++ sched2) st =
  exec w node rc remoteAddr sched2 (exec w node rc remoteAddr sched1 st).
Proof. unfold exec. apply foldl_app. Qed.

(** The invariant of the coordinator holds at the start of the loop and
    after every step. *)
Lemma coordInv_launch (ctx : Context) (ref : DatasetRef) :
  coordInv ctx (launch node rc remoteAddr ctx ref).
Proof.
  unfold coordInv, launch, doneCount. cbn. split_and!; try done.
  - destruct rc; [case_bool_decide|]; by destruct (Online node).
  - intros [|]; cbn.
    + destruct rc; [case_bool_decide|]; done.
    + by destruct (Online node).
Qed.

Lemma coordInv_step (ctx : Context) (a : action) (st : AddSt) :
  coordInv ctx st → coordInv ctx (step w node rc remoteAddr a st).
Proof.
  intros Hinv. destruct a as [s|s]; cbn.
  - destruct (runTask_spec s st)
      as (t & Ht & Hev & Hc & Hs & Hi & He & _ & Hd & Hdone).
    unfold coordInv in *. rewrite Hs.
    destruct (success st); [congruence|].
    destruct Hinv as (Hctx & Hcnt & Hall & Hrecv & Hlast).
    rewrite Hc, Hi, He, Hd, Ht. rewrite Hctx in Hev.
    split_and!; try done.
    + apply Forall_app. split; [done|].
      eapply Forall_impl; [done|]. apply taskEvent_beforeSuccess.
    + intros s' Hs'. destruct (Hrecv s') as [e He']; [by apply Hdone|].
      exists e. apply elem_of_app. by left.
    + by rewrite (lastRecv_app_task ctx).
  - unfold recv. destruct (finished st) eqn:Hfin; [done|].
    unfold finished in Hfin. apply orb_false_iff in Hfin as [Hsucc Hfin].
    unfold coordInv in Hinv. rewrite Hsucc in Hinv.
    destruct Hinv as (Hctx & Hcnt & Hall & Hrecv & Hlast).
    destruct (taskOf s st) as [[| |[e|]|]|] eqn:Htask;
      try (unfold coordInv; rewrite Hsucc; done).
    + (* a failed response *)
      unfold coordInv. cbn. rewrite Hsucc. split_and!.
      * done.
      * rewrite Hcnt. unfold doneCount.
        destruct s; cbn in *; rewrite Htask; cbn; lia.
      * apply Forall_app. split; [done|]. by repeat constructor.
      * intros s'. destruct (decide (s' = s)) as [->|Hne].
        -- intros _. exists e. set_solver.
        -- intros Hs'. assert (taskOf s' st = Some Done) as Hold.
           { destruct s, s'; cbn in *; congruence. }
           apply Hrecv in Hold as [e' He']. exists e'. set_solver.
      * rewrite lastRecv_snoc. done.
    + (* the first success *)
      unfold coordInv. cbn. done.
Qed.

Lemma coordInv_exec (ctx : Context) (sched : list action) (st : AddSt) :
  coordInv ctx st → coordInv ctx (exec w node rc remoteAddr sched st).
Proof.
  revert st. induction sched as [|a sched IH]; intros st Hinv; [done|].
  apply IH. by apply coordInv_step.
Qed.

(** Only the receipt of a nil error sets [success]. *)
Lemma step_success (a : action) (st : AddSt) :
  success st = false →
  success (step w node rc remoteAddr a st) = true →
  ∃ s, a = Recv s ∧ finished st = false
       ∧ taskOf s st = Some (Sending None).
Proof.
  intros H0 H1. destruct a as [s|s]; cbn in H1.
  - destruct (runTask_spec s st) as (t & _ & _ & _ & Hs & _). congruence.
  - exists s. unfold recv in H1.
    destruct (finished st) eqn:Hfin; [congruence|].
    destruct (taskOf s st) as [[| |[e|]|]|] eqn:Htask; cbn in H1;
      try congruence.
    done.
Qed.

Lemma first_success (sched : list action) (st : AddSt) :
  success st = false →
  success (exec w node rc remoteAddr sched st) = true →
  ∃ sched1 s sched2,
    sched = sched1 ++ Recv s :: sched2
    ∧ success (exec w node rc remoteAddr sched1 st) = false
    ∧ finished (exec w node rc remoteAddr sched1 st) = false
    ∧ taskOf s (exec w node rc remoteAddr sched1 st) = Some (Sending None).
Proof.
  revert st. induction sched as [|a sched IH]; intros st H0 H1.
  { cbn in H1. congruence. }
  destruct (success (step w node rc remoteAddr a st)) eqn:Hstep.
  - destruct (step_success a st H0 Hstep) as (s & -> & Hfin & Htask).
    by exists [], s, sched.
  - destruct (IH _ Hstep H1) as (sched1 & s & sched2 & -> & Hs & Hf & Ht).
    by exists (a :: sched1), s, sched2.
Qed.

(** After the success the context stays cancelled, the coordinator takes no
    further response, and whatever the other goroutines still do, they do
    under the cancelled context. *)
Lemma after_success (sched : list action) (st : AddSt) :
  success st = true →
  cancelled st = true →
  success (exec w node rc remoteAddr sched st) = true
  ∧ cancelled (exec w node rc remoteAddr sched st) = true
  ∧ ∃ post, trace (exec w node rc remoteAddr sched st) = trace st ++ post
            ∧ Forall (taskEvent true) post.
Proof.
  revert st. induction sched as [|a sched IH]; intros st Hs Hc.
  { split_and!; [done..|]. exists []. by rewrite app_nil_r. }
  assert (∃ t, trace (step w node rc remoteAddr a st) = trace st ++ t
               ∧ Forall (taskEvent true) t
               ∧ success (step w node rc remoteAddr a st) = true
               ∧ cancelled (step w node rc remoteAddr a st) = true)
    as (t & Ht & Hev & Hs' & Hc').
  { destruct a as [s|s]; cbn.
    - destruct (runTask_spec s st) as (t & Ht & Hev & Hc' & Hs' & _).
      exists t. rewrite Hc in Hev. split_and!; congruence.
    - rewrite recv_finished by (unfold finished; by rewrite Hs).
      exists []. by rewrite app_nil_r. }
  destruct (IH _ Hs' Hc') as (Hs'' & Hc'' & post & Hpost & Hall).
  split_and!; [done..|].
  exists (t ++ post). split.
  - cbn. unfold exec in Hpost. rewrite Hpost, Ht. by rewrite app_assoc.
  - by apply Forall_app.
Qed.

(** [*ref] once a response was adopted: the coordinator and the registry
    goroutine leave it alone; the peer-network goroutine works on [*ref]
    itself, and when it is still to fetch, its fetch writes there. *)
Lemma ref_after_success (sched : list action) (st : AddSt) :
  success st = true →
  cancelled st = true →
  (p2p st = Some Running → Run P2P ∈ sched →
   Actions.ref (exec w node rc remoteAddr sched st)
   = (FetchDataset w true (Actions.ref st)).1)
  ∧ (p2p st ≠ Some Running ∨ Run P2P ∉ sched →
     Actions.ref (exec w node rc remoteAddr sched st) = Actions.ref st).
Proof.
  revert st. induction sched as [|a sched IH]; intros st Hs Hc.
  { split; [intros _ Hin; by apply elem_of_nil in Hin|done]. }
  assert (∀ st', success st' = true → cancelled st' = true →
                 p2p st' ≠ Some Running →
                 Actions.ref (exec w node rc remoteAddr sched st')
                 = Actions.ref st') as Hquiet.
  { intros st' Hs' Hc' Hp. apply (IH st' Hs' Hc'). by left. }
  assert (∀ a, exec w node rc remoteAddr (a :: sched) st
               = exec w node rc remoteAddr sched
                   (step w node rc remoteAddr a st)) as Hcons by done.
  destruct a as [[]|s]; rewrite !Hcons; cbn [step].
  - (* the registry goroutine *)
    assert (Actions.ref (runTask w node rc remoteAddr Registry st)
            = Actions.ref st
            ∧ p2p (runTask w node rc remoteAddr Registry st) = p2p st
            ∧ success (runTask w node rc remoteAddr Registry st) = true
            ∧ cancelled (runTask w node rc remoteAddr Registry st) = true)
      as (Href & Hp & Hs' & Hc').
    { unfold runTask. cbn.
      destruct (registry st) as [[| |e|]|]; try done.
      - destruct (Remote.PullDataset _ _ _ _ _) as [[t ref'] [e|]]; cbn;
          [done|]. by destruct (Pinner node).
      - by destruct (Pinner node). }
    destruct (IH _ Hs' Hc') as [Hrun Hstay].
    rewrite Hp, Href in Hrun. rewrite Hp, Href in Hstay. split.
    + intros Hp2p Hin. apply Hrun; [done|].
      apply elem_of_cons in Hin as [Hin|Hin]; [done|done].
    + intros [Hp2p|Hin]; apply Hstay; [by left|].
      right. intros Hin'. apply Hin. by apply elem_of_cons; right.
  - (* the peer-network goroutine *)
    unfold runTask. cbn [taskOf].
    destruct (p2p st) as [[| |e|]|] eqn:Hp2p.
    + rewrite Hc. split.
      * intros _ _. by rewrite Hquiet.
      * intros [Hp|Hin]; [done|]. exfalso. apply Hin.
        by apply elem_of_cons; left.
    + split; [done|]. intros _. apply Hquiet; [done..|]. by rewrite Hp2p.
    + split; [done|]. intros _. apply Hquiet; [done..|]. by rewrite Hp2p.
    + split; [done|]. intros _. apply Hquiet; [done..|]. by rewrite Hp2p.
    + split; [done|]. intros _. apply Hquiet; [done..|]. by rewrite Hp2p.
  - (* the coordinator has left its loop *)
    rewrite recv_finished by (unfold finished; by rewrite Hs).
    destruct (IH _ Hs Hc) as [Hrun Hstay]. split.
    + intros Hp2p Hin. apply Hrun; [done|].
      apply elem_of_cons in Hin as [Hin|Hin]; [done|done].
    + intros [Hp2p|Hin]; apply Hstay; [by left|].
      right. intros Hin'. apply Hin. by apply elem_of_cons; right.
Qed.

(** How far a goroutine gets in one step. *)
Lemma runTask_Registry (st : AddSt) :
  p2p (runTask w node rc remoteAddr Registry st) = p2p st
  ∧ match registry st with
    | Some Running =>
        registry (runTask w node rc remoteAddr Registry st) = Some Fetched
        ∨ ∃ e, registry (runTask w node rc remoteAddr Registry st)
               = Some (Sending e)
    | Some Fetched =>
        ∃ e, registry (runTask w node rc remoteAddr Registry st)
             = Some (Sending e)
    | x => registry (runTask w node rc remoteAddr Registry st) = x
    end.
Proof.
  unfold runTask. cbn.
  destruct (registry st) as [[| |e|]|] eqn:Hreg; try done.
  - destruct (Remote.PullDataset (remote w) rc (cancelled st) (refCopy st)
                remoteAddr) as [[t ref'] [e|]]; cbn; [eauto|].
    destruct (Pinner node); cbn; eauto.
  - destruct (Pinner node); cbn; eauto.
Qed.

Lemma runTask_P2P (st : AddSt) :
  registry (runTask w node rc remoteAddr P2P st) = registry st
  ∧ match p2p st with
    | Some Running =>
        ∃ e, p2p (runTask w node rc remoteAddr P2P st) = Some (Sending e)
    | x => p2p (runTask w node rc remoteAddr P2P st) = x
    end.
Proof.
  unfold runTask. cbn.
  destruct (p2p st) as [[| |e|]|] eqn:Hp2p; try done. cbn. eauto.
Qed.

(** Once each goroutine waits with its response or has handed it over, two
    receives end the loop. *)
Lemma recv_both_finishes (ctx : Context) (st : AddSt) :
  coordInv ctx st →
  (registry st = None ∨ (∃ e, registry st = Some (Sending e))
   ∨ registry st = Some Done) →
  (p2p st = None ∨ (∃ e, p2p st = Some (Sending e)) ∨ p2p st = Some Done) →
  finished (recv P2P (recv Registry st)) = true.
Proof.
  intros Hinv Hreg Hp2p. unfold coordInv in Hinv.
  destruct (success st) eqn:Hs.
  { rewrite (recv_finished Registry st), (recv_finished P2P st);
      unfold finished; by rewrite Hs. }
  destruct Hinv as (_ & Hcnt & _). unfold doneCount in Hcnt.
  destruct st as [c ref0 copy0 reg p n e0 s0 t0]. cbn in *. subst s0.
  destruct Hreg as [->|[[[e|] ->]| ->]], Hp2p as [->|[[[e'|] ->]| ->]];
    cbn in Hcnt; subst n; reflexivity.
Qed.

(** The goroutine of the peer network makes one call only. *)
Lemma p2p_not_Fetched (sched : list action) (st : AddSt) :
  p2p st ≠ Some Fetched →
  p2p (exec w node rc remoteAddr sched st) ≠ Some Fetched.
Proof.
  revert st. induction sched as [|a sched IH]; intros st H; [done|].
  apply IH. destruct a as [[|]|s]; unfold step.
  - by destruct (runTask_Registry st) as [-> _].
  - destruct (runTask_P2P st) as [_ Hp].
    destruct (p2p st) as [[| |e|]|]; try congruence.
    destruct Hp as [e ->]. done.
  - unfold recv. destruct (finished st); [done|].
    destruct s; cbn.
    + by destruct (registry st) as [[| |[e|]|]|].
    + destruct (p2p st) as [[| |[e|]|]|] eqn:Hp; cbn; congruence.
Qed.

(** No interleaving gets stuck: whatever has happened, letting both
    goroutines finish and handing their responses to the coordinator brings
    it out of its loop. *)
Lemma fairSchedule_finishes (ctx : Context) (ref : DatasetRef)
    (sched : list action) :
  finished
    (exec w node rc remoteAddr (sched ++ fairSchedule)
       (launch node rc remoteAddr ctx ref)) = true.
Proof.
  rewrite exec_app.
  set (st0 := exec w node rc remoteAddr sched
                (launch node rc remoteAddr ctx ref)).
  assert (p2p st0 ≠ Some Fetched) as Hp0.
  { apply p2p_not_Fetched. unfold launch. cbn. by destruct (Online node). }
  set (st1 := runTask w node rc remoteAddr Registry st0).
  set (st2 := runTask w node rc remoteAddr Registry st1).
  set (st3 := runTask w node rc remoteAddr P2P st2).
  change (finished (recv P2P (recv Registry st3)) = true).
  destruct (runTask_Registry st0) as [Hp1 Hr1].
  destruct (runTask_Registry st1) as [Hp2 Hr2].
  destruct (runTask_P2P st2) as [Hr3 Hp3].
  fold st1 in Hp1, Hr1. fold st2 in Hp2, Hr2. fold st3 in Hr3, Hp3.
  apply (recv_both_finishes ctx).
  - apply (coordInv_exec ctx [Run Registry; Run Registry; Run P2P] st0).
    apply coordInv_exec, coordInv_launch.
  - rewrite Hr3.
    destruct (registry st0) as [[| |e|]|];
      [destruct Hr1 as [Hr1|[e Hr1]]|destruct Hr1 as [e Hr1]|..];
      rewrite Hr1 in Hr2; first [by eauto | rewrite Hr2; by eauto].
  - rewrite Hp2, Hp1 in Hp3.
    destruct (p2p st0) as [[| |e|]|]; try done; eauto.
Qed.

(** [AddDataset] once the reference is resolved and a goroutine is
    started. *)
Lemma AddDataset_coordinated (ctx : Context) (ref : DatasetRef) (r : R)
    (sched : list action) (t1 : list event) (ref1 : DatasetRef) :
  resolveRef w rc remoteAddr ctx ref = (t1, ref1, None) →
  let st :=
    exec w node rc remoteAddr sched (launch node rc remoteAddr ctx ref1) in
  tasks st ≠ 0 →
  finished st = true →
  let t0 := [EvLog DebugLevel "add dataset %s. remoteAddr: %s"
               [ARefString ref; AStr remoteAddr]] in
  AddDataset w node rc remoteAddr ctx ref r sched =
  Some
    (if success st then
       {| out_trace :=
            t0 ++ t1 ++ trace st
            ++ (storeRef w ctx r (Actions.ref st)).1.1.1 ++ [EvCancel];
          out_ref := (storeRef w ctx r (Actions.ref st)).1.1.2;
          out_repo := (storeRef w ctx r (Actions.ref st)).1.2;
          out_cancelled := true;
          out_err := (storeRef w ctx r (Actions.ref st)).2 |}
     else
       {| out_trace := t0 ++ t1 ++ trace st ++ [EvCancel];
          out_ref := Actions.ref st; out_repo := r; out_cancelled := true;
          out_err :=
            Some (Errorf ("add failed: "
                          +:+ from_option Error "" (err st))) |}).
Proof.
  intros Hres st Htasks Hfin t0. unfold AddDataset. rewrite Hres.
  subst st. rewrite exec_tasks in Htasks.
  rewrite bool_decide_false by done. rewrite Hfin. cbn.
  destruct (success _); cbn; [|done].
  by destruct (storeRef w ctx r _) as [[[t ref'] r'] e].
Qed.

(** A success means that a goroutine was started. *)
Lemma success_tasks (ctx : Context) (ref : DatasetRef) (sched : list action) :
  success
    (exec w node rc remoteAddr sched (launch node rc remoteAddr ctx ref))
  = true →
  tasks (exec w node rc remoteAddr sched (launch node rc remoteAddr ctx ref))
  ≠ 0.
Proof.
  intros Hsucc.
  destruct (first_success sched (launch node rc remoteAddr ctx ref)
              eq_refl Hsucc)
    as (sched1 & s & sched2 & _ & _ & _ & Htask).
  rewrite exec_tasks. rewrite <- (exec_tasks sched1). unfold tasks.
  destruct s; cbn in Htask; rewrite Htask; lia.
Qed.

(** X30: the first goroutine to report success wins, and what is returned is
    built from [*ref] as it stands at the return.
    In every interleaving in which [AddDataset] leaves its loop with a
    success, the coordinator took that response while every response before
    it was a failure and nothing had been cancelled; in the same step it
    calls [cancelFetch] and assigns the reference of that goroutine to
    [*ref]; it takes no further response, and every step the other
    goroutine makes afterwards reads the cancelled context.  [AddDataset]
    then returns with the events of the race in its trace, and what it
    stores and returns is built from [*ref] as it stands at that point.
    That is the adopted reference when the peer network won, when its
    goroutine had fetched already or was not started, and when it does not
    run before the return.  When the registry won while the goroutine of
    the peer network was still to fetch, and it fetches before the return,
    [*ref] is what that fetch, run under the cancelled context, made of
    the adopted reference. *)
Theorem first_success_wins (ctx : Context) (ref : DatasetRef) (r : R)
    (sched : list action) (t1 : list event) (ref1 : DatasetRef) :
  resolveRef w rc remoteAddr ctx ref = (t1, ref1, None) →
  let st0 := launch node rc remoteAddr ctx ref1 in
  success (exec w node rc remoteAddr sched st0) = true →
  ∃ sched1 s sched2 post out,
    sched = sched1 ++ Recv s :: sched2
    ∧ let st1 := exec w node rc remoteAddr sched1 st0 in
      let st2 := step w node rc remoteAddr (Recv s) st1 in
      let final := Actions.ref (exec w node rc remoteAddr sched st0) in
      taskOf s st1 = Some (Sending None)
      ∧ Forall (beforeSuccess ctx) (trace st1)
      ∧ trace st2 = trace st1 ++ [EvRecv s None; EvCancel]
      ∧ Actions.ref st2 =
        match s with Registry => refCopy st1 | P2P => Actions.ref st1 end
      ∧ cancelled st2 = true
      ∧ trace (exec w node rc remoteAddr sched st0) = trace st2 ++ post
      ∧ Forall (taskEvent true) post
      ∧ cancelled (exec w node rc remoteAddr sched st0) = true
      ∧ AddDataset w node rc remoteAddr ctx ref r sched = Some out
      ∧ out_cancelled out = true
      ∧ out_ref out = (storeRef w ctx r final).1.1.2
      ∧ out_repo out = (storeRef w ctx r final).1.2
      ∧ out_err out = (storeRef w ctx r final).2
      ∧ (s = P2P ∨ p2p st1 ≠ Some Running ∨ Run P2P ∉ sched2 →
         final = Actions.ref st2)
      ∧ (s = Registry → p2p st1 = Some Running → Run P2P ∈ sched2 →
         final = (FetchDataset w true (Actions.ref st2)).1)
      ∧ ∃ before after,
          out_trace out = before ++ trace st2 ++ post ++ after.
Proof.
  intros Hres st0 Hsucc.
  destruct (first_success sched st0 eq_refl Hsucc)
    as (sched1 & s & sched2 & -> & Hs1 & Hf1 & Htask).
  pose proof (coordInv_exec ctx sched1 st0 (coordInv_launch ctx ref1)) as Hinv.
  unfold coordInv in Hinv. rewrite Hs1 in Hinv.
  destruct Hinv as (_ & _ & Hall & _).
  set (st1 := exec w node rc remoteAddr sched1 st0) in *.
  assert (step w node rc remoteAddr (Recv s) st1 =
          recvSuccess s (log [EvRecv s None] (setTask s Done st1))) as Hstep.
  { cbn. unfold recv. by rewrite Hf1, Htask. }
  set (st2 := step w node rc remoteAddr (Recv s) st1) in *.
  assert (trace st2 = trace st1 ++ [EvRecv s None; EvCancel]) as Htrace.
  { rewrite Hstep. cbn. by rewrite <- app_assoc. }
  assert (Actions.ref st2 =
          match s with Registry => refCopy st1 | P2P => Actions.ref st1 end)
    as Href.
  { rewrite Hstep. by destruct s. }
  assert (p2p st2 =
          match s with Registry => p2p st1 | P2P => Some Done end) as Hp2p.
  { rewrite Hstep. by destruct s. }
  assert (success st2 = true ∧ cancelled st2 = true) as [Hs2 Hc2].
  { by rewrite Hstep. }
  destruct (after_success sched2 st2 Hs2 Hc2) as (_ & Hc & post & Hpost & Hev).
  destruct (ref_after_success sched2 st2 Hs2 Hc2) as [Hrun Hstay].
  assert (exec w node rc remoteAddr (sched1 ++ Recv s :: sched2) st0
          = exec w node rc remoteAddr sched2 st2) as Hexec.
  { by rewrite exec_app. }
  pose proof (AddDataset_coordinated ctx ref r (sched1 ++ Recv s :: sched2)
                t1 ref1 Hres (success_tasks ctx ref1 _ Hsucc)) as Hadd.
  cbn zeta in Hadd. fold st0 in Hadd. rewrite Hsucc in Hadd.
  rewrite Hexec in Hadd, Hsucc |- *.
  specialize (Hadd ltac:(unfold finished; by rewrite Hsucc)).
  eexists sched1, s, sched2, post, _.
  split; [done|]. cbn zeta. fold st1. fold st2.
  split_and!.
  - done.
  - done.
  - done.
  - done.
  - done.
  - done.
  - done.
  - done.
  - exact Hadd.
  - reflexivity.
  - reflexivity.
  - reflexivity.
  - reflexivity.
  - intros Hcase. apply Hstay. rewrite Hp2p.
    destruct Hcase as [->|[Hcase|Hcase]]; [by left|destruct s|by right].
    + by left.
    + by left.
  - intros -> Hrunning Hin. apply Hrun; [by rewrite Hp2p|done].
  - exists ([EvLog DebugLevel "add dataset %s. remoteAddr: %s"
               [ARefString ref; AStr remoteAddr]] ++ t1),
           ((storeRef w ctx r
               (Actions.ref (exec w node rc remoteAddr sched2 st2))).1.1.1
            ++ [EvCancel]).
    cbv beta iota delta [out_trace].
    by rewrite Hpost, <- !app_assoc.
Qed.

(** C4, as the code has it: when every started goroutine has reported an
    error, [AddDataset] fails with "add failed: " followed by the message of
    the last response, whatever the earlier responses were; when one reported
    success, the returned error is that of storing the reference and no
    goroutine's error reaches the caller.  Every interleaving can be
    continued to one in which [AddDataset] returns. *)
Theorem add_failed_last_error (ctx : Context) (ref : DatasetRef) (r : R)
    (t1 : list event) (ref1 : DatasetRef) :
  resolveRef w rc remoteAddr ctx ref = (t1, ref1, None) →
  tasks (launch node rc remoteAddr ctx ref1) ≠ 0 →
  (∀ sched,
     is_Some (AddDataset w node rc remoteAddr ctx ref r
                (sched ++ fairSchedule)))
  ∧ ∀ sched,
      let st :=
        exec w node rc remoteAddr sched
          (launch node rc remoteAddr ctx ref1) in
      finished st = true →
      ∃ out,
        AddDataset w node rc remoteAddr ctx ref r sched = Some out
        ∧ if success st
          then out_err out = (storeRef w ctx r (Actions.ref st)).2
          else (∀ s, taskOf s st ≠ None →
                     ∃ e, EvRecv s (Some e) ∈ trace st)
               ∧ ∃ s e, lastRecv (trace st) = Some (s, Some e)
                        ∧ out_err out
                          = Some (Errorf ("add failed: " +:+ Error e))
                        ∧ out_repo out = r.
Proof.
  intros Hres Htasks0.
  assert (∀ sched,
            tasks (exec w node rc remoteAddr sched
                     (launch node rc remoteAddr ctx ref1)) ≠ 0) as Htasks.
  { intros sched. by rewrite exec_tasks. }
  split.
  { intros sched.
    rewrite (AddDataset_coordinated ctx ref r _ t1 ref1 Hres (Htasks _)
               (fairSchedule_finishes ctx ref1 sched)).
    done. }
  intros sched st Hfin.
  rewrite (AddDataset_coordinated ctx ref r sched t1 ref1 Hres (Htasks _)
             Hfin).
  fold st.
  pose proof (coordInv_exec ctx sched _ (coordInv_launch ctx ref1)) as Hinv.
  fold st in Hinv. unfold coordInv in Hinv.
  destruct (success st) eqn:Hs; (eexists; split; [done|]); cbn; [done|].
  destruct Hinv as (_ & Hcnt & _ & Hrecv & Hlast).
  unfold finished in Hfin. rewrite Hs in Hfin. cbn in Hfin.
  apply bool_decide_eq_true in Hfin.
  split.
  - intros s Hs'. apply Hrecv.
    rewrite Hcnt in Hfin. unfold doneCount, tasks in Hfin.
    destruct s; cbn in *;
      destruct (registry st) as [[]|], (p2p st) as [[]|]; cbn in *;
      try done; lia.
  - destruct (lastRecv (trace st)) as [[s [e|]]|].
    + destruct Hlast as [_ Herr]. exists s, e. by rewrite Herr.
    + by destruct Hlast.
    + destruct Hlast as [Hi _]. pose proof (Htasks sched). fold st in H.
      congruence.
Qed.

(** C5, as the code has it: with no source ([rc] nil or no remote address,
    and the node not online) [AddDataset] starts no goroutine, fetches
    nothing and leaves the repo alone, in any interleaving.  It fails with
    the configuration error when the reference is complete or
    [ResolveDatasetRef] completes it, and with the error of
    [ResolveDatasetRef] when that step fails. *)
Theorem no_sources_no_fetch (ctx : Context) (ref : DatasetRef) (r : R)
    (sched : list action) :
  rc = None ∨ remoteAddr = "" →
  Online node = false →
  ∃ out,
    AddDataset w node rc remoteAddr ctx ref r sched = Some out
    ∧ Forall noFetch (out_trace out)
    ∧ out_repo out = r
    ∧ out_err out
      = Some match (resolveRef w rc remoteAddr ctx ref).2 with
             | Some e => e
             | None => Errorf "no registry configured and node is not online"
             end
    ∧ (Complete w ref = true →
       out_ref out = ref
       ∧ out_err out
         = Some (Errorf "no registry configured and node is not online")).
Proof.
  intros Hrc Hoff. unfold AddDataset.
  assert (tasks (launch node rc remoteAddr ctx
                   (resolveRef w rc remoteAddr ctx ref).1.2) = 0) as Htasks.
  { unfold tasks, launch. cbn. rewrite Hoff.
    destruct Hrc as [->| ->]; [done|]. by destruct rc. }
  unfold resolveRef in *.
  destruct (Complete w ref) eqn:Hcomplete; cbn in *.
  - rewrite bool_decide_true by done. eexists. split; [done|]. cbn.
    split_and!; try done. by repeat constructor.
  - destruct (ResolveDatasetRef w ctx rc remoteAddr ref) as [ref1 [e|]];
      cbn in *.
    + eexists. split; [done|]. cbn. split_and!; try done.
      by repeat constructor.
    + rewrite bool_decide_true by done. eexists. split; [done|]. cbn.
      split_and!; try done. by repeat constructor.
Qed.

(** C6: once a goroutine has fetched the content, the fetched reference is
    stored.  When the repo has no reference of that peername and name
    ([GetRef] answers [ErrNotFound]) the fetched reference goes to [PutRef]
    as it is; when it has one, the stored and the fetched version are both
    loaded and compared, and the fetched one replaces the stored one exactly
    when it is the more recent. *)
Theorem fetched_ref_stored (ctx : Context) (ref : DatasetRef) (r : R)
    (sched : list action) (t1 : list event) (ref1 : DatasetRef) :
  resolveRef w rc remoteAddr ctx ref = (t1, ref1, None) →
  let st :=
    exec w node rc remoteAddr sched (launch node rc remoteAddr ctx ref1) in
  success st = true →
  let fetched := Actions.ref st in
  ∃ out,
    AddDataset w node rc remoteAddr ctx ref r sched = Some out
    ∧ match GetRef w r (refKey fetched) with
      | Err e =>
          if bool_decide (eid e = NotFound) then
            out_ref out = fetched
            ∧ out_repo out = (PutRef w r fetched).1
            ∧ (out_err out = None ↔ (PutRef w r fetched).2 = None)
          else out_repo out = r ∧ out_err out = Some e
      | Ok existing =>
          match LoadDataset w ctx (Path existing),
                LoadDataset w ctx (Path fetched) with
          | Ok old, Ok new =>
              let existing := setDataset existing (Some old) in
              let fetched := setDataset fetched (Some new) in
              out_ref out = fetched
              ∧ if moreRecent w fetched existing
                then out_repo out = (PutRef w r fetched).1
                     ∧ out_err out = (PutRef w r fetched).2
                else out_repo out = r ∧ out_err out = None
          | _, _ => out_repo out = r ∧ out_err out ≠ None
          end
      end.
Proof.
  intros Hres st Hsucc fetched.
  assert (tasks st ≠ 0) as Htasks by (by apply success_tasks).
  assert (finished st = true) as Hfin.
  { unfold finished. by rewrite Hsucc. }
  rewrite (AddDataset_coordinated ctx ref r sched t1 ref1 Hres Htasks Hfin).
  fold st. rewrite Hsucc. fold fetched.
  eexists. split; [done|]. cbn.
  unfold storeRef. fold (refKey fetched).
  destruct (GetRef w r (refKey fetched)) as [existing|e].
  - destruct (LoadDataset w ctx (Path existing)) as [old|]; cbn; [|done].
    destruct (LoadDataset w ctx (Path fetched)) as [new|]; cbn; [|done].
    unfold ReplaceRefIfMoreRecent.
    destruct (moreRecent w _ _); cbn; [|done].
    by destruct (PutRef w r _) as [r' e].
  - case_bool_decide; cbn; [|done].
    destruct (PutRef w r fetched) as [r' [e'|]]; cbn; split_and!; done.
Qed.

End Coordinator.

(** The race of the specification: the peer network answers first and with
    success, the registry pull is still running.  The coordinator adopts the
    peer network's reference and cancels; the registry pull then runs under
    the cancelled context. *)
Lemma first_success_wins_demo :
  success
    (exec (Demo.actions None None) Demo.online (Some Demo.alice)
       "http://registry.example" [Run P2P; Recv P2P; Run Registry]
       (launch Demo.online (Some Demo.alice) "http://registry.example" false
          Demo.pop)) = true
  ∧ cancelled
      (exec (Demo.actions None None) Demo.online (Some Demo.alice)
         "http://registry.example" [Run P2P; Recv P2P; Run Registry]
         (launch Demo.online (Some Demo.alice) "http://registry.example"
            false Demo.pop)) = true
  ∧ trace
      (exec (Demo.actions None None) Demo.online (Some Demo.alice)
         "http://registry.example" [Run P2P; Recv P2P; Run Registry]
         (launch Demo.online (Some Demo.alice) "http://registry.example"
            false Demo.pop))
    = [EvFetchDataset false Demo.pop;
       EvRecv P2P None;
       EvCancel;
       EvLog DebugLevel "pulling dataset: %s from %s"
         [ARefString Demo.pop; AStr "http://registry.example"];
       EvDsyncPull true "/ipfs/QmPopV1"
         "http://registry.example/remote/dsync" Demo.popParams].
Proof.
  split; [reflexivity|]. split; [|vm_compute; reflexivity].
  destruct (first_success_wins (Demo.actions None None) Demo.online
              (Some Demo.alice) "http://registry.example" false Demo.pop []
              [Run P2P; Recv P2P; Run Registry] [] Demo.pop eq_refl eq_refl)
    as (sched1 & s & sched2 & post & out & _
        & _ & _ & _ & _ & _ & _ & _ & Hc & _).
  exact Hc.
Defined.


(** The claim C4 as stated fails: when the registry pull fails with
    "registry unreachable" and the peer network fetch with "no peers", in
    that order, [AddDataset] returns "add failed: no peers"; the error of the
    registry is not in it. *)
Lemma add_failed_drops_earlier_error :
  (λ out, out_trace out !! 4)
    <$> AddDataset (Demo.actions (Some (Errorf "no peers")) None) Demo.online
          (Some Demo.alice) "http://registry.example" false Demo.pop []
          fairSchedule
  = Some (Some (EvRecv Registry (Some (Errorf "registry unreachable"))))
  ∧ (λ out, out_trace out !! 5)
      <$> AddDataset (Demo.actions (Some (Errorf "no peers")) None)
            Demo.online (Some Demo.alice) "http://registry.example" false
            Demo.pop [] fairSchedule
    = Some (Some (EvRecv P2P (Some (Errorf "no peers"))))
  ∧ out_err
      <$> AddDataset (Demo.actions (Some (Errorf "no peers")) None)
            Demo.online (Some Demo.alice) "http://registry.example" false
            Demo.pop [] fairSchedule
    = Some (Some (Errorf "add failed: no peers"))
  ∧ String.index 0 "registry unreachable" "add failed: no peers" = None.
Proof. split_and!; vm_compute; reflexivity. Qed.

(** On the same run the amended statement gives the error of the last
    response. *)
Lemma add_failed_last_error_demo :
  out_err
    <$> AddDataset (Demo.actions (Some (Errorf "no peers")) None)
          Demo.online (Some Demo.alice) "http://registry.example" false
          Demo.pop [] fairSchedule
  = Some (Some (Errorf "add failed: no peers")).
Proof.
  destruct (add_failed_last_error (Demo.actions (Some (Errorf "no peers")) None)
              Demo.online (Some Demo.alice) "http://registry.example" false
              Demo.pop [] [] Demo.pop eq_refl)
    as [_ Hall].
  { vm_compute. discriminate. }
  destruct (Hall fairSchedule) as (out & Hout & H).
  { vm_compute. reflexivity. }
  rewrite Hout. cbn [fmap option_fmap option_map]. f_equal.
  replace (success _) with false in H by (vm_compute; reflexivity).
  destruct H as (_ & s & e & Hlast & Herr & _).
  vm_compute in Hlast. injection Hlast as _ <-. exact Herr.
Defined.

(** The claim C5 as stated fails: with no source and a reference that lacks
    its path, the resolution of the reference runs first, and when it fails
    [AddDataset] returns its error, not the configuration error. *)
Lemma resolve_error_before_configuration_error :
  tasks (launch Demo.offline None "" false Demo.popNoPath) = 0
  ∧ out_err
      <$> AddDataset
            (Demo.actions None (Some (Errorf "error reading references")))
            Demo.offline None "" false Demo.popNoPath [] []
    = Some (Some (Errorf "error reading references"))
  ∧ Errorf "error reading references"
    ≠ Errorf "no registry configured and node is not online".
Proof. split_and!; [reflexivity|reflexivity|discriminate]. Qed.

(** With a complete reference the configuration error is returned. *)
Lemma no_sources_no_fetch_demo :
  out_err
    <$> AddDataset (Demo.actions None None) Demo.offline None "" false
          Demo.pop [] [Run P2P; Recv P2P]
  = Some (Some (Errorf "no registry configured and node is not online")).
Proof.
  destruct (no_sources_no_fetch (Demo.actions None None) Demo.offline None ""
              false Demo.pop [] [Run P2P; Recv P2P] (or_introl eq_refl)
              eq_refl)
    as (out & Hout & _ & _ & _ & Hc).
  rewrite Hout. cbn [fmap option_fmap option_map].
  destruct (Hc eq_refl) as [_ ->]. reflexivity.
Defined.

(** A new name is stored as fetched; a newer version replaces the stored
    one; an older version leaves the stored one in place. *)
Lemma fetched_ref_stored_demo :
  option_map out_repo
    (AddDataset (Demo.actions None None) Demo.online None "" false
       Demo.pop [] [Run P2P; Recv P2P])
  = Some [Demo.pop]
  ∧ option_map (λ out, List.map Path (out_repo out))
      (AddDataset (Demo.actions None None) Demo.online None "" false
         Demo.pop [Demo.popOld] [Run P2P; Recv P2P])
    = Some ["/ipfs/QmPopV1"]
  ∧ option_map out_repo
      (AddDataset (Demo.actions None None) Demo.online None "" false
         Demo.popOld [Demo.pop] [Run P2P; Recv P2P])
    = Some [Demo.pop].
Proof.
  split_and!.
  - destruct (fetched_ref_stored (Demo.actions None None) Demo.online None ""
                false Demo.pop [] [Run P2P; Recv P2P] [] Demo.pop eq_refl
                eq_refl) as (out & Hout & H).
    rewrite Hout. destruct out as [tr rf rp cn er].
    cbn [option_map out_repo]. f_equal.
    vm_compute in H. by destruct H as (_ & -> & _).
  - destruct (fetched_ref_stored (Demo.actions None None) Demo.online None ""
                false Demo.pop [Demo.popOld] [Run P2P; Recv P2P] [] Demo.pop
                eq_refl eq_refl) as (out & Hout & H).
    rewrite Hout. destruct out as [tr rf rp cn er].
    cbn [option_map out_repo]. f_equal.
    vm_compute in H. by destruct H as (_ & -> & _).
  - destruct (fetched_ref_stored (Demo.actions None None) Demo.online None ""
                false Demo.popOld [Demo.pop] [Run P2P; Recv P2P] []
                Demo.popOld eq_refl eq_refl) as (out & Hout & H).
    rewrite Hout. destruct out as [tr rf rp cn er].
    cbn [option_map out_repo]. f_equal.
    vm_compute in H. by destruct H as (_ & -> & _).
Defined.

End ActionsFacts.

(** ** Package lib *)
Module LibFacts.
Import Repo Trace Lib Spec.

Section Requests.
Variable w : World.

Lemma bind_run {Σ A B} (m : MS Σ A) (f : A → MS Σ B) (σ : Σ) :
  (m ≫= f) σ =
  match (m σ).2 with
  | Ok a =>
      ((m σ).1.1 ++ (f a (m σ).1.2).1.1, (f a (m σ).1.2).1.2,
       (f a (m σ).1.2).2)
  | Err e => ((m σ).1.1, (m σ).1.2, Err e)
  end.
Proof.
  unfold mbind, MS_bind. destruct (m σ) as [[t σ'] [a|e]]; cbn; [|done].
  by destruct (f a σ') as [[t' σ''] r].
Qed.

Lemma quiet_nil {Σ A} (m : MS Σ A) : (∀ σ, (m σ).1.1 = []) → quiet w m.
Proof. intros H σ e He. rewrite H in He. by apply elem_of_nil in He. Qed.

Lemma quiet_emit {Σ} (e : event) :
  ¬ noLogbookAt w e → quiet w (emitS (Σ := Σ) e).
Proof. intros H σ e' He'. cbn in He'. by apply list_elem_of_singleton in He' as ->. Qed.

Lemma quiet_bind {Σ A B} (m : MS Σ A) (f : A → MS Σ B) :
  quiet w m → (∀ a, quiet w (f a)) → quiet w (m ≫= f).
Proof.
  intros Hm Hf σ e. rewrite bind_run.
  destruct (m σ) as [[t σ'] [a|err]] eqn:Hrun; cbn.
  - intros [He|He]%elem_of_app.
    + apply (Hm σ). by rewrite Hrun.
    + by apply (Hf a σ').
  - intros He. apply (Hm σ). by rewrite Hrun.
Qed.

Lemma tolerates_quiet {Σ A} (m : MS Σ A) (σ : Σ) :
  quiet w m → tolerates w (m σ).
Proof. intros H (e & He & Hno). by destruct (H σ e He). Qed.

Lemma tolerates_bind {Σ A B} (m : MS Σ A) (f : A → MS Σ B) (σ : Σ) :
  quiet w m → (∀ a σ', tolerates w (f a σ')) → tolerates w ((m ≫= f) σ).
Proof.
  intros Hm Hf. unfold tolerates. rewrite bind_run.
  destruct (m σ) as [[t σ'] [a|err]] eqn:Hrun; cbn.
  - intros (e & [He|He]%elem_of_app & Hno).
    + destruct (Hm σ e); [by rewrite Hrun|done].
    + apply (Hf a σ'). eauto.
  - intros (e & He & Hno). destruct (Hm σ e); [by rewrite Hrun|done].
Qed.

Lemma call_not_noLogbook (fn : string) (args : list logArg) :
  fn ≠ "Logbook.WriteVersionDelete" → ¬ noLogbookAt w (EvCall fn args).
Proof. intros Hfn (ref & n & err & [= -> _] & _). done. Qed.

Lemma quiet_removeEntireDataset (p : RemoveParams) (ref : DatasetRef) :
  quiet w (removeEntireDataset w p ref).
Proof.
  unfold removeEntireDataset.
  apply quiet_bind.
  - destruct (_ && _); [|by apply quiet_nil].
    apply quiet_bind; [by apply quiet_emit, call_not_noLogbook|].
    intros _. apply quiet_bind; [apply quiet_nil|intros _; by apply quiet_nil].
    intros σ. unfold liftErrS. by destruct (fsi_Unlink w _ _).
  - intros _. apply quiet_bind; [by apply quiet_emit, call_not_noLogbook|].
    intros _. apply quiet_bind; [apply quiet_nil|intros _; by apply quiet_nil].
    intros σ. unfold liftErrS. by destruct (DeleteDataset w ref).2.
Qed.

Lemma tolerates_removeRevisions (p : RemoveParams) (ref : DatasetRef)
    (res : RemoveResponse) :
  tolerates w (removeRevisions w p ref res).
Proof.
  unfold removeRevisions.
  apply tolerates_bind; [by apply quiet_nil|].
  intros log res1. case_bool_decide.
  { apply tolerates_quiet, quiet_removeEntireDataset. }
  destruct (log !! Z.to_nat (Gen (Revision p))) as [dsr|].
  2:{ apply tolerates_quiet. by apply quiet_nil. }
  apply tolerates_bind; [by apply quiet_emit, call_not_noLogbook|].
  intros _ res2.
  apply tolerates_bind.
  { apply quiet_nil. intros σ. unfold liftErrS.
    by destruct (ModifyDatasetRef w ref _ false).2. }
  intros _ res3.
  apply tolerates_bind; [by apply quiet_nil|].
  intros _ res4.
  set (ref' := (ModifyDatasetRef w ref _ false).1).
  intros (e & He & (vref & n & err & -> & Hcall & Hno)).
  rewrite bind_run in *. cbn in *.
  assert (∀ x, (liftErrS (Σ := RemoveResponse) x res4).1.1 = []) as Hnil.
  { by intros [|]. }
  rewrite Hnil in He.
  apply list_elem_of_singleton in He. injection He as <- <-.
  unfold returnedS, liftErrS. rewrite Hcall. cbn.
  by rewrite bool_decide_true.
Qed.

(** [Remove] returns no error whenever recording the version delete met a
    missing logbook. *)
Lemma Remove_tolerates (r : DatasetRequests) (p : RemoveParams)
    (res : RemoveResponse) :
  tolerates w (Remove w r p res).
Proof.
  unfold Remove. destruct (cli r).
  { intros (e & He & (vref & n & err & -> & _)). cbn in He.
    by apply list_elem_of_singleton in He. }
  case_bool_decide; [by apply tolerates_quiet, quiet_nil|].
  apply tolerates_bind; [by apply quiet_nil|].
  intros ref res1.
  apply tolerates_bind.
  { destruct (CanonicalizeDatasetRef w ref).2; [|by apply quiet_nil].
    case_bool_decide; by apply quiet_nil. }
  intros noHistory res2.
  apply tolerates_bind; [by apply quiet_nil|].
  intros _ res3.
  destruct (_ && Unlink p); [by apply tolerates_quiet, quiet_nil|].
  destruct (_ && DeleteFSIFiles p); [by apply tolerates_quiet, quiet_nil|].
  apply tolerates_bind.
  { case_bool_decide; [|by apply quiet_nil].
    apply quiet_bind.
    - destruct (DeleteFSIFiles p); [|by apply quiet_nil].
      apply quiet_bind; [by apply quiet_emit, call_not_noLogbook|].
      intros _. apply quiet_bind; [apply quiet_nil|intros _; by apply quiet_nil].
      intros σ. unfold liftErrS. by destruct (fsi_DeleteDatasetFiles w _).
    - intros _. destruct (_ || _); [|by apply quiet_nil].
      apply quiet_bind; [by apply quiet_emit, call_not_noLogbook|].
      intros _. apply quiet_bind; [apply quiet_nil|intros _; by apply quiet_nil].
      intros σ. unfold liftErrS. by destruct (fsi_Unlink w _ _). }
  intros _ res4.
  destruct noHistory; [by apply tolerates_quiet, quiet_nil|].
  case_bool_decide.
  { apply tolerates_quiet, quiet_removeEntireDataset. }
  case_bool_decide; [by apply tolerates_quiet, quiet_nil|].
  apply tolerates_removeRevisions.
Qed.

End Requests.

(** C8: every operation of the sync client, called on a nil client, returns
    [ErrNoRemoteClient], emits nothing and leaves the reference it was handed
    as it was; and [Remove] treats a missing logbook as success: whenever
    its call to [WriteVersionDelete] answers [ErrNoLogbook], [Remove] returns
    nil. *)
Theorem no_client_no_logbook (w : World) (rw : Remote.World) (ctx : Context)
    (ref : DatasetRef) (logRef : Repo.Ref) (remoteAddr : string)
    (r : DatasetRequests) (p : RemoveParams) (res : RemoveResponse) :
  (Remote.PullLogs rw None ctx logRef remoteAddr
   = ([], Err Remote.ErrNoRemoteClient)
   ∧ Remote.PushLogs rw None ctx logRef remoteAddr
     = ([], Err Remote.ErrNoRemoteClient)
   ∧ Remote.RemoveLogs rw None ctx logRef remoteAddr
     = ([], Err Remote.ErrNoRemoteClient)
   ∧ Remote.PushDataset rw None ctx ref remoteAddr
     = ([], Err Remote.ErrNoRemoteClient)
   ∧ Remote.PullDataset rw None ctx ref remoteAddr
     = ([], ref, Some Remote.ErrNoRemoteClient)
   ∧ Remote.RemoveDataset rw None ctx ref remoteAddr
     = ([], Err Remote.ErrNoRemoteClient)
   ∧ Remote.ResolveHeadRef rw None ctx ref remoteAddr
     = ([], ref, Some Remote.ErrNoRemoteClient))
  ∧ (∀ vref n err,
       EvCall "Logbook.WriteVersionDelete" [AAlias vref; AInt n]
       ∈ (Remove w r p res).1.1 →
       WriteVersionDelete w vref n = Some err →
       eid err = NoLogbook →
       returnedS (Remove w r p res) = None).
Proof.
  split; [apply RemoteFacts.nil_client|].
  intros vref n err He Hcall Hno.
  apply (Remove_tolerates w r p res).
  exists (EvCall "Logbook.WriteVersionDelete" [AAlias vref; AInt n]).
  split; [done|]. by exists vref, n, err.
Qed.

(** On a node without logbook, removing one revision of "alice/pop"
    succeeds and reports one deleted revision. *)
Lemma no_client_no_logbook_demo :
  Remote.PullLogs Demo.world None false Demo.popLog "http://registry.example"
  = ([], Err Remote.ErrNoRemoteClient)
  ∧ WriteVersionDelete Demo.lib
      {| Username := "alice"; RName := "pop"; RProfileID := "QmAliceProfile";
         RPath := "/ipfs/QmPop" |} 1
    = Some (MkErr NoLogbook "logbook: does not exist")
  ∧ returnedS (Remove Demo.lib Demo.requests Demo.removeOne Demo.noResponse)
    = None
  ∧ NumDeleted
      (Remove Demo.lib Demo.requests Demo.removeOne Demo.noResponse).1.2 = 1%Z.
Proof.
  destruct (no_client_no_logbook Demo.lib Demo.world false Demo.pop
              Demo.popLog "http://registry.example" Demo.requests
              Demo.removeOne Demo.noResponse) as [(Hnil & _) Hremove].
  split_and!; [exact Hnil|reflexivity| |reflexivity].
  apply (Hremove
           {| Username := "alice"; RName := "pop";
              RProfileID := "QmAliceProfile"; RPath := "/ipfs/QmPop" |} 1%Z
           (MkErr NoLogbook "logbook: does not exist")); [|reflexivity..].
  apply (list_elem_of_lookup_2 _ 1). reflexivity.
Defined.

(** C9: [Add] pulls the logs before it fetches the dataset, and only on a
    best-effort basis.  Once the reference parses, [Add] runs [PullLogs],
    writes an error line when that failed, and then calls [AddDataset] with
    the same reference and address either way; what [Add] returns and what
    it leaves in [p] and [res] does not depend on the remote behind
    [PullLogs] at all. *)
Theorem pull_logs_best_effort (w : World) (r : DatasetRequests)
    (p : AddParams) (res ref : DatasetRef) :
  cli r = false →
  ParseDatasetRef w (aRef p) = Ok ref →
  let addr := effectiveAddr r p in
  let pull :=
    Remote.PullLogs (remote w) (RemoteClient (inst r)) false
      (ConvertToDsref w ref) addr in
  (∃ rest,
     (Add w r (p, res)).1.1 =
     pull.1 ++ pullLogsLine pull
     ++ EvCall "RemoteClient.AddDataset" [ARefString ref; AStr addr] :: rest)
  ∧ ∀ rw,
      (Add (withRemote w rw) r (p, res)).1.2 = (Add w r (p, res)).1.2
      ∧ (Add (withRemote w rw) r (p, res)).2 = (Add w r (p, res)).2.
Proof.
  intros Hcli Hparse addr pull.
  assert (∀ w', ParseDatasetRef w' = ParseDatasetRef w →
                ConvertToDsref w' = ConvertToDsref w →
                Client_AddDataset w' = Client_AddDataset w →
                Checkout w' = Checkout w →
                RefString w' = RefString w →
          let pull' :=
            Remote.PullLogs (remote w') (RemoteClient (inst r)) false
              (ConvertToDsref w ref) addr in
          let added :=
            Client_AddDataset w (RemoteClient (inst r)) ref addr in
          Add w' r (p, res) =
          (pull'.1 ++ pullLogsLine pull'
           ++ EvCall "RemoteClient.AddDataset" [ARefString ref; AStr addr]
              :: match added.2 with
                 | Some _ => []
                 | None =>
                     if bool_decide (LinkDir p ≠ "") then
                       [EvCall "FSIMethods.Checkout"
                          [AStr (RefString w added.1); AStr (LinkDir p)]]
                     else []
                 end,
           (setRemoteAddr addr p,
            match added.2 with Some _ => res | None => added.1 end),
           match added.2 with
           | Some e => Err e
           | None =>
               if bool_decide (LinkDir p ≠ "") then
                 match Checkout w (RefString w added.1) (LinkDir p) with
                 | Some e => Err e
                 | None => Ok tt
                 end
               else Ok tt
           end)) as Hrun.
  { intros w' Hp Hc Ha Hk Hs pull' added.
    subst pull' added addr. unfold Add, effectiveAddr, pullLogsLine.
    rewrite Hcli, Hp, Hc, Ha, Hk, Hs.
    unfold mbind, MS_bind, get, liftS, liftM, emitS, liftErrS, modify, mret,
      MS_ret.
    destruct p as [pref dir paddr]. cbn in *. rewrite Hparse. cbn.
    destruct (cfg_Registry (inst r)) as [location|];
      [case_bool_decide|]; cbn;
      match goal with
      | |- context [Remote.PullLogs ?a ?b ?c ?d ?e] =>
          destruct (Remote.PullLogs a b c d e) as [t [[]|e0]]
      end; cbn;
      match goal with
      | |- context [Client_AddDataset ?a ?b ?c ?d] =>
          destruct (Client_AddDataset a b c d) as [ref' [e1|]]
      end; cbn; rewrite ?app_nil_r; try done;
      case_bool_decide; cbn; rewrite ?app_nil_r, <- ?app_assoc; try done;
      by destruct (Checkout w (RefString w ref') dir). }
  split.
  - rewrite (Hrun w) by done. cbn. eauto.
  - intros rw. rewrite (Hrun w), (Hrun (withRemote w rw)) by done. done.
Qed.

(** On the demo node the registry cannot be reached: the log pull fails,
    the failure is logged, and the dataset is added all the same. *)
Lemma pull_logs_best_effort_demo :
  returned
    (Remote.PullLogs Demo.unreachable (Some Demo.alice) false Demo.popLog
       "http://registry.example")
  = Some (Errorf "registry unreachable")
  ∧ (Add Demo.lib Demo.requests (Demo.addPop, zeroRef)).1.1 !! 2
    = Some (EvLog ErrorLevel "pulling logs: %s"
              [AErr (Errorf "registry unreachable")])
  ∧ (Add Demo.lib Demo.requests (Demo.addPop, zeroRef)).1.1 !! 3
    = Some (EvCall "RemoteClient.AddDataset"
              [ARefString Demo.pop; AStr "http://registry.example"])
  ∧ (Add Demo.lib Demo.requests (Demo.addPop, zeroRef)).2 = Ok tt
  ∧ (Add (withRemote Demo.lib Demo.world) Demo.requests
       (Demo.addPop, zeroRef)).2
    = (Add Demo.lib Demo.requests (Demo.addPop, zeroRef)).2.
Proof.
  destruct (pull_logs_best_effort Demo.lib Demo.requests Demo.addPop zeroRef
              Demo.pop eq_refl eq_refl) as [[rest Htrace] Hsame].
  split_and!; [reflexivity| | |reflexivity|apply Hsame].
  - rewrite Htrace. reflexivity.
  - rewrite Htrace. reflexivity.
Defined.

End LibFacts.

(** ** Package core *)
Module CoreFacts.
Import Core Spec.

(** Blanking forgets the private keys. *)
Lemma blank_withKeys (cfg : Config_) (profileKey p2pKey : string) :
  blankProfile <$> Profile (withKeys cfg profileKey p2pKey)
  = blankProfile <$> Profile cfg
  ∧ blankP2P <$> P2P (withKeys cfg profileKey p2pKey) = blankP2P <$> P2P cfg.
Proof. unfold withKeys. cbn. by destruct (Profile cfg), (P2P cfg). Qed.

(** C10: [GetConfig] without [WithPrivateKey] never shows a private key.
    What it hands to the encoder is the configuration, or a field of the
    configuration, after the private keys of the profile and of the P2P
    section have been blanked, and the bytes returned are the encoder's
    output for that; so two configurations that differ only in their private
    keys give the same bytes and the same error. *)
Theorem private_keys_blanked (w : World) (cfg : Config_)
    (format field : string) (concise : bool) (data0 : list byte)
    (profileKey p2pKey : string) :
  let params :=
    {| WithPrivateKey := false; Format := format; Concise := concise;
       Field := field |} in
  (∃ out,
     GetConfig w (Some cfg) params data0 = Some out
     ∧ keysBlank (global out)
     ∧ (returned out = None →
        match encoderOf w params with
        | Some encoder =>
            ∃ enc, encodes w (global out) field enc
                   ∧ encoder enc = Ok (data out)
        | None => data out = data0
        end))
  ∧ (λ out, (data out, returned out))
      <$> GetConfig w (Some (withKeys cfg profileKey p2pKey)) params data0
    = (λ out, (data out, returned out))
        <$> GetConfig w (Some cfg) params data0.
Proof.
  intros params. split.
  - unfold GetConfig, encoderOf, encodes. cbn.
    set (blank := {| Profile := blankProfile <$> Profile cfg;
                     P2P := blankP2P <$> P2P cfg; Others := Others cfg |}).
    assert (keysBlank blank) as Hblank.
    { split; cbn; intros p; [destruct (Profile cfg)|destruct (P2P cfg)];
        cbn; by intros [= <-]. }
    case_bool_decide as Hfield.
    + destruct (Get w blank field) as [v|e] eqn:Hget.
      2:{ eexists. split; [done|]. by split. }
      case_bool_decide; [destruct concise|case_bool_decide]; cbn;
        match goal with
        | |- context [assign ?x] => destruct x as [bs|e] eqn:Henc
        | _ => idtac
        end; cbn; (eexists; split; [done|]); cbn;
        (split; [done|]); intros Hret; try done; eauto.
    + case_bool_decide; [destruct concise|case_bool_decide]; cbn;
        match goal with
        | |- context [assign ?x] => destruct x as [bs|e] eqn:Henc
        | _ => idtac
        end; cbn; (eexists; split; [done|]); cbn;
        (split; [done|]); intros Hret; try done; eauto.
  - unfold GetConfig. cbn [negb WithPrivateKey params].
    destruct (blank_withKeys cfg profileKey p2pKey) as [-> ->].
    done.
Qed.

(** The demo encoder prints the keys it is shown: asked without
    [WithPrivateKey] it has none to print, whatever the keys are; asked with
    it, it prints them. *)
Lemma private_keys_blanked_demo :
  data
    <$> GetConfig Demo.core (Some Demo.config)
          {| WithPrivateKey := false; Format := "json"; Concise := true;
             Field := "" |} []
  = Some (String.list_byte_of_string "profile.privkey=;p2p.privkey=")
  ∧ data
      <$> GetConfig Demo.core (Some (withKeys Demo.config "k1" "k2"))
            {| WithPrivateKey := false; Format := "json"; Concise := true;
               Field := "" |} []
    = Some (String.list_byte_of_string "profile.privkey=;p2p.privkey=")
  ∧ data
      <$> GetConfig Demo.core (Some Demo.config)
            {| WithPrivateKey := true; Format := "json"; Concise := true;
               Field := "" |} []
    = Some (String.list_byte_of_string
              "profile.privkey=alice-secret;p2p.privkey=peer-secret").
Proof.
  destruct (private_keys_blanked Demo.core Demo.config "json" "" true []
              "k1" "k2") as [_ Hsame].
  split_and!; [reflexivity| |reflexivity].
  apply (f_equal (fmap fst)) in Hsame.
  rewrite <- !option_fmap_compose in Hsame. exact Hsame.
Defined.

End CoreFacts.

(** ** Package remote, further properties *)
Module RemoteProps.
Import Repo Trace Remote Spec.

Lemma isB58_app (s t : string) : isB58 (s +:+ t) = isB58 s && isB58 t.
Proof. unfold isB58. by rewrite RemoteFacts.list_ascii_app, forallb_app. Qed.

(** X1: [addressType] answers "p2p" exactly when the address decodes as a
    base58 peer identifier, which takes all its characters from the base58
    alphabet; otherwise "http" exactly when the address starts with "http";
    otherwise the empty string.  An address that starts with "http://" or
    "https://" is "http" whatever the peer library makes of it. *)
Theorem addressType_classification (w : World) (remoteAddr : string) :
  (addressType w remoteAddr = "p2p"
   ↔ ∃ id, IDB58Decode w remoteAddr = Ok id)
  ∧ (addressType w remoteAddr = "p2p" → isB58 remoteAddr = true)
  ∧ (addressType w remoteAddr = "http"
     ↔ (∃ e, IDB58Decode w remoteAddr = Err e)
       ∧ String.prefix "http" remoteAddr = true)
  ∧ (∀ rest, addressType w ("http://" +:+ rest) = "http"
             ∧ addressType w ("https://" +:+ rest) = "http")
  ∧ (addressType w remoteAddr = "p2p" ∨ addressType w remoteAddr = "http"
     ∨ addressType w remoteAddr = "").
Proof.
  assert (∀ scheme rest,
            isB58 scheme = false → String.prefix "http" scheme = true →
            addressType w (scheme +:+ rest) = "http") as Hurl.
  { intros scheme rest Hs Hp. unfold addressType, IDB58Decode.
    rewrite isB58_app, Hs. cbn [andb].
    by rewrite (RemoteFacts.prefix_append _ _ _ Hp). }
  unfold addressType, IDB58Decode.
  split_and!.
  - destruct (isB58 remoteAddr); [destruct (peer_Cast w remoteAddr)|];
      try destruct (String.prefix "http" remoteAddr);
      split; try done; eauto; by intros [? ?].
  - destruct (isB58 remoteAddr); [done|].
    by destruct (String.prefix "http" remoteAddr).
  - destruct (isB58 remoteAddr); [destruct (peer_Cast w remoteAddr)|];
      try destruct (String.prefix "http" remoteAddr);
      split; try done; eauto; try by intros [[? ?] ?].
  - intros rest. split; by apply Hurl.
  - destruct (isB58 remoteAddr); [destruct (peer_Cast w remoteAddr)|];
      try destruct (String.prefix "http" remoteAddr); eauto.
Qed.


(** X2: [ResolveHeadRef] changes [*ref] only by decoding the body of a 200
    answer to its GET request: when the reference comes back changed, the
    address was an HTTP address that parsed, the request was sent, the
    answer had status 200, and the result and the error are those of the
    JSON decoder. *)
Theorem ResolveHeadRef_writes_on_200 (w : World) (c : option Client)
    (ctx : Context) (ref : DatasetRef) (remoteAddr : string) :
  (ResolveHeadRef w c ctx ref remoteAddr).1.2 ≠ ref →
  ∃ u0 res,
    addressType w remoteAddr = "http"
    ∧ url_Parse w remoteAddr = Ok u0
    ∧ let u :=
        Url.setRawQuery (Url.setPath u0 "/remote/refs")
          (<["name" := [Name ref]]>
             (<["peername" := [Peername ref]]> (Url.RawQuery u0))) in
      http_Do w ctx "GET" u = Ok res
      ∧ Http.StatusCode res = Http.StatusOK
      ∧ ResolveHeadRef w c ctx ref remoteAddr
        = ([EvHTTP ctx "GET" u], (json_Decode w res ref).1,
           (json_Decode w res ref).2).
Proof.
  unfold ResolveHeadRef, resolveHeadRefHTTP.
  destruct c as [c|]; [|done].
  case_bool_decide as Hhttp; [|done].
  destruct (url_Parse w remoteAddr) as [u0|]; [|done].
  cbn zeta. unfold Url.Values_Set. cbn [Url.RawQuery Url.setPath].
  set (u := Url.setRawQuery _ _).
  destruct (http_NewRequest w "GET" u); [done|].
  destruct (http_Do w ctx "GET" u) as [res|] eqn:Hdo; [|done].
  case_bool_decide as Hstatus; [done|].
  intros _. exists u0, res. split_and!; try done;
    by destruct (decide (Http.StatusCode res = Http.StatusOK)).
Qed.

(** A remote that answers the resolve request with a path: the reference
    comes back with that path. *)
Lemma ResolveHeadRef_writes_on_200_demo :
  (ResolveHeadRef Scenario.resolving (Some Demo.alice) false Demo.popNoPath
     "http://registry.example").1.2 = Demo.pop
  ∧ ∃ u res,
      Remote.http_Do Scenario.resolving false "GET" u = Ok res
      ∧ Http.StatusCode res = 200%Z.
Proof.
  split; [reflexivity|].
  destruct (ResolveHeadRef_writes_on_200 Scenario.resolving
              (Some Demo.alice) false Demo.popNoPath
              "http://registry.example" ltac:(discriminate))
    as (u0 & res & _ & _ & Hdo & Hstatus & _).
  eauto.
Defined.

(** X5: [RemoveDataset] on a configured client returns nil exactly when
    the parameters were signed, the address is an HTTP address that parses,
    the DELETE request to "/remote/refs" with the signed parameters could be
    built and sent, and the answer had status 200. *)
Theorem RemoveDataset_succeeds_iff (w : World) (c : Client) (ctx : Context)
    (ref : DatasetRef) (remoteAddr : string) :
  returned (RemoveDataset w (Some c) ctx ref remoteAddr) = None
  ↔ ∃ params u0 res,
      sigParams w (pk c) ref = Ok params
      ∧ addressType w remoteAddr = "http"
      ∧ url_Parse w remoteAddr = Ok u0
      ∧ let u :=
          Url.setRawQuery (Url.setPath u0 "/remote/refs")
            (setAll params (Url.RawQuery u0)) in
        http_NewRequest w "DELETE" u = None
        ∧ http_Do w ctx "DELETE" u = Ok res
        ∧ Http.StatusCode res = Http.StatusOK.
Proof.
  unfold RemoveDataset, removeDatasetHTTP, returned.
  unfold mbind, M_bind, emit, liftErr, lift, fail. cbn.
  split.
  - destruct (sigParams w (pk c) ref) as [params|]; cbn; [|done].
    case_bool_decide as Hhttp; cbn; [|done].
    destruct (url_Parse w remoteAddr) as [u0|]; cbn; [|done].
    set (u := Url.setRawQuery _ _).
    destruct (http_NewRequest w "DELETE" u) eqn:Hreq; cbn; [done|].
    destruct (http_Do w ctx "DELETE" u) as [res|] eqn:Hdo; cbn; [|done].
    case_bool_decide as Hstatus; cbn.
    { by destruct (Http.ReadErr res). }
    intros _. exists params, u0, res. split_and!; try done;
      by destruct (decide (Http.StatusCode res = Http.StatusOK)).
  - intros (params & u0 & res & -> & Hhttp & -> & Hreq & Hdo & Hstatus).
    cbn. rewrite bool_decide_true by done. cbn.
    cbn in Hreq, Hdo. rewrite Hreq. cbn. rewrite Hdo. cbn.
    by rewrite bool_decide_false by (by intros ?).
Qed.

(** X6: an error of [sigParams] is a fresh error (it is no sentinel a
    caller could compare against) whose message wraps the cause: "error
    getting pubkey bytes: ", "error summing pubkey: " or "error signing "
    followed by the message of the key or multihash error; the signing
    is attempted on "<timestamp>.<profile id>.<path>" only after the
    profile id was computed. *)
Theorem sigParams_errors (w : World) (pk : PrivKey) (ref : DatasetRef)
    (e : error) :
  sigParams w pk ref = Err e →
  eid e = Anon
  ∧ ((∃ e0, GetPublic_Bytes pk = Err e0
            ∧ Error e = "error getting pubkey bytes: " +:+ Error e0)
     ∨ (∃ pub e0,
          GetPublic_Bytes pk = Ok pub
          ∧ multihash_Sum w pub SHA2_256 32 = Err e0
          ∧ Error e = "error summing pubkey: " +:+ Error e0)
     ∨ (∃ pub mh e0,
          GetPublic_Bytes pk = Ok pub
          ∧ multihash_Sum w pub SHA2_256 32 = Ok mh
          ∧ Sign pk
              (String.list_byte_of_string
                 (requestSigningString (pretty (time_Now_Unix w))
                    (B58String w mh) (Path ref))) = Err e0
          ∧ Error e = "error signing " +:+ Error e0)).
Proof.
  unfold sigParams, calcProfileID, signString.
  destruct (GetPublic_Bytes pk) as [pub|e0] eqn:Hpub; cbn.
  2:{ intros [= <-]. split; [done|]. left. eauto. }
  destruct (multihash_Sum w pub SHA2_256 32) as [mh|e0] eqn:Hmh; cbn.
  2:{ intros [= <-]. split; [done|]. right. left. eauto. }
  destruct (Sign pk _) as [sg|e0] eqn:Hsig; cbn; [done|].
  intros [= <-]. split; [done|]. right. right. exists pub, mh, e0. done.
Qed.

(** A key that cannot sign. *)
Lemma sigParams_errors_demo :
  sigParams Demo.world Demo.lockedKey Demo.pop
  = Err (Errorf "error signing key is locked")
  ∧ eid (Errorf "error signing key is locked") = Anon.
Proof.
  split; [reflexivity|].
  exact (proj1 (sigParams_errors Demo.world Demo.lockedKey Demo.pop
                  (Errorf "error signing key is locked") eq_refl)).
Defined.


(** X3: [PullDataset] asks the remote for the head only when the reference
    has no path: with a path it sends no HTTP request and leaves [*ref] as
    it is; without one, a failed resolution is returned and no dsync pull
    is started, in particular for every address that is not an HTTP
    address.  A dsync pull it starts is for the path of the reference as
    resolved, signed for that reference, and dials [remoteAddr] with
    "/remote/dsync" appended whatever the kind of address; its result is
    what [PullDataset] returns. *)
Theorem PullDataset_resolves_first (w : World) (c : Client) (ctx : Context)
    (ref : DatasetRef) (remoteAddr : string) :
  let out := PullDataset w (Some c) ctx ref remoteAddr in
  (Path ref ≠ "" →
   out.1.2 = ref ∧ ∀ c' m u, EvHTTP c' m u ∉ out.1.1)
  ∧ (Path ref = "" →
     ∀ err, (ResolveHeadRef w (Some c) ctx ref remoteAddr).2 = Some err →
       out.2 = Some err
       ∧ out.1.2 = (ResolveHeadRef w (Some c) ctx ref remoteAddr).1.2
       ∧ ∀ c' p a m, EvDsyncPull c' p a m ∉ out.1.1)
  ∧ (Path ref = "" → addressType w remoteAddr ≠ "http" →
     out.1.2 = ref
     ∧ out.2 = Some (Errorf
                       "dataset name resolution currently only works over HTTP"))
  ∧ (∀ c' p a m, EvDsyncPull c' p a m ∈ out.1.1 →
       c' = ctx ∧ p = Path out.1.2 ∧ a = remoteAddr +:+ "/remote/dsync"
       ∧ sigParams w (pk c) out.1.2 = Ok m
       ∧ out.2 = dsync_PullDo w ctx p a m).
Proof.
  cbn zeta. unfold PullDataset.
  pose proof (RemoteFacts.ResolveHeadRef_unsigned w (Some c) ctx ref
                remoteAddr) as Hget.
  split_and!.
  - intros Hpath. rewrite bool_decide_false by done. cbn.
    destruct (sigParams w (pk c) ref) as [params|]; cbn.
    2:{ split; [done|]. intros c' m u H. not_among H. }
    destruct (dsync_NewPull w (Path ref) _ params); cbn;
      (split; [done|]; intros c' m u H; not_among H).
  - intros Hpath err Herr. rewrite bool_decide_true by done.
    destruct (ResolveHeadRef w (Some c) ctx ref remoteAddr)
      as [[t1 ref1] resolveErr].
    cbn in Herr. subst resolveErr. cbn. split_and!; [done..|].
    intros c' p a m [H|H]%elem_of_cons; [done|].
    apply elem_of_app in H as [H|H].
    + by destruct (Hget _ H) as (u & ? & _).
    + not_among H.
  - intros Hpath Hhttp. rewrite bool_decide_true by done.
    by rewrite RemoteFacts.ResolveHeadRef_not_http.
  - intros c' p a m.
    destruct (if bool_decide (Path ref = "") then _ else _)
      as [[t1 ref1] resolveErr] eqn:Hres.
    assert (EvDsyncPull c' p a m ∉ t1) as Ht1.
    { intros H. revert Hres. case_bool_decide.
      - intros Hres. rewrite Hres in Hget. cbn in Hget.
        by destruct (Hget _ H) as (u & ? & _).
      - intros [= <- _ _]. by apply elem_of_nil in H. }
    destruct resolveErr as [err|]; cbn.
    { intros [H|H]%elem_of_cons; [done|].
      apply elem_of_app in H as [H|H]; [done|]. not_among H. }
    destruct (sigParams w (pk c) ref1) as [params|] eqn:Hsig; cbn.
    2:{ intros [H|H]%elem_of_cons; [done|].
        apply elem_of_app in H as [H|H]; [done|]. not_among H. }
    destruct (dsync_NewPull w (Path ref1) _ params); cbn.
    { intros [H|H]%elem_of_cons; [done|].
      apply elem_of_app in H as [H|H]; [done|]. not_among H. }
    intros [H|H]%elem_of_cons; [done|].
    apply elem_of_app in H as [H|H]; [done|].
    apply list_elem_of_singleton in H. by injection H as -> -> -> ->.
Qed.

(** On the demo world: by path the pull goes straight to dsync; by name it
    asks the remote for the head first; by name from a peer it fails. *)
Lemma PullDataset_resolves_first_demo :
  (PullDataset Demo.world (Some Demo.alice) false Demo.pop
     "http://registry.example").1.2 = Demo.pop
  ∧ (PullDataset Demo.world (Some Demo.alice) false Demo.popNoPath
       "QmRemotePeer").2
    = Some (Errorf "dataset name resolution currently only works over HTTP").
Proof.
  destruct (PullDataset_resolves_first Demo.world Demo.alice false Demo.pop
              "http://registry.example") as (Hpath & _).
  destruct (PullDataset_resolves_first Demo.world Demo.alice false
              Demo.popNoPath "QmRemotePeer") as (_ & _ & Hname & _).
  split.
  - apply Hpath. discriminate.
  - apply Hname; [reflexivity|discriminate].
Defined.

(** X4: [PushDataset] on a configured client returns nil exactly when the
    push could be created, the parameters were signed and the push ran
    without error.  A push it runs is for the path of the reference, to the
    address with "/remote/dsync" appended for an HTTP address and unchanged
    otherwise, with pinning on completion, and carries the signed
    parameters. *)
Theorem PushDataset_succeeds_iff (w : World) (c : Client) (ctx : Context)
    (ref : DatasetRef) (remoteAddr : string) :
  let addr :=
    if bool_decide (addressType w remoteAddr = "http")
    then remoteAddr +:+ "/remote/dsync" else remoteAddr in
  (returned (PushDataset w (Some c) ctx ref remoteAddr) = None
   ↔ ∃ params,
       dsync_NewPush w (Path ref) addr true = None
       ∧ sigParams w (pk c) ref = Ok params
       ∧ dsync_PushDo w ctx (Path ref) addr true params = None)
  ∧ (∀ c' p a pin m,
       EvDsyncPush c' p a pin m ∈ (PushDataset w (Some c) ctx ref remoteAddr).1 →
       c' = ctx ∧ p = Path ref ∧ a = addr ∧ pin = true
       ∧ dsync_NewPush w (Path ref) addr true = None
       ∧ sigParams w (pk c) ref = Ok m).
Proof.
  cbn zeta. unfold PushDataset, returned.
  set (addr := if bool_decide _ then _ else _).
  unfold mbind, M_bind, emit, liftErr, lift. cbn.
  destruct (dsync_NewPush w (Path ref) addr true) as [e|] eqn:Hnew; cbn.
  { split; [split; [done|by intros (? & ? & _)]|].
    intros c' p a pin m H. not_among H. }
  destruct (sigParams w (pk c) ref) as [params|e] eqn:Hsig; cbn.
  2:{ split; [split; [done|by intros (? & _ & ? & _)]|].
      intros c' p a pin m H. not_among H. }
  split.
  - destruct (dsync_PushDo w ctx (Path ref) addr true params) eqn:Hdo; cbn.
    + split; [done|]. intros (params' & _ & [= <-] & Hdo'). congruence.
    + split; [|done]. intros _. by exists params.
  - intros c' p a pin m H.
    assert (EvDsyncPush c' p a pin m
            ∈ [EvLog DebugLevel "pushing dataset %s to %s"
                 [AStr (Path ref); AStr addr];
               EvDsyncPush ctx (Path ref) addr true params]) as H'.
    { by destruct (dsync_PushDo w ctx (Path ref) addr true params). }
    apply elem_of_cons in H' as [H'|H']; [done|].
    apply list_elem_of_singleton in H'. by injection H' as -> -> -> -> ->.
Qed.

(** On the demo world a push to an HTTP remote succeeds; it reaches dsync at
    the "/remote/dsync" endpoint. *)
Lemma PushDataset_succeeds_iff_demo :
  returned
    (PushDataset Demo.world (Some Demo.alice) false Demo.pop
       "http://registry.example") = None.
Proof.
  apply (proj1 (PushDataset_succeeds_iff Demo.world Demo.alice false Demo.pop
                  "http://registry.example")).
  exists Demo.popParams. split_and!; reflexivity.
Defined.

End RemoteProps.

(** ** Package actions, further properties *)
Module ActionsProps.
Import Repo Trace Actions Spec Spec2.

Lemma PullDataset_keeps_ref (rw : Remote.World) (c : option Remote.Client)
    (ctx : Context) (ref : DatasetRef) (remoteAddr : string) :
  Path ref ≠ "" → (Remote.PullDataset rw c ctx ref remoteAddr).1.2 = ref.
Proof.
  intros Hpath. unfold Remote.PullDataset. destruct c as [c|]; [|done].
  rewrite bool_decide_false by done. cbn.
  destruct (Remote.sigParams rw (Remote.pk c) ref) as [params|]; [|done].
  by destruct (Remote.dsync_NewPull rw (Path ref) _ params).
Qed.

Section Coordinator.
Context {R : Type}.
Variable w : World R.
Variable node : QriNode.
Variable rc : option Remote.Client.
Variable remoteAddr : string.

(** A goroutine that waits with its response keeps waiting while the
    coordinator does not take it. *)
Lemma runTask_Sending (s s' : source) (e : option error) (st : AddSt) :
  taskOf s st = Some (Sending e) →
  taskOf s (runTask w node rc remoteAddr s' st) = Some (Sending e).
Proof.
  intros H.
  destruct (ActionsFacts.runTask_Registry w node rc remoteAddr st)
    as [Hp Hr].
  destruct (ActionsFacts.runTask_P2P w node rc remoteAddr st) as [Hr' Hp'].
  destruct s, s'; unfold taskOf in *.
  - by rewrite H in Hr.
  - congruence.
  - congruence.
  - by rewrite H in Hp'.
Qed.

(** X7: after a success the coordinator takes no further response: a
    goroutine whose response it has not taken by then is never relieved of
    it.  Once such a goroutine has reached its send on [responses] it stays
    there, in every continuation of the interleaving. *)
Theorem no_response_after_success (st : AddSt) (s : source)
    (sched : list action) :
  success st = true →
  taskOf s st ≠ Some Done →
  taskOf s (exec w node rc remoteAddr sched st) ≠ Some Done
  ∧ i (exec w node rc remoteAddr sched st) = i st
  ∧ ∀ e, taskOf s st = Some (Sending e) →
         taskOf s (exec w node rc remoteAddr sched st) = Some (Sending e).
Proof.
  revert st. induction sched as [|a sched IH]; intros st Hs Hdone; [done|].
  cbn. unfold exec in IH.
  assert (success (step w node rc remoteAddr a st) = true
          ∧ i (step w node rc remoteAddr a st) = i st
          ∧ (taskOf s (step w node rc remoteAddr a st) = Some Done
             ↔ taskOf s st = Some Done)
          ∧ ∀ e, taskOf s st = Some (Sending e) →
                 taskOf s (step w node rc remoteAddr a st) = Some (Sending e))
    as (Hs' & Hi' & Hd' & He').
  { destruct a as [s'|s']; cbn.
    - destruct (ActionsFacts.runTask_spec w node rc remoteAddr s' st)
        as (t & _ & _ & _ & Hsucc & Hi & _ & _ & _ & Hd).
      split_and!; [congruence|done|done|].
      intros e. apply runTask_Sending.
    - rewrite ActionsFacts.recv_finished
        by (unfold finished; by rewrite Hs).
      done. }
  destruct (IH _ Hs' ltac:(by rewrite Hd')) as (H1 & H2 & H3).
  split_and!; [done|congruence|]. intros e He. by apply H3, He'.
Qed.

(** A success was received. *)
Lemma success_recv (ctx : Context) (ref : DatasetRef) (sched : list action) :
  success
    (exec w node rc remoteAddr sched (launch node rc remoteAddr ctx ref))
  = true →
  ∃ s, EvRecv s None
       ∈ trace (exec w node rc remoteAddr sched
                  (launch node rc remoteAddr ctx ref)).
Proof.
  intros Hsucc.
  destruct (ActionsFacts.first_success w node rc remoteAddr sched
              (launch node rc remoteAddr ctx ref) eq_refl Hsucc)
    as (sched1 & s & sched2 & -> & Hs1 & Hf1 & Htask).
  rewrite ActionsFacts.exec_app.
  set (st1 := exec w node rc remoteAddr sched1 _) in *.
  assert (step w node rc remoteAddr (Recv s) st1 =
          recvSuccess s (log [EvRecv s None] (setTask s Done st1))) as Hstep.
  { cbn. unfold recv. by rewrite Hf1, Htask. }
  destruct (ActionsFacts.after_success w node rc remoteAddr sched2
              (step w node rc remoteAddr (Recv s) st1))
    as (_ & _ & post & Hpost & _); [by rewrite Hstep..|].
  exists s.
  change (exec w node rc remoteAddr (Recv s :: sched2) st1)
    with (exec w node rc remoteAddr sched2
            (step w node rc remoteAddr (Recv s) st1)).
  rewrite Hpost, Hstep. cbn.
  rewrite !elem_of_app. left. left. right. by apply list_elem_of_singleton.
Qed.

(** X8: [AddDataset] returns nil, and writes to the repo, only after a
    goroutine has reported success; what it writes is one [PutRef] of the
    fetched reference. *)
Theorem repo_written_only_after_fetch (ctx : Context) (ref : DatasetRef)
    (r : R) (sched : list action) (out : outcome) :
  AddDataset w node rc remoteAddr ctx ref r sched = Some out →
  out_err out = None ∨ out_repo out ≠ r →
  ∃ t1 ref1,
    resolveRef w rc remoteAddr ctx ref = (t1, ref1, None)
    ∧ let st :=
        exec w node rc remoteAddr sched
          (launch node rc remoteAddr ctx ref1) in
      success st = true
      ∧ (∃ s, EvRecv s None ∈ trace st)
      ∧ (out_repo out = r
         ∨ ∃ stored,
             (stored = Actions.ref st
              ∨ ∃ ds, stored = setDataset (Actions.ref st) (Some ds))
             ∧ out_repo out = (PutRef w r stored).1).
Proof.
  unfold AddDataset.
  destruct (resolveRef w rc remoteAddr ctx ref) as [[t1 ref1] [e|]].
  { intros [= <-]. cbn. by intros [|]. }
  case_bool_decide.
  { intros [= <-]. cbn. by intros [|]. }
  destruct (finished _) eqn:Hfin; cbn; [|done].
  destruct (success _) eqn:Hsucc; cbn.
  2:{ intros [= <-]. cbn. by intros [|]. }
  intros Hout _. exists t1, ref1. split; [done|]. cbn zeta.
  split; [done|]. split; [by apply success_recv|].
  revert Hout. unfold storeRef.
  set (fetched := Actions.ref _).
  destruct (GetRef w r _) as [existing|e].
  - destruct (LoadDataset w ctx (Path existing)) as [old|]; cbn.
    2:{ intros [= <-]. by left. }
    destruct (LoadDataset w ctx (Path fetched)) as [new|]; cbn.
    2:{ intros [= <-]. by left. }
    unfold ReplaceRefIfMoreRecent.
    destruct (moreRecent w _ _); cbn.
    2:{ intros [= <-]. by left. }
    destruct (PutRef w r (setDataset fetched (Some new))) as [r' e'] eqn:Hput.
    intros [= <-]. right. exists (setDataset fetched (Some new)).
    split; [eauto|]. by rewrite Hput.
  - case_bool_decide; cbn.
    2:{ intros [= <-]. by left. }
    destruct (PutRef w r fetched) as [r' [e'|]] eqn:Hput;
      intros [= <-]; right; exists fetched; (split; [eauto|]);
      by rewrite Hput.
Qed.

(** An invariant holds along every schedule. *)
Lemma exec_inv (P : AddSt → Prop) (sched : list action) (st : AddSt) :
  (∀ a st, P st → P (step w node rc remoteAddr a st)) →
  P st → P (exec w node rc remoteAddr sched st).
Proof.
  intros Hstep. revert st.
  induction sched as [|a sched IH]; intros st H; [done|].
  apply IH. by apply Hstep.
Qed.

Lemma pinnedBefore_extend (st st' : AddSt) (t : list event) :
  refCopy st' = refCopy st →
  trace st' = trace st ++ t →
  pinnedBefore node st → pinnedBefore node st'.
Proof.
  intros Hc Ht [Hline Hpin]. unfold pinnedBefore. rewrite Hc, Ht. split.
  - apply elem_of_app. by left.
  - intros pin Hp. destruct (Hpin pin Hp) as (c & Hin & Hok).
    exists c. split; [|done]. apply elem_of_app. by left.
Qed.

Lemma registryInv_extend (st st' : AddSt) (t : list event) :
  registry st' = registry st →
  refCopy st' = refCopy st →
  trace st' = trace st ++ t →
  (∀ e, EvRecv Registry e ∉ t) →
  registryInv node st → registryInv node st'.
Proof.
  intros Hr Hc Ht Hnot. unfold registryInv. rewrite Hr.
  assert ((∀ e, EvRecv Registry e ∉ trace st) →
          ∀ e, EvRecv Registry e ∉ trace st') as Hkeep.
  { intros H e. rewrite Ht. intros [?|?]%elem_of_app; [by eapply H|].
    by eapply Hnot. }
  assert (fetchedLine ∈ trace st → fetchedLine ∈ trace st') as Hline.
  { intros H. rewrite Ht. apply elem_of_app. by left. }
  destruct (registry st) as [[| |[e|]|]|]; try by auto.
  - intros [? ?]. auto.
  - intros [? ?]. split; [by eapply pinnedBefore_extend|auto].
  - intros H Hin. eapply pinnedBefore_extend; [done..|]. apply H.
    rewrite Ht in Hin. apply elem_of_app in Hin as [?|?]; [done|].
    by destruct (Hnot None).
Qed.

Lemma taskEvents_no_recv (c : Context) (t : list event) (s : source)
    (e : option error) :
  Forall (taskEvent c) t → EvRecv s e ∉ t.
Proof.
  intros Hall Hin. rewrite Forall_forall in Hall. by apply Hall in Hin.
Qed.

Lemma registryInv_step (a : action) (st : AddSt) :
  registryInv node st → registryInv node (step w node rc remoteAddr a st).
Proof.
  intros Hinv. destruct a as [[|]|s]; unfold step.
  - (* the registry goroutine advances *)
    unfold runTask. cbn [taskOf].
    destruct (registry st) as [[| |e|]|] eqn:Hreg; try done.
    + pose proof (ActionsFacts.PullDataset_taskEvents (remote w) rc
                    (cancelled st) (refCopy st) remoteAddr) as Hpull.
      destruct (Remote.PullDataset (remote w) rc (cancelled st) (refCopy st)
                  remoteAddr) as [[t ref'] [e|]]; cbn in Hpull.
      * unfold registryInv in *. rewrite Hreg in Hinv. cbn.
        intros e' [?|?]%elem_of_app; [by eapply Hinv|].
        by eapply taskEvents_no_recv.
      * unfold registryInv in *. rewrite Hreg in Hinv.
        assert (∀ e', EvRecv Registry e'
                      ∉ (trace st ++ t) ++ [fetchedLine]) as Hnot.
        { intros e' [[?|?]%elem_of_app|?]%elem_of_app.
          - by eapply Hinv.
          - by eapply taskEvents_no_recv.
          - by apply list_elem_of_singleton in H. }
        assert (fetchedLine ∈ (trace st ++ t) ++ [fetchedLine]) as Hline.
        { apply elem_of_app. right. by apply list_elem_of_singleton. }
        destruct (Pinner node) as [pin|] eqn:Hpin; cbn; [done|].
        split; [|done]. unfold pinnedBefore. cbn. split; [done|].
        intros pin Hp. congruence.
    + unfold registryInv in *. rewrite Hreg in Hinv.
      destruct Hinv as [Hline Hnot].
      destruct (Pinner node) as [pin|] eqn:Hpin; cbn.
      * assert (∀ e', EvRecv Registry e'
                      ∉ trace st ++ [EvPin (cancelled st)
                                       (Path (refCopy st)) true]) as Hnot'.
        { intros e' [?|?]%elem_of_app; [by eapply Hnot|].
          by apply list_elem_of_singleton in H. }
        destruct (pin (cancelled st) (Path (refCopy st)) true) eqn:Hok;
          [done|].
        split; [|done]. unfold pinnedBefore. cbn. split.
        -- apply elem_of_app. by left.
        -- intros pin' Hp. assert (pin' = pin) as -> by congruence.
           exists (cancelled st). split; [|done].
           apply elem_of_app. right. by apply list_elem_of_singleton.
      * split; [|done]. unfold pinnedBefore. cbn. split; [done|].
        intros pin Hp. congruence.
  - (* the peer-network goroutine advances *)
    unfold runTask. cbn [taskOf].
    destruct (p2p st) as [[| |e|]|] eqn:Hp2p; try done.
    eapply (registryInv_extend st _ [EvFetchDataset (cancelled st) (ref st)]);
      try done.
    intros e H. by apply list_elem_of_singleton in H.
  - (* the coordinator takes a response *)
    unfold recv. destruct (finished st); [done|].
    destruct s; cbn [taskOf].
    + destruct (registry st) as [[| |[e|]|]|] eqn:Hreg; try done;
        unfold registryInv in *; rewrite Hreg in Hinv; cbn.
      * intros Hin. exfalso.
        apply elem_of_app in Hin as [?|?]; [by eapply Hinv|].
        by apply list_elem_of_singleton in H.
      * intros _. destruct Hinv as [Hpinned _].
        eapply (pinnedBefore_extend st _ [EvRecv Registry None; EvCancel]);
          [done| |done].
        cbn. by rewrite <- app_assoc.
    + destruct (p2p st) as [[| |[e|]|]|] eqn:Hp2p; try done.
      * eapply (registryInv_extend st _ [EvRecv P2P (Some e)]); try done.
        intros e' H. by apply list_elem_of_singleton in H.
      * eapply (registryInv_extend st _ [EvRecv P2P None; EvCancel]);
          try done.
        -- cbn. by rewrite <- app_assoc.
        -- intros e' Hin. apply elem_of_cons in Hin as [?|Hin]; [done|].
           by apply list_elem_of_singleton in Hin.
Qed.

(** X9: the registry goroutine offers a success, and the coordinator
    receives one from it, only after the line "fetched from registry" was
    printed and, when the store pins, the fetched path was pinned without
    error. *)
Theorem registry_success_pinned (ctx : Context) (ref : DatasetRef)
    (sched : list action) :
  let st :=
    exec w node rc remoteAddr sched (launch node rc remoteAddr ctx ref) in
  (registry st = Some (Sending None) → pinnedBefore node st)
  ∧ (EvRecv Registry None ∈ trace st → pinnedBefore node st).
Proof.
  cbn zeta.
  assert (registryInv node
            (exec w node rc remoteAddr sched
               (launch node rc remoteAddr ctx ref))) as Hinv.
  { apply exec_inv; [apply registryInv_step|].
    unfold registryInv, launch. cbn.
    destruct rc; [case_bool_decide|]; intros e He; by apply elem_of_nil in He. }
  unfold registryInv in Hinv.
  destruct (registry _) as [[| |[e|]|]|]; split; try done;
    try (intros Hin; by destruct (Hinv None));
    try (intros Hin; by destruct (proj2 Hinv None)).
  by destruct Hinv.
Qed.

Lemma copyInv_step (ref0 : DatasetRef) (a : action) (st : AddSt) :
  copyInv ref0 st → copyInv ref0 (step w node rc remoteAddr a st).
Proof.
  intros Hinv. pose proof Hinv as (Hp2p & Href & Hcopy).
  destruct a as [[|]|s]; unfold step.
  - unfold runTask. cbn [taskOf].
    destruct (registry st) as [[| |e|]|] eqn:Hreg; try done.
    + assert (success st = false) as Hs.
      { destruct (success st); [by destruct Href|done]. }
      rewrite Hs in Href.
      assert (Path ref0 ≠ "" →
              (Remote.PullDataset (remote w) rc (cancelled st) (refCopy st)
                 remoteAddr).1.2 = copyOf ref0) as Hkeep.
      { intros Hpath. rewrite PullDataset_keeps_ref; [by apply Hcopy|].
        by rewrite Hcopy. }
      destruct (Remote.PullDataset (remote w) rc (cancelled st) (refCopy st)
                  remoteAddr) as [[t ref'] [e|]]; cbn in Hkeep.
      * unfold copyInv. cbn. by rewrite Hs.
      * destruct (Pinner node); unfold copyInv; cbn; by rewrite Hs.
    + assert (success st = false) as Hs.
      { destruct (success st); [by destruct Href|done]. }
      rewrite Hs in Href.
      destruct (Pinner node); unfold copyInv; cbn; by rewrite Hs.
  - unfold runTask. cbn [taskOf]. by rewrite Hp2p.
  - unfold recv. destruct (finished st) eqn:Hfin; [done|].
    unfold finished in Hfin. apply orb_false_iff in Hfin as [Hs _].
    rewrite Hs in Href.
    destruct s; cbn [taskOf].
    + destruct (registry st) as [[| |[e|]|]|] eqn:Hreg; try done;
        unfold copyInv; cbn; by rewrite ?Hs.
    + by rewrite Hp2p.
Qed.

(** X10: the registry goroutine works on its own copy of the reference:
    with the node offline, a failed [AddDataset] leaves [*ref] as it was
    resolved, and a successful one replaces [*ref] by the copy, which is
    [ref]'s peername, profile id, name and path when the path was given. *)
Theorem registry_works_on_copy (ctx : Context) (ref : DatasetRef)
    (sched : list action) :
  Online node = false →
  let st :=
    exec w node rc remoteAddr sched (launch node rc remoteAddr ctx ref) in
  (success st = false → Actions.ref st = ref)
  ∧ (success st = true → Actions.ref st = refCopy st)
  ∧ (Path ref ≠ "" → refCopy st = copyOf ref)
  ∧ (∀ r0 r out t0,
       resolveRef w rc remoteAddr ctx r0 = (t0, ref, None) →
       AddDataset w node rc remoteAddr ctx r0 r sched = Some out →
       success st = false → out_ref out = ref).
Proof.
  intros Hoff. cbn zeta.
  assert (copyInv ref
            (exec w node rc remoteAddr sched
               (launch node rc remoteAddr ctx ref)))
    as (_ & Href & Hcopy).
  { apply exec_inv; [apply copyInv_step|].
    unfold copyInv, launch. cbn. by rewrite Hoff. }
  split_and!.
  - intros Hs. by rewrite Hs in Href.
  - intros Hs. rewrite Hs in Href. by destruct Href.
  - done.
  - intros r0 r out t0 Hres Hadd Hs. rewrite Hs in Href.
    unfold AddDataset in Hadd. rewrite Hres in Hadd.
    case_bool_decide; [by injection Hadd as <-|].
    destruct (finished _); cbn in Hadd; [|done].
    rewrite Hs in Hadd. cbn in Hadd. by injection Hadd as <-.
Qed.

End Coordinator.

(** On the demo node the peer network wins; the registry goroutine is never
    relieved of its response, however long the schedule goes on. *)
Lemma no_response_after_success_demo :
  taskOf Registry
    (exec (Demo.actions None None) Demo.online (Some Demo.alice)
       "http://registry.example"
       ([Run P2P; Recv P2P] ++ fairSchedule)
       (launch Demo.online (Some Demo.alice) "http://registry.example" false
          Demo.pop))
  ≠ Some Done.
Proof.
  rewrite ActionsFacts.exec_app.
  apply (no_response_after_success (Demo.actions None None) Demo.online
           (Some Demo.alice) "http://registry.example"); [reflexivity|].
  discriminate.
Defined.


(** On the offline demo node the registry cannot be reached: the add fails
    and the reference is as it was. *)
Lemma registry_works_on_copy_demo :
  success
    (exec (Demo.actions None None) Demo.offline (Some Demo.alice)
       "http://registry.example" [Run Registry; Recv Registry]
       (launch Demo.offline (Some Demo.alice) "http://registry.example" false
          Demo.pop)) = false
  ∧ Actions.ref
      (exec (Demo.actions None None) Demo.offline (Some Demo.alice)
         "http://registry.example" [Run Registry; Recv Registry]
         (launch Demo.offline (Some Demo.alice) "http://registry.example"
            false Demo.pop)) = Demo.pop.
Proof.
  split; [reflexivity|].
  destruct (registry_works_on_copy (Demo.actions None None) Demo.offline
              (Some Demo.alice) "http://registry.example" false Demo.pop
              [Run Registry; Recv Registry] eq_refl) as (Hfail & _).
  apply Hfail. reflexivity.
Defined.


(** On the demo node the peer network answers first: the add returns nil
    after that response. *)
Lemma repo_written_only_after_fetch_demo :
  ∃ s, EvRecv s None
       ∈ trace
           (exec (Demo.actions None None) Demo.online (Some Demo.alice)
              "http://registry.example" [Run P2P; Recv P2P]
              (launch Demo.online (Some Demo.alice) "http://registry.example"
                 false Demo.pop)).
Proof.
  assert (∃ out,
            AddDataset (Demo.actions None None) Demo.online (Some Demo.alice)
              "http://registry.example" false Demo.pop []
              [Run P2P; Recv P2P] = Some out
            ∧ out_err out = None) as (out & Hadd & Herr).
  { eexists. split; reflexivity. }
  destruct (repo_written_only_after_fetch (Demo.actions None None)
              Demo.online (Some Demo.alice) "http://registry.example" false
              Demo.pop [] [Run P2P; Recv P2P] out Hadd (or_introl Herr))
    as (t1 & ref1 & Hres & Hst).
  injection Hres as <- <-. exact (proj1 (proj2 Hst)).
Defined.

(** With a registry that answers and a store that pins, the registry's
    success comes after the pin of "/ipfs/QmPopV1". *)
Lemma registry_success_pinned_demo :
  pinnedBefore Demo.online
    (exec Scenario.registryUp Demo.online (Some Demo.alice)
       "http://registry.example"
       [Run Registry; Run Registry; Recv Registry]
       (launch Demo.online (Some Demo.alice) "http://registry.example" false
          Demo.pop)).
Proof.
  apply (proj2 (registry_success_pinned Scenario.registryUp Demo.online
                  (Some Demo.alice) "http://registry.example" false Demo.pop
                  [Run Registry; Run Registry; Recv Registry])).
  apply (list_elem_of_lookup_2 _ 4). reflexivity.
Defined.

End ActionsProps.

(** ** Package actions: SaveDataset *)
Module ActionsSaveProps.
Import Trace Spec2 ActionsSave.

(** X23: [SaveDataset] either returns the zero reference and an error without
    having called [base.CreateDataset], or ends with its only call of
    [base.CreateDataset] and returns what that call returned.  In the
    second case the previous version was looked up and the profile read
    without error; in a dry run the repo handed on is the in-memory one,
    otherwise the caller's; a dataset without a previous version has a body
    file or a structure once the transform has run; a body whose format
    differs from the previous structure's was converted, which
    [ConvertFormatToPrev] must allow.  The dataset handed on is the changes
    themselves with [Replace], otherwise the changes assigned onto the
    mutable copy of the previous version; its values were inferred, a
    default viz was added only under [ShouldRender], and its
    [PreviousPath] is the path of the previous version. *)
Theorem SaveDataset_creates (w : World) (changes : DS.Dataset)
    (secrets : gmap string string) (scriptOut : option string)
    (sw : SaveDatasetSwitches) :
  let out := SaveDataset w changes secrets scriptOut sw in
  (Forall (λ e, isCall "base.CreateDataset" e = false) out.1
   ∧ out.2.1 = DSRef.zero ∧ out.2.2 ≠ None)
  ∨ ∃ prev mutable prevPath pro changed converted inferred ds before,
      PrepareDatasetSave w (DS.Peername changes) (DS.Name changes)
      = Ok (prev, mutable, prevPath)
      ∧ Repo_Profile w = Ok pro
      ∧ (DryRun sw = true → NewMemRepo w pro = None)
      ∧ (changed, None)
        = match DS.Transform changes with
          | Some _ =>
              ExecScript w (if DryRun sw then InMemory else Given) changes
                prev scriptOut secrets
          | None => (changes, None)
          end
      ∧ (prevPath = "" →
         DS.BodyFile changed ≠ None ∨ DS.Structure changed ≠ None)
      ∧ convert w sw changed prev = Ok converted
      ∧ (∀ file ps cs,
           DS.BodyFile changed = Some file → DS.Structure prev = Some ps →
           DS.Structure changed = Some cs → DS.Format ps ≠ DS.Format cs →
           ConvertFormatToPrev sw = true
           ∧ ∃ f, ConvertBodyFormat w (Some file) cs ps = Ok f)
      ∧ InferValues w pro
          (if Replace sw then converted else Assign w mutable converted)
        = (inferred, None)
      ∧ ds = DS.setPreviousPath
               (if ShouldRender sw then MaybeAddDefaultViz w inferred
                else inferred) prevPath
      ∧ DS.PreviousPath ds = prevPath
      ∧ out.1 = before ++ [EvCall "base.CreateDataset" [AStr (DS.Name ds)]]
      ∧ Forall (λ e, isCall "base.CreateDataset" e = false) before
      ∧ out.2 = CreateDataset w (if DryRun sw then InMemory else Given) ds
                  prev (DryRun sw) (Pin sw) (Force sw) (ShouldRender sw).
Proof.
  cbn zeta. unfold SaveDataset.
  destruct (PrepareDatasetSave w _ _) as [[[prev mutable] prevPath]|e];
    [|left; by split_and!].
  destruct (Repo_Profile w) as [pro|e]; [|left; by split_and!].
  set (r := if DryRun sw then InMemory else Given).
  set (t0 := if DryRun sw then [_] else []).
  assert (Forall (λ e, isCall "base.CreateDataset" e = false) t0) as Ht0.
  { subst t0. destruct (DryRun sw); by repeat constructor. }
  destruct (if DryRun sw then NewMemRepo w pro else None) as [e|] eqn:Hmem;
    [left; by split_and!|].
  set (t1 := match DS.Transform changes with Some _ => [_] | None => [] end).
  assert (Forall (λ e, isCall "base.CreateDataset" e = false) t1) as Ht1.
  { subst t1. destruct (DS.Transform changes); by repeat constructor. }
  set (ran := match DS.Transform changes with
              | Some _ => ExecScript w r changes prev scriptOut secrets
              | None => (changes, None)
              end).
  destruct ran as [changed [e|]] eqn:Hran; cbn [fst snd];
    [left; by split_and!|].
  destruct (bool_decide (prevPath = "") && bool_decide (DS.BodyFile changed = None)
            && bool_decide (DS.Structure changed = None)) eqn:Hnew.
  { left. cbn. split_and!; [by apply Forall_app|done|done]. }
  destruct (convert w sw changed prev) as [converted|e] eqn:Hconv;
    [|left; cbn; split_and!; [by apply Forall_app|done|done]].
  unfold create.
  destruct (InferValues w pro _) as [inferred [e|]] eqn:Hinfer;
    cbn [fst snd].
  { left. rewrite !app_nil_r. split_and!; [by apply Forall_app|done|done]. }
  right.
  exists prev, mutable, prevPath, pro, changed, converted, inferred,
    (DS.setPreviousPath
       (if ShouldRender sw then MaybeAddDefaultViz w inferred else inferred)
       prevPath), (t0 ++ t1).
  split_and!.
  - done.
  - done.
  - intros Hdry. by rewrite Hdry in Hmem.
  - done.
  - intros ->. rewrite bool_decide_true in Hnew by done. cbn in Hnew.
    apply andb_false_iff in Hnew as [Hnew|Hnew];
      apply bool_decide_eq_false in Hnew; [by left|by right].
  - done.
  - intros file ps cs Hfile Hps Hcs Hne. unfold convert in Hconv.
    rewrite Hfile, Hps, Hcs in Hconv.
    rewrite bool_decide_true in Hconv by done.
    destruct (ConvertFormatToPrev sw); [|done].
    split; [done|].
    destruct (ConvertBodyFormat w _ _ _) as [f|e]; [|done]. by exists f.
  - done.
  - done.
  - reflexivity.
  - by rewrite app_assoc.
  - by apply Forall_app.
  - done.
Qed.

(** A dry run of a first save of "alice/pop" reaches [base.CreateDataset]. *)
Lemma SaveDataset_creates_demo :
  ∃ before ds,
    (SaveDataset Scenario.creating (DS.named Scenario.popDs "pop" "alice") ∅
       None Scenario.dryRun).1
    = before ++ [EvCall "base.CreateDataset" [AStr (DS.Name ds)]]
    ∧ DS.PreviousPath ds = "".
Proof.
  destruct (SaveDataset_creates Scenario.creating
              (DS.named Scenario.popDs "pop" "alice") ∅ None Scenario.dryRun)
    as [(Hno & _)|(prev & mutable & prevPath & pro & changed & converted
                   & inferred & ds & before & Hprev & _ & _ & _ & _ & _ & _
                   & _ & _ & Hpath & Ht & _)].
  - exfalso. rewrite Forall_forall in Hno.
    specialize (Hno (EvCall "base.CreateDataset" [AStr "pop"])).
    assert (false = true → False) as Hcontra by discriminate.
    apply Hcontra. symmetry. apply Hno.
    apply (list_elem_of_lookup_2 _ 1%nat). reflexivity.
  - exists before, ds. split; [exact Ht|].
    rewrite Hpath. cbn in Hprev. by injection Hprev as _ _ <-.
Defined.

End ActionsSaveProps.

(** ** Package lib, further properties *)
Module LibProps.
Import Repo Trace Lib Spec Spec2.

(** Unfolds the combinators of [MS]. *)
Ltac run_ms :=
  unfold mbind, MS_bind, mret, MS_ret, liftS, liftErrS, liftM, modify, get,
    emitS, failS; cbn.

(** X11: [Remove] on a reference that canonicalizes with [ErrNoHistory]
    deletes nothing from the repo: [NumDeleted] stays as it was and the only
    calls are those into fsi.  When the reference is linked to a working
    directory and [Remove] returns nil, the link was removed and
    [res.Unlinked] is set, whether or not [p.Unlink] was; when it is not
    linked and no flag asks for the working directory, [Remove] only
    writes [res.Ref]. *)
Theorem Remove_no_history (w : World) (r : DatasetRequests)
    (p : RemoveParams) (res : RemoveResponse) (ref0 ref : DatasetRef)
    (e : error) :
  cli r = false →
  Field (Revision p) = "ds" →
  ParseDatasetRef w (Ref p) = Ok ref0 →
  CanonicalizeDatasetRef w ref0 = (ref, Some e) →
  eid e = NoHistory →
  let out := Remove w r p res in
  NumDeleted out.1.2 = NumDeleted res
  ∧ Forall fsiCall out.1.1
  ∧ (FSIPath ref ≠ "" → returnedS out = None →
     Unlinked out.1.2 = true
     ∧ EvCall "fsi.Unlink" [AStr (FSIPath ref); AStr (AliasString w ref)]
       ∈ out.1.1)
  ∧ (FSIPath ref = "" → Unlink p = false → DeleteFSIFiles p = false →
     out = ([], setRRef (RefString w ref) res, Ok tt)).
Proof.
  intros Hcli Hfield Hparse Hcanon Hno. cbn zeta.
  unfold Remove. rewrite Hcli, Hfield. rewrite bool_decide_false by naive_solver.
  run_ms. rewrite Hparse. cbn. rewrite Hcanon. cbn.
  rewrite bool_decide_false by naive_solver. cbn.
  destruct (decide (FSIPath ref = "")) as [Hfsi|Hfsi].
  - rewrite (bool_decide_true _ Hfsi). cbn.
    destruct (Unlink p), (DeleteFSIFiles p); cbn; try by split_and!.
    rewrite bool_decide_false by naive_solver. cbn. by split_and!.
  - rewrite (bool_decide_false _ Hfsi). cbn.
    rewrite bool_decide_true by done. cbn.
    rewrite orb_true_r.
    destruct (DeleteFSIFiles p); cbn;
      [destruct (fsi_DeleteDatasetFiles w (FSIPath ref)); cbn|];
      try destruct (fsi_Unlink w (FSIPath ref) (AliasString w ref)); cbn;
      split_and!;
      first [ done
            | by repeat constructor; cbn; eauto
            | intros _ _; split; [done|set_solver] ].
Qed.


(** Symbolic runs of [Remove]: [H] equates the outcome with the code that is
    still to run. *)
Ltac keep H :=
  unfold mbind, MS_bind, mret, MS_ret, liftS, liftErrS, liftM, modify, get,
    emitS, failS in H;
  cbn -[removeEntireDataset removeRevisions] in H.

(** Closes a branch that has run to its end with an error, or without the
    call spoken of. *)
Ltac dead_branch H :=
  try (match type of H with
       | _ = (_, _, _) =>
           let Hret := fresh in
           let Hin := fresh in
           rewrite H; cbn; intros Hret Hin; first [done | not_among Hin]
       end).

(** Splits on the answer of a collaborator or on a test. *)
Ltac on_test H :=
  match type of H with
  | context [bool_decide ?P] =>
      let Hc := fresh "Hcase" in
      destruct (decide P) as [Hc|Hc];
      [rewrite (bool_decide_true P Hc) in H
      |rewrite (bool_decide_false P Hc) in H]
  end; keep H.

Ltac on_DeleteFSIFiles H :=
  match type of H with
  | context [DeleteFSIFiles ?p] => destruct (DeleteFSIFiles p) eqn:?
  end; keep H;
  try match type of H with
      | context [fsi_DeleteDatasetFiles ?w ?a] =>
          destruct (fsi_DeleteDatasetFiles w a) eqn:?; keep H
      end.

Ltac on_DatasetLog H :=
  match type of H with
  | context [DatasetLog ?w ?a ?b ?c ?d] =>
      destruct (DatasetLog w a b c d) as [log|] eqn:?
  end; keep H.

Ltac on_lookup H :=
  match type of H with
  | context [@lookup _ _ _ _ ?i ?l] => destruct (l !! i) eqn:?
  end; keep H.

Ltac on_ModifyDatasetRef H :=
  match type of H with
  | context [ModifyDatasetRef ?w ?a ?b ?c] =>
      destruct (ModifyDatasetRef w a b c) as [? [?|]] eqn:?
  end; keep H.

Ltac on_WriteVersionDelete H :=
  match type of H with
  | context [WriteVersionDelete ?w ?a ?b] =>
      destruct (WriteVersionDelete w a b) eqn:?
  end; keep H.

Ltac on_fsi_Unlink H :=
  match type of H with
  | context [fsi_Unlink ?w ?a ?b] => destruct (fsi_Unlink w a b) eqn:?
  end; keep H.

Ltac on_DeleteDataset H :=
  match type of H with
  | context [DeleteDataset ?w ?a] =>
      destruct (DeleteDataset w a) as [? [?|]] eqn:?
  end; keep H.

Lemma removeEntireDataset_run (w : World) (p : RemoveParams)
    (ref : DatasetRef) (res : RemoveResponse) :
  removeEntireDataset w p ref res =
  let unlink := bool_decide (FSIPath ref ≠ "") && negb (Unlink p) in
  let t :=
    if unlink
    then [EvCall "fsi.Unlink" [AStr (FSIPath ref); AStr (AliasString w ref)]]
    else [] in
  match (if unlink then fsi_Unlink w (FSIPath ref) (AliasString w ref)
         else None) with
  | Some e => (t, res, Err e)
  | None =>
      let res := if unlink then setUnlinked true res else res in
      let t := t ++ [EvCall "base.DeleteDataset" [ARefString ref]] in
      match (DeleteDataset w ref).2 with
      | Some e => (t, res, Err e)
      | None => (t, setNumDeleted (AllGenerations w) res, Ok tt)
      end
  end.
Proof.
  unfold removeEntireDataset. run_ms.
  destruct (bool_decide (FSIPath ref ≠ "") && negb (Unlink p)); cbn.
  - destruct (fsi_Unlink w (FSIPath ref) (AliasString w ref)); cbn; [done|].
    by destruct (DeleteDataset w ref).2.
  - by destruct (DeleteDataset w ref).2.
Qed.

(** X12: a [Remove] that deletes the whole dataset of a linked reference
    (all generations asked for, or at least as many as the log has) and
    returns nil has removed the link exactly once, whether or not
    [p.Unlink] was set: [res.Unlinked] is true, [res.NumDeleted] is
    [AllGenerations], and [fsi.Unlink] was called once. *)
Theorem Remove_entire_unlinks_once (w : World) (r : DatasetRequests)
    (p : RemoveParams) (res : RemoveResponse) (ref0 ref : DatasetRef) :
  cli r = false →
  ParseDatasetRef w (Ref p) = Ok ref0 →
  (CanonicalizeDatasetRef w ref0).1 = ref →
  FSIPath ref ≠ "" →
  let out := Remove w r p res in
  returnedS out = None →
  EvCall "base.DeleteDataset" [ARefString ref] ∈ out.1.1 →
  Unlinked out.1.2 = true
  ∧ NumDeleted out.1.2 = AllGenerations w
  ∧ length (filter (isCall "fsi.Unlink") out.1.1) = 1.
Proof.
  intros Hcli Hparse Hcanon Hfsi. cbn zeta.
  remember (Remove w r p res) as out eqn:Hout.
  unfold Remove in Hout. rewrite Hcli in Hout. unfold returnedS.
  on_test Hout; dead_branch Hout.
  keep Hout. rewrite Hparse in Hout. keep Hout.
  destruct (CanonicalizeDatasetRef w ref0) as [ref' canonErr].
  cbn in Hcanon. subst ref'.
  rewrite (bool_decide_false (FSIPath ref = "")) in Hout by done.
  rewrite (bool_decide_true (FSIPath ref ≠ "")) in Hout by done. keep Hout.
  destruct canonErr as [canonErr|]; keep Hout;
    [on_test Hout; dead_branch Hout|];
    rewrite ?orb_true_r, ?orb_false_r in Hout;
    (on_DeleteFSIFiles Hout; dead_branch Hout);
    (destruct (Unlink p) eqn:Hunlink; keep Hout);
    try (on_fsi_Unlink Hout; dead_branch Hout).
  all: on_test Hout; dead_branch Hout.
  all: try (on_test Hout; dead_branch Hout).
  all: try (unfold removeRevisions in Hout; keep Hout;
            on_DatasetLog Hout; dead_branch Hout; on_test Hout).
  all: try (on_lookup Hout; dead_branch Hout;
            on_ModifyDatasetRef Hout; dead_branch Hout;
            on_WriteVersionDelete Hout; dead_branch Hout;
            try on_test Hout; dead_branch Hout).
  all: rewrite removeEntireDataset_run in Hout;
       rewrite (bool_decide_true (FSIPath ref ≠ "")) in Hout by done;
       rewrite Hunlink in Hout; cbn in Hout.
  all: try (on_fsi_Unlink Hout; dead_branch Hout).
  all: on_DeleteDataset Hout; dead_branch Hout.
Qed.

(** On the demo node, removing every version of the checked-out
    "alice/pop" unlinks it. *)
Lemma Remove_entire_unlinks_once_demo :
  Unlinked (Remove Scenario.linked Demo.requests Scenario.removeAll
              Demo.noResponse).1.2 = true
  ∧ NumDeleted (Remove Scenario.linked Demo.requests Scenario.removeAll
                  Demo.noResponse).1.2 = (-1)%Z
  ∧ length
      (filter (isCall "fsi.Unlink")
         (Remove Scenario.linked Demo.requests Scenario.removeAll
            Demo.noResponse).1.1) = 1.
Proof.
  apply (Remove_entire_unlinks_once Scenario.linked Demo.requests
           Scenario.removeAll Demo.noResponse Scenario.popLinked
           Scenario.popLinked eq_refl eq_refl eq_refl);
    [discriminate|reflexivity|].
  apply (list_elem_of_lookup_2 _ 1). reflexivity.
Defined.




(** On the demo node with a working directory that has no version yet:
    [Remove] unlinks it and deletes nothing. *)
Lemma Remove_no_history_demo :
  Remove Scenario.unsaved Demo.requests Demo.removeOne Demo.noResponse
  = ([EvCall "fsi.Unlink" [AStr "/home/alice/pop"; AStr "alice/pop"]],
     {| rRef := "alice/pop@/ipfs/QmPopV1"; NumDeleted := 0;
        Unlinked := true; DeletedFSIFiles := false |}, Ok tt)
  ∧ NumDeleted
      (Remove Scenario.unsaved Demo.requests Demo.removeOne
         Demo.noResponse).1.2 = 0%Z.
Proof.
  split; [reflexivity|].
  exact (proj1 (Remove_no_history Scenario.unsaved Demo.requests
                  Demo.removeOne Demo.noResponse Scenario.popLinked
                  Scenario.popLinked
                  (MkErr NoHistory "repo: no history")
                  eq_refl eq_refl eq_refl eq_refl eq_refl)).
Defined.

(** X14: [Add] in this process, for a reference that parses: [p.RemoteAddr]
    ends as the address given or, when none is given, the location of the
    configured registry; [*res] is the added reference exactly when
    [AddDataset] succeeded, also when the checkout that follows fails;
    [Add] returns nil exactly when [AddDataset] succeeded and the checkout,
    if [p.LinkDir] asks for one, did too; and the checkout is called exactly
    when [AddDataset] succeeded and [p.LinkDir] is set.  A reference that
    does not parse leaves everything as it was. *)
Theorem Add_result (w : World) (r : DatasetRequests) (p : AddParams)
    (res : DatasetRef) :
  cli r = false →
  let out := Add w r (p, res) in
  match ParseDatasetRef w (aRef p) with
  | Err e => out = ([], (p, res), Err e)
  | Ok ref =>
      let addr := effectiveAddr r p in
      let added := Client_AddDataset w (RemoteClient (inst r)) ref addr in
      RemoteAddr out.1.2.1 = addr
      ∧ out.1.2.2 = match added.2 with Some _ => res | None => added.1 end
      ∧ (returnedS out = None
         ↔ added.2 = None
           ∧ (LinkDir p = ""
              ∨ Checkout w (RefString w added.1) (LinkDir p) = None))
      ∧ (EvCall "FSIMethods.Checkout"
           [AStr (RefString w added.1); AStr (LinkDir p)] ∈ out.1.1
         ↔ added.2 = None ∧ LinkDir p ≠ "")
  end.
Proof.
  intros Hcli. cbn zeta. unfold Add, effectiveAddr, returnedS.
  rewrite Hcli. run_ms.
  destruct (ParseDatasetRef w (aRef p)) as [ref|e]; cbn; [|done].
  destruct p as [pref dir paddr]. cbn.
  assert (∀ (t : list event) e',
            Forall (λ e, isCall "FSIMethods.Checkout" e = false) t →
            EvCall "FSIMethods.Checkout" e' ∉ t) as Hnot.
  { intros t e' Hall Hin. rewrite Forall_forall in Hall.
    apply Hall in Hin. done. }
  assert (∀ rw c ctx lref a,
            Forall (λ e, isCall "FSIMethods.Checkout" e = false)
              (Remote.PullLogs rw c ctx lref a).1) as Hpull.
  { intros rw c ctx lref a. unfold Remote.PullLogs.
    destruct c; [|constructor].
    unfold mbind, M_bind, emit, Remote.logsync_run, lift, liftErr. cbn.
    destruct (Remote.logsync_remoteClient rw _); cbn;
      [|by repeat constructor].
    destruct (Remote.logsync_Do rw _ _ _ _ _); by repeat constructor. }
  destruct (cfg_Registry (inst r)) as [location|];
    [case_bool_decide|]; cbn;
    match goal with
    | |- context [Remote.PullLogs ?a ?b ?c ?d ?e] =>
        pose proof (Hpull a b c d e) as Ht;
        destruct (Remote.PullLogs a b c d e) as [t [[]|e0]]
    end; cbn in *;
    match goal with
    | |- context [Client_AddDataset ?a ?b ?c ?d] =>
        destruct (Client_AddDataset a b c d) as [ref' [e1|]]
    end; cbn.
  all: try (split_and!; [done|done|intuition congruence|];
            split; [|intuition congruence]; intros Hin; exfalso;
            rewrite ?app_nil_r in Hin;
            repeat (apply elem_of_app in Hin as [Hin|Hin];
                    [by eapply Hnot|]);
            not_among Hin).
  all: case_bool_decide as Hdir; cbn.
  all: try destruct (Checkout w (RefString w ref') dir) eqn:Hco; cbn.
  all: split_and!; [done|done|intuition congruence|].
  all: split;
    [ intros Hin;
      first [ by split
            | exfalso; rewrite ?app_nil_r in Hin;
              repeat (apply elem_of_app in Hin as [Hin|Hin];
                      [by eapply Hnot|]);
              try (by eapply Hnot); not_among Hin ]
    | intros [_ Hne];
      first [ done | rewrite ?elem_of_app, ?elem_of_cons; intuition ] ].
Qed.

(** On the demo node "alice/pop" is added and no checkout is asked for. *)
Lemma Add_result_demo :
  returnedS (Add Demo.lib Demo.requests (Demo.addPop, zeroRef)) = None
  ∧ (Add Demo.lib Demo.requests (Demo.addPop, zeroRef)).1.2.2 = Demo.pop.
Proof.
  pose proof (Add_result Demo.lib Demo.requests Demo.addPop zeroRef eq_refl)
    as H.
  cbn zeta in H.
  change (ParseDatasetRef Demo.lib (aRef Demo.addPop)) with
    (Ok (A:=DatasetRef) Demo.pop) in H.
  destruct H as (_ & Hres & Hret & _).
  split; [|exact Hres].
  apply Hret. split; [reflexivity|by left].
Defined.

End LibProps.

(** ** Package core, further properties *)
Module CoreProps.
Import Core Spec.

Lemma blankProfile_idem (p : ProfilePod) :
  blankProfile (blankProfile p) = blankProfile p.
Proof. done. Qed.

Lemma blankP2P_idem (p : P2P_) : blankP2P (blankP2P p) = blankP2P p.
Proof. done. Qed.

(** X15: once [GetConfig] has run without [WithPrivateKey], the private keys
    are gone from the global configuration: a later call shows none, with
    or without [WithPrivateKey]. *)
Theorem keys_stay_blank (w : World) (cfg : Config_)
    (params1 params2 : GetConfigParams) (data1 data2 : list byte)
    (out1 : outcome) :
  WithPrivateKey params1 = false →
  GetConfig w (Some cfg) params1 data1 = Some out1 →
  keysBlank (global out1)
  ∧ GetConfig w (Some (global out1))
      {| WithPrivateKey := true; Format := Format params2;
         Concise := Concise params2; Field := Field params2 |} data2
    = GetConfig w (Some (global out1))
        {| WithPrivateKey := false; Format := Format params2;
           Concise := Concise params2; Field := Field params2 |} data2
  ∧ ∀ out2,
      GetConfig w (Some (global out1)) params2 data2 = Some out2 →
      global out2 = global out1.
Proof.
  intros Hwith Hget.
  assert (global out1 =
          {| Profile := blankProfile <$> Profile cfg;
             P2P := blankP2P <$> P2P cfg; Others := Others cfg |}) as Hglobal.
  { revert Hget. unfold GetConfig. rewrite Hwith. cbn [negb].
    repeat case_match; by intros [= <-]. }
  assert (∀ c, (c = global out1) →
            {| Profile := blankProfile <$> Profile c;
               P2P := blankP2P <$> P2P c; Others := Others c |} = c)
    as Hidem.
  { intros c ->. rewrite Hglobal. cbn.
    by destruct (Profile cfg), (P2P cfg). }
  split_and!.
  - rewrite Hglobal. split; cbn; intros p;
      [destruct (Profile cfg)|destruct (P2P cfg)]; cbn; by intros [= <-].
  - unfold GetConfig. cbn [negb WithPrivateKey].
    by rewrite (Hidem _ eq_refl).
  - intros out2. unfold GetConfig.
    destruct (negb (WithPrivateKey params2));
      rewrite ?(Hidem _ eq_refl);
      repeat case_match; by intros [= <-].
Qed.

(** On the demo configuration: after a call without [WithPrivateKey], a
    call with it prints no key. *)
Lemma keys_stay_blank_demo :
  data
    <$> GetConfig Demo.core
          (Some {| Profile := blankProfile <$> Profile Demo.config;
                   P2P := blankP2P <$> P2P Demo.config;
                   Others := Others Demo.config |})
          {| WithPrivateKey := true; Format := "json"; Concise := true;
             Field := "" |} []
  = Some (String.list_byte_of_string "profile.privkey=;p2p.privkey=").
Proof.
  destruct (keys_stay_blank Demo.core Demo.config
              {| WithPrivateKey := false; Format := "json"; Concise := true;
                 Field := "" |}
              {| WithPrivateKey := true; Format := "json"; Concise := true;
                 Field := "" |} [] []
              {| global := {| Profile := blankProfile <$> Profile Demo.config;
                              P2P := blankP2P <$> P2P Demo.config;
                              Others := Others Demo.config |};
                 data := String.list_byte_of_string
                           "profile.privkey=;p2p.privkey=";
                 returned := None |} eq_refl eq_refl) as (_ & Hsame & _).
  cbn [global Format Concise Field] in Hsame. rewrite Hsame. reflexivity.
Defined.

End CoreProps.

(** ** Package core: loading the configuration *)
Module CoreLoadProps.
Import Core CoreLoad.

(** X16: [LoadConfig] installs whatever [config.ReadFromFile] returned as
    the global [Config], also when it returns an error: a file without
    profile section is installed, and a failed read replaces the global by
    what the reader returned.  It returns nil exactly when the read
    succeeded and the configuration has a profile; its error is a fresh one
    whose message wraps the cause ("missing profile" or the reader's
    message) and the path.  The log levels of the configuration are set
    either way.  After a [LoadConfig] that returned nil, [GetConfig] does
    not panic; after one that got no configuration it does. *)
Theorem LoadConfig_installs (w : World) (cw : Core.World) (path : string)
    (out : loaded) :
  LoadConfig w path = Some out →
  Config out = (config_ReadFromFile w path).1
  ∧ (returned out = None
     ↔ (config_ReadFromFile w path).2 = None
       ∧ ∃ cfg p, Config out = Some cfg ∧ Profile cfg = Some p)
  ∧ (∀ e, returned out = Some e →
       eid e = Anon
       ∧ ∃ cause,
           Error e = couldntRead cause path
           ∧ match (config_ReadFromFile w path).2 with
             | Some e0 => cause = Error e0
             | None => cause = "missing profile"
             end)
  ∧ (∀ cfg, Config out = Some cfg →
       SetLogLevel out = from_option id [] (Logging_Levels w cfg))
  ∧ (∀ params data,
       (returned out = None →
        is_Some (GetConfig cw (Config out) params data))
       ∧ ((config_ReadFromFile w path).1 = None →
          GetConfig cw (Config out) params data = None)).
Proof.
  unfold LoadConfig.
  destruct (config_ReadFromFile w path) as [[cfg|] [e0|]]; cbn;
    try destruct (Profile cfg) as [p|] eqn:Hp; intros [= <-]; cbn.
  all: split_and!; try done.
  all: try (by intros c [= <-]).
  all: try (intros params data; split; [|done]; intros _;
            unfold GetConfig; by repeat case_match).
  all: try (intros e [= <-]; split; [done|]; by eauto).
  all: split; [|intros [Herr (c & p' & Hc & Hp')]]; try done; eauto.
  injection Hc as <-. congruence.
Qed.

(** A configuration file without profile: [LoadConfig] returns the
    error and installs the configuration all the same. *)
Lemma LoadConfig_installs_demo :
  (returned <$> LoadConfig Scenario.files "/tmp/noprofile.yaml")
  = Some (Some (Errorf (couldntRead "missing profile" "/tmp/noprofile.yaml")))
  ∧ (Config <$> LoadConfig Scenario.files "/tmp/noprofile.yaml")
    = Some (Some {| Profile := None; P2P := None; Others := [] |}).
Proof.
  split; [reflexivity|].
  destruct (LoadConfig Scenario.files "/tmp/noprofile.yaml") as [out|] eqn:H;
    [|discriminate H].
  destruct (LoadConfig_installs Scenario.files Demo.core _ out H) as [Hc _].
  cbn. rewrite Hc. reflexivity.
Defined.

End CoreLoadProps.

(** ** Package lib: Get *)
Module LibGetProps.
Import Trace LibGet.

Section Loop.
Variable w : World.

(** The loop loads the paths in order and stops at the first that fails;
    [sources] and [results] grow by the same datasets. *)
Lemma loadAll_spec (paths : list string) (sources results : list DS.Dataset) :
  ∃ (k : nat) loaded,
    (k ≤ length paths)%nat
    ∧ Forall2 (λ path ds, load w path = Ok ds) (take k paths) loaded
    ∧ (loadAll w paths sources results).1.1 = sources ++ loaded
    ∧ (loadAll w paths sources results).1.2 = results ++ loaded
    ∧ match (loadAll w paths sources results).2 with
      | None => k = length paths
      | Some err =>
          ∃ path, paths !! k = Some path ∧ load w path = Err err
      end.
Proof.
  revert sources results.
  induction paths as [|path paths IH]; intros sources results; cbn.
  { exists 0, []. rewrite !app_nil_r. by split_and!. }
  destruct (load w path) as [ds|err] eqn:Hload; cbn.
  - destruct (IH (sources ++ [ds]) (results ++ [ds]))
      as (k & loaded & Hk & Hall & Hs & Hr & Herr).
    exists (S k), (ds :: loaded). cbn.
    rewrite Hs, Hr, <- !app_assoc.
    split_and!; try first [done | lia | by constructor].
    destruct (loadAll w paths _ _).2; [done|by f_equal].
  - exists 0, []. rewrite !app_nil_r.
    split_and!; first [done | lia | by exists path].
Qed.

(** The paths that load are those the loop gets past. *)
Lemma loaded_all (paths : list string) (loaded : list DS.Dataset) :
  Forall2 (λ path ds, load w path = Ok ds) paths loaded →
  Forall (λ path, ∃ ds, load w path = Ok ds) paths.
Proof.
  induction 1 as [|path ds paths loaded Hload _ IH]; constructor;
    [by exists ds|done].
Qed.

(** [finish] panics exactly when it builds the filter without an
    instance, and it leaves [res.Sources] alone. *)
Lemma finish_panics (r : LibInst.DatasetRequests) (p : GetParams)
    (res : GetResult) (v : option value) :
  (finish w r p res v = None ↔ Filter p ≠ "" ∧ LibInst.inst r = None)
  ∧ ∀ x, finish w r p res v = Some x → Sources x.1 = Sources res.
Proof.
  unfold finish.
  destruct (decide (Filter p = "")) as [Hf|Hf].
  - rewrite bool_decide_false by (intros H; by apply H). cbn.
    split; [split; [done|by intros [? _]]|by intros x [= <-]].
  - rewrite bool_decide_true by done.
    destruct (LibInst.inst r) as [inst|]; cbn.
    + split; [split; [|by intros [_ ?]]|].
      * by destruct (filter_Apply w _ _ _).2.
      * intros x. by destruct (filter_Apply w _ _ _).2; intros [= <-].
    + by split.
Qed.

End Loop.

(** X17: [Get] in this process, called with a result that holds no source
    yet.  It loads the paths in order and stops at the first that fails:
    it returns the error of that path, [res.Sources] holds the datasets of
    the paths before it and [res.Result] is left alone.  When every path
    loads: without any path [res] is left as it was; with one path the
    dataset itself goes to the filter and the encoder; with several the
    slice of all of them does; [res.Sources] holds the datasets loaded.
    The filter is built from [r.inst.qfs]: with [p.Filter] set and
    [r.inst] nil, as [NewDatasetRequests] leaves it, [Get] panics once the
    paths, at least one, have all loaded, and in no other case.  Called
    with a result that already holds one source and with no path, [Get]
    indexes an empty slice. *)
Theorem Get_result_shape (w : World) (r : LibInst.DatasetRequests)
    (p : GetParams) (res : GetResult) :
  LibInst.cli r = false →
  (Sources res = [] →
   (∃ (k : nat) loaded,
      (k ≤ length (Paths p))%nat
      ∧ Forall2 (λ path ds, load w path = Ok ds) (take k (Paths p)) loaded
      ∧ if bool_decide (k < length (Paths p))%nat then
          ∃ path err,
            Paths p !! k = Some path ∧ load w path = Err err
            ∧ Get w r p res
              = Some ([], {| Sources := loaded; Result := Result res |},
                      Some err)
        else
          match loaded with
          | [] => Get w r p res = Some ([], res, None)
          | [ds] =>
              Get w r p res
              = (λ x, ([], x.1, x.2))
                  <$> finish w r p {| Sources := [ds]; Result := Result res |}
                        (Some (Source ds))
          | l =>
              Get w r p res
              = (λ x, ([], x.1, x.2))
                  <$> finish w r p {| Sources := l; Result := Result res |}
                        (Some (Slice l))
          end)
   ∧ (Get w r p res = None
      ↔ Paths p ≠ []
        ∧ Forall (λ path, ∃ ds, load w path = Ok ds) (Paths p)
        ∧ Filter p ≠ "" ∧ LibInst.inst r = None))
  ∧ (∀ res' v,
       (finish w r p res' v = None ↔ Filter p ≠ "" ∧ LibInst.inst r = None)
       ∧ ∀ x, finish w r p res' v = Some x → Sources x.1 = Sources res')
  ∧ (Paths p = [] → length (Sources res) = 1 → Get w r p res = None).
Proof.
  intros Hcli. split_and!.
  2:{ intros res' v. apply finish_panics. }
  2:{ intros Hpaths Hone. unfold Get. rewrite Hcli, Hpaths. cbn.
      by rewrite Hone. }
  intros Hfresh.
  assert (∃ (k : nat) loaded,
            (k ≤ length (Paths p))%nat
            ∧ Forall2 (λ path ds, load w path = Ok ds) (take k (Paths p))
                loaded
            ∧ if bool_decide (k < length (Paths p))%nat then
                ∃ path err,
                  Paths p !! k = Some path ∧ load w path = Err err
                  ∧ Get w r p res
                    = Some ([], {| Sources := loaded; Result := Result res |},
                            Some err)
              else
                match loaded with
                | [] => Get w r p res = Some ([], res, None)
                | [ds] =>
                    Get w r p res
                    = (λ x, ([], x.1, x.2))
                        <$> finish w r p
                              {| Sources := [ds]; Result := Result res |}
                              (Some (Source ds))
                | l =>
                    Get w r p res
                    = (λ x, ([], x.1, x.2))
                        <$> finish w r p
                              {| Sources := l; Result := Result res |}
                              (Some (Slice l))
                end) as Hshape.
  { unfold Get. rewrite Hcli, Hfresh.
    destruct (loadAll_spec w (Paths p) [] [])
      as (k & loaded & Hk & Hall & Hs & Hr & Herr).
    destruct (loadAll w (Paths p) [] []) as [[sources results] err].
    cbn in Hs, Hr, Herr. subst sources results.
    exists k, loaded. split; [done|]. split; [done|].
    destruct err as [err|].
    - destruct Herr as (path & Hpath & Hload).
      rewrite bool_decide_true by (by apply lookup_lt_Some in Hpath).
      by exists path, err.
    - subst k. rewrite bool_decide_false by lia. cbn [Sources length].
      destruct loaded as [|ds [|ds' loaded]]; cbn [length]; [|done..].
      by destruct res; cbn in *; subst. }
  split; [exact Hshape|].
  destruct Hshape as (k & loaded & Hk & Hall & Hget).
  case_bool_decide as Hlt.
  - destruct Hget as (path & err & Hpath & Hload & ->).
    split; [done|]. intros (_ & Hloads & _).
    rewrite Forall_lookup in Hloads.
    destruct (Hloads k path Hpath) as [ds Hds]. congruence.
  - assert (k = length (Paths p)) as -> by lia.
    rewrite firstn_all in Hall.
    pose proof (loaded_all w _ _ Hall) as Hloads.
    pose proof (Forall2_length _ _ _ Hall) as Hlen.
    destruct loaded as [|ds [|ds' loaded]].
    + rewrite Hget. split; [done|]. intros (Hne & _).
      by destruct (Paths p).
    + rewrite Hget, fmap_None.
      rewrite (proj1 (finish_panics w r p _ _)).
      split; [intros [? ?]; split_and!; try done|by intros (_ & _ & ? & ?)].
      intros Hnil. by rewrite Hnil in Hlen.
    + rewrite Hget, fmap_None.
      rewrite (proj1 (finish_panics w r p _ _)).
      split; [intros [? ?]; split_and!; try done|by intros (_ & _ & ? & ?)].
      intros Hnil. by rewrite Hnil in Hlen.
Qed.

(** On the demo repo: one path gives the dataset, two give a slice; with a
    filter, requests made from an instance hand the filter's answer on and
    requests made by [NewDatasetRequests] panic. *)
Lemma Get_result_shape_demo :
  (∃ out,
     Get Scenario.getting Scenario.bare (Scenario.getParams ["alice/pop"])
       Scenario.noResult = Some out
     ∧ Result out.1.2
       = Some (Source (DS.named Scenario.popDs "pop" "alice")))
  ∧ (∃ out,
       Get Scenario.getting Scenario.bare
         (Scenario.getParams ["alice/pop"; "alice/temp"]) Scenario.noResult
       = Some out
       ∧ Result out.1.2
         = Some (Slice [DS.named Scenario.popDs "pop" "alice";
                        DS.named Scenario.popDs "temp" "alice"]))
  ∧ (∃ out,
       Get Scenario.getting Scenario.withInstance
         (Scenario.filtering ["alice/pop"]) Scenario.noResult = Some out
       ∧ Result out.1.2 = Some (Other "filtered by meta.title"))
  ∧ Get Scenario.getting Scenario.bare (Scenario.filtering ["alice/pop"])
      Scenario.noResult = None.
Proof.
  split_and!.
  - destruct (Get_result_shape Scenario.getting Scenario.bare
                (Scenario.getParams ["alice/pop"]) Scenario.noResult
                eq_refl) as [Hfresh _].
    destruct (Hfresh eq_refl) as [_ Hpanic].
    destruct (Get Scenario.getting Scenario.bare
                (Scenario.getParams ["alice/pop"]) Scenario.noResult)
      as [out|] eqn:Hget.
    + exists out. split; [reflexivity|].
      vm_compute in Hget. by injection Hget as <-.
    + by destruct (proj1 Hpanic eq_refl) as (_ & _ & Hfilter & _).
  - destruct (Get_result_shape Scenario.getting Scenario.bare
                (Scenario.getParams ["alice/pop"; "alice/temp"])
                Scenario.noResult eq_refl) as [Hfresh _].
    destruct (Hfresh eq_refl) as [_ Hpanic].
    destruct (Get Scenario.getting Scenario.bare
                (Scenario.getParams ["alice/pop"; "alice/temp"])
                Scenario.noResult) as [out|] eqn:Hget.
    + exists out. split; [reflexivity|].
      vm_compute in Hget. by injection Hget as <-.
    + by destruct (proj1 Hpanic eq_refl) as (_ & _ & Hfilter & _).
  - destruct (Get_result_shape Scenario.getting Scenario.withInstance
                (Scenario.filtering ["alice/pop"]) Scenario.noResult
                eq_refl) as [Hfresh _].
    destruct (Hfresh eq_refl) as [_ Hpanic].
    destruct (Get Scenario.getting Scenario.withInstance
                (Scenario.filtering ["alice/pop"]) Scenario.noResult)
      as [out|] eqn:Hget.
    + exists out. split; [reflexivity|].
      vm_compute in Hget. by injection Hget as <-.
    + by destruct (proj1 Hpanic eq_refl) as (_ & _ & _ & Hinst).
  - destruct (Get_result_shape Scenario.getting Scenario.bare
                (Scenario.filtering ["alice/pop"]) Scenario.noResult
                eq_refl) as [Hfresh _].
    destruct (Hfresh eq_refl) as [_ Hpanic].
    apply Hpanic. split_and!; [done| |done|done].
    repeat constructor. by eexists.
Defined.

End LibGetProps.

(** ** Package lib: List *)
Module LibListProps.
Import Trace LibList.

Lemma stripSchema_spec (refs refs' : list DSRef.DatasetRef) :
  mapM stripSchema refs = Some refs' →
  Forall2
    (λ rep rep',
       ∃ ds, DSRef.Dataset rep = Some ds
             ∧ rep' = DSRef.setDataset rep
                        (Some match DS.Structure ds with
                              | Some s =>
                                  DS.setStructure ds
                                    (Some {| DS.Format := DS.Format s;
                                             DS.Schema := None |})
                              | None => ds
                              end))
    refs refs'.
Proof.
  intros H. apply mapM_Some_1 in H.
  eapply Forall2_impl; [done|].
  intros rep rep'. unfold stripSchema.
  destruct (DSRef.Dataset rep) as [ds|]; [|done].
  intros [= <-]. by exists ds.
Qed.

Lemma stripSchema_no_schema (refs refs' : list DSRef.DatasetRef) :
  mapM stripSchema refs = Some refs' →
  Forall (λ rep, ∃ ds, DSRef.Dataset rep = Some ds
                       ∧ ∀ s, DS.Structure ds = Some s → DS.Schema s = None)
    refs'.
Proof.
  intros H. apply stripSchema_spec in H.
  induction H as [|rep rep' refs refs' (ds & Hds & ->) _ IH]; constructor;
    [|done].
  cbn. eexists. split; [done|].
  destruct (DS.Structure ds) eqn:Hst; cbn.
  - by intros s' [= <-].
  - intros s'. congruence.
Qed.

(** The end of [List], once the lister has answered. *)
Lemma listed_spec (t : list event) (p : ListParams)
    (res : list DSRef.DatasetRef) (refs : result (list DSRef.DatasetRef)) :
  (∀ out, listed t p res refs = Some out →
     out.1.1 = t ∧ out.1.2.1 = p
     ∧ (out.2 ≠ None → out.1.2.2 = res)
     ∧ (out.2 = None → RPC p = true → Forall Spec2.noSchema out.1.2.2)
     ∧ Spec2.listedAs (RPC p) refs out.1.2.2 out.2)
  ∧ (listed t p res refs = None
     ↔ RPC p = true
       ∧ ∃ l, refs = Ok l ∧ Exists (λ rep, DSRef.Dataset rep = None) l).
Proof.
  unfold listed, Spec2.listedAs.
  destruct refs as [l|err].
  2:{ split; [by intros out [= <-]|].
      split; [done|by intros (_ & l & ? & _)]. }
  destruct (RPC p) eqn:HRPC.
  2:{ split; [by intros out [= <-]|].
      split; [done|by intros (? & _)]. }
  destruct (mapM stripSchema l) as [l'|] eqn:Hstrip.
  - split.
    + intros out [= <-]. cbn. split_and!; try done.
      intros _ _. by apply stripSchema_no_schema in Hstrip.
    + split; [done|]. intros (_ & l0 & [= <-] & Hex).
      assert (mapM stripSchema l = None) as Hnone; [|congruence].
      apply mapM_None. eapply Exists_impl; [done|].
      intros rep Hrep. unfold stripSchema. by rewrite Hrep.
  - split; [done|]. split; [|done]. intros _. split; [done|].
    exists l. split; [done|].
    apply mapM_None in Hstrip. eapply Exists_impl; [done|].
    intros rep. unfold stripSchema.
    by destruct (DSRef.Dataset rep).
Qed.

(** X18: [List] in this process asks a lister for a positive limit and a
    non-negative offset: a limit of zero or less becomes 25, a negative
    offset becomes 0, and [p] is left with these values.  An error of
    [CanonicalizeProfile] is returned as "error canonicalizing peer: ...",
    an error of [Profile] as it is, and no lister is called.  Otherwise
    [List] makes one listing call: [base.ListDatasets] (term, limit,
    offset, [p.RPC], [p.Published], [p.ShowNumVersions]) when the canonical
    peername is empty or the node's own; the remote client's [ListDatasets]
    (canonical reference, term, offset, limit) when it is neither, which
    reads [r.inst].  The lister's error is returned; on any error [*res] is
    as it was.  Without error [*res] holds the references listed; with
    [p.RPC] set every one of them has a dataset and that dataset has no
    schema.  [List] panics exactly when it turns to the remote client with
    [r.inst] nil, as [NewDatasetRequests] leaves it, or, with [p.RPC] set,
    when a listed reference has no dataset. *)
Theorem List_normalises (w : World) (r : LibInst.DatasetRequests)
    (p : ListParams) (res : list DSRef.DatasetRef) :
  LibInst.cli r = false →
  let limit := if bool_decide (Limit p ≤ 0)%Z then 25%Z else Limit p in
  let offset := if bool_decide (Offset p < 0)%Z then 0%Z else Offset p in
  let canon :=
    CanonicalizeProfile w
      {| DSRef.Peername := Peername p; DSRef.ProfileID := ProfileID p;
         DSRef.Name := ""; DSRef.Path := ""; DSRef.FSIPath := "";
         DSRef.Published := false; DSRef.Dataset := None |} in
  let ref := canon.1 in
  let own pro := DSRef.Peername ref = "" ∨ pro = DSRef.Peername ref in
  let listing pro :=
    if decide (own pro) then
      base_ListDatasets w (Term p) limit offset (RPC p) (Published p)
        (ShowNumVersions p)
    else remoteClient_ListDatasets w ref (Term p) offset limit in
  ((0 < limit)%Z ∧ (0 ≤ offset)%Z)
  ∧ (∀ out, List w r p res = Some out →
       Limit out.1.2.1 = limit ∧ Offset out.1.2.1 = offset
       ∧ (out.1.1 = []
          ∨ out.1.1 = [EvCall "base.ListDatasets"
                         [AStr (Term p); AInt limit; AInt offset]]
          ∨ out.1.1 = [EvCall "remoteClient.ListDatasets"
                         [AStr (Term p); AInt offset; AInt limit]])
       ∧ (out.2 ≠ None → out.1.2.2 = res)
       ∧ (out.2 = None → RPC p = true → Forall Spec2.noSchema out.1.2.2)
       ∧ (∀ err, canon.2 = Some err →
            out.1.1 = []
            ∧ out.2 = Some (Errorf ("error canonicalizing peer: "
                                    +:+ Error err)))
       ∧ (∀ err, canon.2 = None → Profile_Peername w = Err err →
            out.1.1 = [] ∧ out.2 = Some err)
       ∧ (∀ pro, canon.2 = None → Profile_Peername w = Ok pro →
            out.1.1
            = [if decide (own pro) then
                 EvCall "base.ListDatasets"
                   [AStr (Term p); AInt limit; AInt offset]
               else
                 EvCall "remoteClient.ListDatasets"
                   [AStr (Term p); AInt offset; AInt limit]]
            ∧ (¬ own pro → LibInst.inst r ≠ None)
            ∧ Spec2.listedAs (RPC p) (listing pro) out.1.2.2 out.2))
  ∧ (List w r p res = None
     ↔ canon.2 = None
       ∧ ∃ pro, Profile_Peername w = Ok pro
         ∧ ((¬ own pro ∧ LibInst.inst r = None)
            ∨ (RPC p = true
               ∧ ∃ refs, listing pro = Ok refs
                 ∧ Exists (λ rep, DSRef.Dataset rep = None) refs))).
Proof.
  intros Hcli. unfold List. rewrite Hcli. cbn zeta.
  set (p1 := if bool_decide (Limit p ≤ 0)%Z then setLimit p 25 else p).
  set (p2 := if bool_decide (Offset p1 < 0)%Z then setOffset p1 0 else p1).
  assert (Limit p2 = if bool_decide (Limit p ≤ 0)%Z then 25%Z else Limit p)
    as Hlimit.
  { subst p2 p1. by repeat case_bool_decide. }
  assert (Offset p2 = if bool_decide (Offset p < 0)%Z then 0%Z else Offset p)
    as Hoffset.
  { subst p2 p1. by repeat case_bool_decide. }
  assert (Term p2 = Term p ∧ RPC p2 = RPC p ∧ Published p2 = Published p
          ∧ ShowNumVersions p2 = ShowNumVersions p
          ∧ Peername p2 = Peername p ∧ ProfileID p2 = ProfileID p)
    as (Hterm & Hrpc & Hpub & Hshow & Hpeer & Hid).
  { subst p2 p1. by repeat case_bool_decide. }
  assert (0 < Limit p2 ∧ 0 ≤ Offset p2)%Z as [Hpos Hnonneg].
  { rewrite Hlimit, Hoffset. repeat case_bool_decide; lia. }
  rewrite <- Hlimit, <- Hoffset, <- Hterm, <- Hrpc, <- Hpub, <- Hshow.
  rewrite Hpeer, Hid.
  split; [done|].
  destruct (CanonicalizeProfile w _) as [ref [err|]]; cbn.
  { split; [|split; [done|by intros [? _]]].
    intros out [= <-]. cbn. split_and!; try done; [by left|..].
    by intros err' [= <-]. }
  destruct (Profile_Peername w) as [pro|err]; cbn.
  2:{ split; [|split; [done|by intros (_ & pro & ? & _)]].
      intros out [= <-]. cbn. split_and!; try done; [by left|..].
      by intros err' _ [= <-]. }
  destruct (decide (DSRef.Peername ref = "")) as [Hempty|Hempty];
    [|destruct (decide (pro = DSRef.Peername ref)) as [Hown|Hown]].
  - rewrite (bool_decide_true _ Hempty). cbn.
    destruct (listed_spec
                [EvCall "base.ListDatasets"
                   [AStr (Term p2); AInt (Limit p2); AInt (Offset p2)]]
                p2 res
                (base_ListDatasets w (Term p2) (Limit p2) (Offset p2)
                   (RPC p2) (Published p2) (ShowNumVersions p2)))
      as [Hsome Hnone].
    split.
    + intros out Hout. destruct (Hsome out Hout) as (Ht & -> & ? & ? & ?).
      split_and!; try done; [right; by left|].
      intros pro' _ [= <-]. rewrite !decide_True by (by left).
      split_and!; [done|intros Hn; destruct Hn; by left|done].
    + rewrite Hnone. split.
      * intros (? & refs & ? & ?). split; [done|]. exists pro.
        split; [done|]. right. split; [done|]. exists refs.
        by rewrite decide_True by (by left).
      * intros (_ & pro' & [= <-] & [[Hno _]|(? & refs & Hl & ?)]).
        { destruct Hno. by left. }
        rewrite decide_True in Hl by (by left). split; [done|].
        by exists refs.
  - rewrite (bool_decide_true _ Hown), orb_true_r. cbn.
    destruct (listed_spec
                [EvCall "base.ListDatasets"
                   [AStr (Term p2); AInt (Limit p2); AInt (Offset p2)]]
                p2 res
                (base_ListDatasets w (Term p2) (Limit p2) (Offset p2)
                   (RPC p2) (Published p2) (ShowNumVersions p2)))
      as [Hsome Hnone].
    split.
    + intros out Hout. destruct (Hsome out Hout) as (Ht & -> & ? & ? & ?).
      split_and!; try done; [right; by left|].
      intros pro' _ [= <-]. rewrite !decide_True by (by right).
      split_and!; [done|intros Hn; destruct Hn; by right|done].
    + rewrite Hnone. split.
      * intros (? & refs & ? & ?). split; [done|]. exists pro.
        split; [done|]. right. split; [done|]. exists refs.
        by rewrite decide_True by (by right).
      * intros (_ & pro' & [= <-] & [[Hno _]|(? & refs & Hl & ?)]).
        { destruct Hno. by right. }
        rewrite decide_True in Hl by (by right). split; [done|].
        by exists refs.
  - rewrite (bool_decide_false _ Hempty), (bool_decide_false _ Hown). cbn.
    assert (¬ (DSRef.Peername ref = "" ∨ pro = DSRef.Peername ref))
      as Hother by (by intros []).
    destruct (LibInst.inst r) as [inst|].
    2:{ split; [done|]. split; [|done]. intros _. split; [done|].
        exists pro. split; [done|]. by left. }
    destruct (listed_spec
                [EvCall "remoteClient.ListDatasets"
                   [AStr (Term p2); AInt (Offset p2); AInt (Limit p2)]]
                p2 res
                (remoteClient_ListDatasets w ref (Term p2) (Offset p2)
                   (Limit p2)))
      as [Hsome Hnone].
    split.
    + intros out Hout. destruct (Hsome out Hout) as (Ht & -> & ? & ? & ?).
      split_and!; try done; [right; by right|].
      intros pro' _ [= <-]. rewrite !decide_False by done.
      split_and!; done.
    + rewrite Hnone. split.
      * intros (? & refs & ? & ?). split; [done|]. exists pro.
        split; [done|]. right. split; [done|]. exists refs.
        by rewrite decide_False by done.
      * intros (_ & pro' & [= <-] & [[_ ?]|(? & refs & Hl & ?)]); [done|].
        rewrite decide_False in Hl by done. split; [done|].
        by exists refs.
Qed.

(** On the demo repo, asked over RPC with limit 0 and offset -3; and asked
    for the datasets of another peer, by requests made from an instance and
    by requests made by [NewDatasetRequests]. *)
Lemma List_normalises_demo :
  (∃ out,
     List Scenario.listing Scenario.bare Scenario.listParams [] = Some out
     ∧ Limit out.1.2.1 = 25%Z ∧ Offset out.1.2.1 = 0%Z
     ∧ out.1.1 = [EvCall "base.ListDatasets" [AStr ""; AInt 25; AInt 0]]
     ∧ Forall Spec2.noSchema out.1.2.2)
  ∧ (∃ out,
       List Scenario.listing Scenario.withInstance Scenario.listBob []
       = Some out
       ∧ out.1.1
         = [EvCall "remoteClient.ListDatasets" [AStr ""; AInt 0; AInt 10]])
  ∧ List Scenario.listing Scenario.bare Scenario.listBob [] = None.
Proof.
  split_and!.
  - eexists. split; [reflexivity|].
    destruct (List_normalises Scenario.listing Scenario.bare
                Scenario.listParams [] eq_refl) as (_ & Hsome & _).
    destruct (Hsome _ eq_refl)
      as (Hlimit & Hoffset & _ & _ & Hschema & _ & _ & Hcall).
    destruct (Hcall "alice" eq_refl eq_refl) as (Ht & _).
    split_and!;
      [exact Hlimit|exact Hoffset|exact Ht|exact (Hschema eq_refl eq_refl)].
  - eexists. split; [reflexivity|].
    destruct (List_normalises Scenario.listing Scenario.withInstance
                Scenario.listBob [] eq_refl) as (_ & Hsome & _).
    destruct (Hsome _ eq_refl) as (_ & _ & _ & _ & _ & _ & _ & Hcall).
    destruct (Hcall "alice" eq_refl eq_refl) as (Ht & _).
    exact Ht.
  - destruct (List_normalises Scenario.listing Scenario.bare
                Scenario.listBob [] eq_refl) as (_ & _ & Hpanic).
    apply Hpanic. split; [reflexivity|]. exists "alice".
    split; [reflexivity|]. left. split; [|reflexivity].
    by intros [|].
Defined.

End LibListProps.

(** ** Package lib: the smaller requests *)
Module LibRequestsProps.
Import Trace Spec2 LibRequests.

(** Unfolds the combinators of [MS]. *)
Ltac run_ms :=
  unfold mbind, MS_bind, mret, MS_ret, liftS, liftErrS, liftM, modify, get,
    emitS, failS, call; cbn.

(** [SetPublishStatus] in this process, in closed form. *)
Lemma SetPublishStatus_run (w : World) (r : Lib.DatasetRequests)
    (p : SetPublishStatusParams) (res : DSRef.DatasetRef) :
  Lib.cli r = false →
  SetPublishStatus w r p res =
  match ParseDatasetRef w (Ref p) with
  | Err e => ([], res, Err e)
  | Ok ref =>
      let canon := CanonicalizeDatasetRef w ref in
      match canon.2 with
      | Some e => ([], res, Err e)
      | None =>
          let ref := DSRef.setPublished canon.1 (PublishStatus p) in
          let set := base_SetPublishStatus w ref (PublishStatus p) in
          ([EvCall "base.SetPublishStatus" [AStr (RefString w ref)]],
           match set.2 with None => set.1 | Some _ => res end,
           match set.2 with None => Ok tt | Some e => Err e end)
      end
  end.
Proof.
  intros Hcli. unfold SetPublishStatus. rewrite Hcli. run_ms.
  destruct (ParseDatasetRef w (Ref p)) as [ref|e]; cbn; [|done].
  destruct (CanonicalizeDatasetRef w ref) as [ref' [e|]]; cbn; [done|].
  by destruct (base_SetPublishStatus w _ _) as [ref'' [e|]].
Qed.

(** X19: Run in this process, [SetPublishStatus], [Rename], [Manifest],
    [ManifestMissing] and [DAGInfo] write their result only when they
    return nil: after an error the result is as the caller passed it.
    [Validate] differs: once the arguments are accepted and the reference
    parses, [*errors] is what [base.Validate] returned, with or without an
    error.  [Rename] refuses an empty current reference before it calls
    anything; past that test [p.Current] and [p.New] are left as the calls
    into package base wrote them, also when [Rename] fails, and on success
    the result is the final [p.New].  [SetPublishStatus] hands on the
    canonical reference with [Published] set to the requested status. *)
Theorem results_written_on_success (w : World) (r : Lib.DatasetRequests) :
  Lib.cli r = false →
  (∀ p res e,
     (SetPublishStatus w r p res).2 = Err e →
     (SetPublishStatus w r p res).1.2 = res)
  ∧ (∀ p res ref,
       ParseDatasetRef w (Ref p) = Ok ref →
       (CanonicalizeDatasetRef w ref).2 = None →
       let asked :=
         DSRef.setPublished (CanonicalizeDatasetRef w ref).1
           (PublishStatus p) in
       (SetPublishStatus w r p res).1.1
       = [EvCall "base.SetPublishStatus" [AStr (RefString w asked)]]
       ∧ ((SetPublishStatus w r p res).2 = Ok tt →
          base_SetPublishStatus w asked (PublishStatus p)
          = ((SetPublishStatus w r p res).1.2, None)))
  ∧ (∀ refstr m e,
       (Manifest_ w r refstr m).2 = Err e → (Manifest_ w r refstr m).1.2 = m)
  ∧ (∀ a b e,
       (ManifestMissing w r a b).2 = Err e → (ManifestMissing w r a b).1.2 = b)
  ∧ (∀ s i e, (DAGInfo w r s i).2 = Err e → (DAGInfo w r s i).1.2 = i)
  ∧ (∀ p res,
       let out := Rename w r (p, res) in
       (∀ e, out.2 = Err e → out.1.2.2 = res)
       ∧ (out.2 = Ok tt → out.1.2.2 = New out.1.2.1)
       ∧ if IsEmpty w (Current p) then
           out = ([], (p, res),
                  Err (Errorf "current name is required to rename a dataset"))
         else
           let m := base_ModifyDatasetRef w (Current p) (New p) true in
           Current out.1.2.1 = m.1.1
           ∧ New out.1.2.1
             = match m.2 with
               | Some _ => m.1.2
               | None => (base_ReadDataset w m.1.2).1
               end)
  ∧ (∀ p errors ref,
       (vRef p ≠ "" ∨ Body p ≠ None ∨ Schema p ≠ None) →
       (if bool_decide (vRef p = "") then Ok DSRef.zero
        else ParseDatasetRef w (vRef p)) = Ok ref →
       let v :=
         base_Validate w ref
           (option_map (λ rd, {| FileName := BodyFilename p; Reader := rd |})
              (Body p))
           (option_map (λ rd, {| FileName := "schema.json"; Reader := rd |})
              (Schema p)) in
       (Validate w r p errors).1.2 = v.1
       ∧ returnedS (Validate w r p errors) = v.2).
Proof.
  intros Hcli. split_and!.
  - intros p res e. rewrite SetPublishStatus_run by done.
    destruct (ParseDatasetRef w (Ref p)) as [ref|e']; cbn; [|done].
    destruct (CanonicalizeDatasetRef w ref) as [ref' [e'|]]; cbn; [done|].
    by destruct (base_SetPublishStatus w _ _) as [ref'' [e'|]].
  - intros p res ref Hparse Hcanon. cbn zeta.
    rewrite SetPublishStatus_run by done. rewrite Hparse. cbn zeta.
    rewrite Hcanon. cbn. split; [done|].
    destruct (base_SetPublishStatus w _ _) as [ref' [e|]]; cbn; [done|].
    done.
  - intros refstr m e. unfold Manifest_. rewrite Hcli. run_ms.
    repeat (case_match; cbn); congruence.
  - intros a b e. unfold ManifestMissing. rewrite Hcli. run_ms.
    repeat (case_match; cbn); congruence.
  - intros s i e. unfold DAGInfo. rewrite Hcli. run_ms.
    repeat (case_match; cbn); congruence.
  - intros p res. cbn zeta. unfold Rename. rewrite Hcli. run_ms.
    destruct (IsEmpty w (Current p)); cbn; [by split_and!|].
    destruct (base_ModifyDatasetRef w _ _ _) as [[cur new] [e|]]; cbn;
      [by split_and!|].
    destruct (base_ReadDataset w new) as [new' [e|]]; cbn; by split_and!.
  - intros p errors ref Hargs Href. cbn zeta. unfold Validate.
    rewrite Hcli.
    assert (bool_decide (vRef p = "") && bool_decide (Body p = None)
            && bool_decide (Schema p = None) = false) as ->.
    { rewrite !andb_false_iff, !bool_decide_eq_false. tauto. }
    run_ms. revert Href.
    destruct (decide (vRef p = "")) as [Hr|Hr].
    + rewrite (bool_decide_true _ Hr), bool_decide_false by naive_solver.
      intros [= <-]. cbn.
      destruct (Body p), (Schema p); cbn;
        by destruct (base_Validate w _ _ _) as [v [e|]].
    + rewrite (bool_decide_false _ Hr), bool_decide_true by done.
      intros ->. cbn.
      destruct (Body p), (Schema p); cbn;
        by destruct (base_Validate w _ _ _) as [v [e|]].
Qed.

(** On alice's repo: [Validate] hands back the list of [base.Validate]
    together with its error. *)
Lemma results_written_on_success_demo :
  (Validate Scenario.lesser Demo.requests Scenario.validatePop []).1.2
  = [{| PropertyPath := "/0/1"; Message := "type should be integer" |}]
  ∧ returnedS (Validate Scenario.lesser Demo.requests Scenario.validatePop [])
    = Some (Errorf "validation failed").
Proof.
  destruct (results_written_on_success Scenario.lesser Demo.requests eq_refl)
    as (_ & _ & _ & _ & _ & _ & Hvalidate).
  apply (Hvalidate Scenario.validatePop []
           Scenario.parsedPop).
  - left. done.
  - reflexivity.
Defined.

End LibRequestsProps.

(** ** Package lib: Save *)
Module LibSaveProps.
Import Trace Spec2 LibSave.

(** Unfolds the combinators of [MS]. *)
Ltac run_ms :=
  unfold mbind, MS_bind, mret, MS_ret, liftS, liftErrS, liftM, modify, get,
    emitS, failS, LibRequests.call; cbn.

Section Paths.
Variable w : World.

Lemma absAll_spec (paths : list string) :
  ∃ k : nat,
    (k ≤ length paths)%nat
    ∧ length (absAll w paths).1 = length paths
    ∧ (∀ (i : nat) path,
         (i < k)%nat → paths !! i = Some path →
         (AbsPath w path).2 = None
         ∧ (absAll w paths).1 !! i = Some (AbsPath w path).1)
    ∧ drop (S k) (absAll w paths).1 = drop (S k) paths
    ∧ if bool_decide (k < length paths)%nat then
        ∃ path err,
          paths !! k = Some path ∧ (AbsPath w path).2 = Some err
          ∧ (absAll w paths).1 !! k = Some (AbsPath w path).1
          ∧ (absAll w paths).2 = Some err
      else (absAll w paths).2 = None.
Proof.
  induction paths as [|path paths (k & Hk & Hlen & Hbefore & Hafter & Hat)];
    cbn.
  { exists 0%nat. split_and!; try done; intros i path Hi; lia. }
  destruct (AbsPath w path) as [abs [err|]] eqn:Habs; cbn.
  - exists 0%nat. split_and!.
    + lia.
    + done.
    + intros i path' Hi. lia.
    + done.
    + rewrite bool_decide_true by lia. exists path, err. by rewrite Habs.
  - exists (S k). split_and!.
    + lia.
    + by rewrite Hlen.
    + intros [|i] path' Hi; cbn.
      * intros [= <-]. by rewrite Habs.
      * apply Hbefore. lia.
    + done.
    + destruct (decide (k < length paths)%nat) as [Hlt|Hlt].
      * rewrite bool_decide_true in Hat by done.
        rewrite bool_decide_true by lia. done.
      * rewrite bool_decide_false in Hat by done.
        rewrite bool_decide_false by lia. done.
Qed.

End Paths.

(** X20: [AbsolutizePaths] is safe on a nil receiver.  Otherwise it changes
    nothing of [p] but the paths, keeps the number of file paths, and
    converts them in order up to the first that fails: the paths before it
    are converted, the failing one is as [qfs.AbsPath] left it, the later
    ones and [p.BodyPath] are untouched and the error is the one
    [qfs.AbsPath] returned.  When every file path converts, [p.BodyPath] is
    converted last; its error comes back as a new error whose message
    starts with "body file: ". *)
Theorem AbsolutizePaths_spec (w : World) (p : SaveParams) :
  AbsolutizePaths w None = (None, None)
  ∧ ∃ q (k : nat),
      (AbsolutizePaths w (Some p)).1 = Some q
      ∧ q = setPaths p (FilePaths q) (BodyPath q)
      ∧ length (FilePaths q) = length (FilePaths p)
      ∧ (k ≤ length (FilePaths p))%nat
      ∧ (∀ (i : nat) path,
           (i < k)%nat → FilePaths p !! i = Some path →
           (AbsPath w path).2 = None
           ∧ FilePaths q !! i = Some (AbsPath w path).1)
      ∧ drop (S k) (FilePaths q) = drop (S k) (FilePaths p)
      ∧ if bool_decide (k < length (FilePaths p))%nat then
          ∃ path err,
            FilePaths p !! k = Some path ∧ (AbsPath w path).2 = Some err
            ∧ FilePaths q !! k = Some (AbsPath w path).1
            ∧ (AbsolutizePaths w (Some p)).2 = Some err
            ∧ BodyPath q = BodyPath p
        else
          BodyPath q = (AbsPath w (BodyPath p)).1
          ∧ (AbsolutizePaths w (Some p)).2
            = match (AbsPath w (BodyPath p)).2 with
              | Some err => Some (Errorf ("body file: " +:+ Error err))
              | None => None
              end.
Proof.
  split; [done|]. unfold AbsolutizePaths.
  destruct (absAll_spec w (FilePaths p))
    as (k & Hk & Hlen & Hbefore & Hafter & Hat).
  destruct (decide (k < length (FilePaths p))%nat) as [Hlt|Hlt].
  - rewrite bool_decide_true in Hat by done.
    destruct Hat as (path & err & Hpath & Herr & Hq & Hret).
    rewrite Hret. eexists _, k. split; [done|]. cbn.
    rewrite bool_decide_true by done. split_and!; try done.
    by exists path, err.
  - rewrite bool_decide_false in Hat by done. rewrite Hat.
    eexists _, k. split; [done|]. cbn.
    rewrite bool_decide_false by done. by split_and!.
Qed.

Section Save.
Variable w : World.
Variable r : Lib.DatasetRequests.
Hypothesis Hcli : Lib.cli r = false.

Lemma prepare_quiet (p : SaveParams) (ref : DSRef.DatasetRef)
    (res : DSRef.DatasetRef) :
  (prepare w p ref res).1.1 = [] ∧ (prepare w p ref res).1.2 = res.
Proof.
  unfold prepare. run_ms.
  destruct (ReadFSI p); cbn.
  - destruct (CanonicalizeDatasetRef w ref) as [ref' [e|]]; cbn.
    + case_bool_decide; cbn; [done|].
      case_bool_decide; cbn; [done|].
      destruct (fsi_ReadDir w _); cbn; [|done].
      case_bool_decide; cbn.
      * destruct (base_Recall w _ _); cbn; [|done].
        case_bool_decide; cbn; [|done].
        by destruct (ReadDatasetFiles w _).
      * case_bool_decide; cbn; [|done].
        by destruct (ReadDatasetFiles w _).
    + case_bool_decide; cbn; [done|].
      destruct (fsi_ReadDir w _); cbn; [|done].
      case_bool_decide; cbn.
      * destruct (base_Recall w _ _); cbn; [|done].
        case_bool_decide; cbn; [|done].
        by destruct (ReadDatasetFiles w _).
      * case_bool_decide; cbn; [|done].
        by destruct (ReadDatasetFiles w _).
  - case_bool_decide; cbn.
    + destruct (base_Recall w _ _); cbn; [|done].
      case_bool_decide; cbn; [|done].
      by destruct (ReadDatasetFiles w _).
    + case_bool_decide; cbn; [|done].
      by destruct (ReadDatasetFiles w _).
Qed.

Lemma finish_spec (p : SaveParams) (fsiPath : string)
    (ref res : DSRef.DatasetRef) :
  let out := finish w r p fsiPath ref res in
  Forall (λ e, isCall "base.SaveDataset" e = false) out.1.1
  ∧ match out.2 with
    | Err _ => out.1.2 = res
    | Ok _ =>
        DSRef.Peername out.1.2 = DSRef.Peername ref
        ∧ DSRef.ProfileID out.1.2 = DSRef.ProfileID ref
        ∧ DSRef.Name out.1.2 = DSRef.Name ref
        ∧ DSRef.Path out.1.2 = DSRef.Path ref
        ∧ DSRef.Published out.1.2 = DSRef.Published ref
        ∧ (if bool_decide (fsiPath = "") then
             DSRef.FSIPath out.1.2 = DSRef.FSIPath ref
           else
             DSRef.FSIPath out.1.2 = fsiPath
             ∧ PutRef w (DSRef.setFSIPath ref fsiPath) = None)
        ∧ (ReturnBody p = false → DSRef.Dataset out.1.2 = DSRef.Dataset ref)
    end.
Proof.
  cbn zeta. unfold finish. run_ms.
  destruct (decide (fsiPath = "")) as [Hfsi|Hfsi].
  - rewrite (bool_decide_true _ Hfsi), bool_decide_false by naive_solver.
    cbn.
    destruct (ReturnBody p); cbn;
      [destruct (InlineJSONBody w _) as [ds [e|]]; cbn;
       [by split; [constructor|]|]|];
      (destruct (Publish p); cbn;
       [rewrite LibRequestsProps.SetPublishStatus_run by done;
        destruct (LibRequests.ParseDatasetRef _ _) as [ref1|e]; cbn;
        [|by split; [constructor|]];
        destruct (LibRequests.CanonicalizeDatasetRef _ _) as [ref2 [e|]]; cbn;
        [by split; [constructor|]|];
        destruct (LibRequests.base_SetPublishStatus _ _ _) as [ref3 [e|]];
        cbn; [by split; [repeat constructor|]|]|]);
      destruct (WriteFSI p); cbn;
      (split; [by repeat constructor|by split_and!]).
  - rewrite (bool_decide_false _ Hfsi), bool_decide_true by done.
    cbn.
    destruct (PutRef w _) as [e|] eqn:Hput; cbn;
      [by split; [repeat constructor|]|].
    destruct (ReturnBody p); cbn;
      [destruct (InlineJSONBody w _) as [ds [e|]]; cbn;
       [by split; [repeat constructor|]|]|];
      (destruct (Publish p); cbn;
       [rewrite LibRequestsProps.SetPublishStatus_run by done;
        destruct (LibRequests.ParseDatasetRef _ _) as [ref1|e]; cbn;
        [|by split; [repeat constructor|]];
        destruct (LibRequests.CanonicalizeDatasetRef _ _) as [ref2 [e|]]; cbn;
        [by split; [repeat constructor|]|];
        destruct (LibRequests.base_SetPublishStatus _ _ _) as [ref3 [e|]];
        cbn; [by split; [repeat constructor|]|]|]);
      destruct (WriteFSI p); cbn;
      (split; [by repeat constructor|by split_and!]).
Qed.

(** The ways [Save] runs in this process. *)
Lemma Save_cases (p : SaveParams) (res : DSRef.DatasetRef) :
  let out := Save w r p res in
  (out.1.1 = [] ∧ out.1.2 = res ∧ (∃ e, out.2 = Err e))
  ∨ (∃ err,
       out = ([EvLog DebugLevel "open ds error: %s" [AStr (Error err)]],
              res, Err err))
  ∨ (Private p = false
     ∧ ∃ ref0 ref1 ds,
         ParseDatasetRef w (Ref p) = Ok ref0
         ∧ (prepare w p ref0 res).2 = Ok (ref1, ds)
         ∧ DS.Name ds ≠ ""
         ∧ (unchanged ds = true → Force p = true)
         ∧ (OpenDataset w ds).2 = None
         ∧ let call :=
             EvCall "base.SaveDataset" [AStr (DS.Name (OpenDataset w ds).1)] in
           match base_SaveDataset w (OpenDataset w ds).1 (Secrets p)
                   (ScriptOutput p) (switches p) with
           | Err err =>
               out = ([call;
                       EvLog DebugLevel
                         ("create ds error: %s" +:+ Actions.newline)
                         [AStr (Error err)]], res, Err err)
           | Ok ref =>
               let f := finish w r p (DSRef.FSIPath ref1) ref res in
               out = (call :: f.1.1, f.1.2, f.2)
           end).
Proof.
  cbn zeta. unfold Save. rewrite Hcli.
  destruct (Private p); [left; cbn; by eauto|].
  unfold mbind, MS_bind, mret, MS_ret, liftS, liftErrS, liftM, modify, get,
    emitS, failS.
  cbn -[prepare finish].
  destruct (ParseDatasetRef w (Ref p)) as [ref0|e] eqn:Hparse;
    cbn -[prepare finish]; [|left; by eauto].
  destruct (prepare_quiet p ref0 res) as [Ht Hs].
  destruct (prepare w p ref0 res) as [[t s] [[ref ds]|e]] eqn:Hprepare;
    cbn in Ht, Hs; subst t s; cbn -[finish]; [|left; by eauto].
  case_bool_decide as Hname; cbn -[finish]; [left; by eauto|].
  destruct (negb (Force p) && unchanged ds) eqn:Hguard; cbn -[finish];
    [left; by eauto|].
  destruct (OpenDataset w ds) as [ds' [e|]] eqn:Hopen; cbn -[finish];
    [right; left; by eauto|].
  right. right. split; [done|].
  exists ref0, ref, ds. rewrite Hopen, Hprepare. cbn -[finish].
  split_and!; try done.
  { intros Hun. rewrite Hun, andb_true_r in Hguard.
    by apply negb_false_iff in Hguard. }
  destruct (base_SaveDataset w ds' _ _ _) as [saved|e]; cbn -[finish];
    [|done].
  by destruct (finish w r p (DSRef.FSIPath ref) saved res) as [[t s] x].
Qed.

End Save.

(** X21: [Save] in this process writes [*res] only when it returns nil; after
    any error [*res] is as the caller passed it.  A request with [Private]
    set is refused before anything is read.  When [Save] returns nil, the
    reference parsed, and the dataset built from the link, the parameters,
    the recalled version and the files has a name, has a body path, body,
    structure, meta, viz or transform unless [Force] is set, opened without
    error, and was saved by [base.SaveDataset] with [Pin] on and the other
    switches as in [p].  [*res] is the reference [base.SaveDataset]
    returned: its [Published] flag is the saved one also when [Publish] is
    set, and its dataset is the saved one unless [ReturnBody] is set.  When
    the reference [Save] worked on had no link, the link of [*res] is the
    saved one; otherwise it is that link, and [PutRef] has stored the
    reference with it. *)
Theorem Save_outcome (w : World) (r : Lib.DatasetRequests) (p : SaveParams)
    (res : DSRef.DatasetRef) :
  Lib.cli r = false →
  let out := Save w r p res in
  (Private p = true → out.1.1 = [] ∧ ∃ e, out.2 = Err e)
  ∧ match out.2 with
    | Err _ => out.1.2 = res
    | Ok _ =>
        ∃ ref0 ref1 ds ref,
          ParseDatasetRef w (Ref p) = Ok ref0
          ∧ (prepare w p ref0 res).2 = Ok (ref1, ds)
          ∧ DS.Name ds ≠ ""
          ∧ (unchanged ds = true → Force p = true)
          ∧ (OpenDataset w ds).2 = None
          ∧ base_SaveDataset w (OpenDataset w ds).1 (Secrets p)
              (ScriptOutput p)
              {| swReplace := Replace p; swDryRun := DryRun p; swPin := true;
                 swConvertFormatToPrev := ConvertFormatToPrev p;
                 swForce := Force p; swShouldRender := ShouldRender p |}
            = Ok ref
          ∧ DSRef.Peername out.1.2 = DSRef.Peername ref
          ∧ DSRef.ProfileID out.1.2 = DSRef.ProfileID ref
          ∧ DSRef.Name out.1.2 = DSRef.Name ref
          ∧ DSRef.Path out.1.2 = DSRef.Path ref
          ∧ DSRef.Published out.1.2 = DSRef.Published ref
          ∧ (ReturnBody p = false → DSRef.Dataset out.1.2 = DSRef.Dataset ref)
          ∧ if bool_decide (DSRef.FSIPath ref1 = "") then
              DSRef.FSIPath out.1.2 = DSRef.FSIPath ref
            else
              DSRef.FSIPath out.1.2 = DSRef.FSIPath ref1
              ∧ PutRef w (DSRef.setFSIPath ref (DSRef.FSIPath ref1)) = None
    end.
Proof.
  intros Hcli. cbn zeta. split.
  { intros Hprivate. unfold Save. rewrite Hcli, Hprivate. cbn. by eauto. }
  destruct (Save_cases w r Hcli p res)
    as [(_ & Hres & e & He)|[(err & ->)|(_ & ref0 & ref1 & ds & Hparse
                                          & Hprepare & Hname & Hforce
                                          & Hopen & Hsave)]].
  - by rewrite He.
  - done.
  - cbn zeta in Hsave. unfold switches in Hsave.
    destruct (base_SaveDataset w _ _ _ _) as [ref|err] eqn:Hsaved;
      [|by rewrite Hsave].
    rewrite Hsave. cbn.
    destruct (finish_spec w r Hcli p (DSRef.FSIPath ref1) ref res)
      as [_ Hfinish].
    destruct (finish w r p (DSRef.FSIPath ref1) ref res) as [[t s] [[]|e]];
      cbn in *; [|done].
    destruct Hfinish as (Hpeer & Hid & Hn & Hpath & Hpub & Hfsi & Hds).
    exists ref0, ref1, ds, ref. by split_and!.
Qed.

Lemma first_only (fn : string) (t : list event) :
  Forall (λ e, isCall fn e = false) (tail t) →
  ∀ t1 e t2,
    t = t1 ++ e :: t2 → isCall fn e = true →
    t1 = [] ∧ Forall (λ e, isCall fn e = false) t2.
Proof.
  intros Hrest [|e1 t1] e t2 ->; cbn in *; [done|].
  intros He. apply Forall_app in Hrest as [_ Hrest].
  apply Forall_cons in Hrest as [Hrest _]. congruence.
Qed.

(** X22: [Save] in this process calls [base.SaveDataset] at most once, and
    when it does, that call is the first thing to leave the process.  A
    reference is put in the repo, a publish status is set and components
    are written to the linked directory only in runs where
    [base.SaveDataset] was called first and returned a reference. *)
Theorem Save_writes_after_saving (w : World) (r : Lib.DatasetRequests)
    (p : SaveParams) (res : DSRef.DatasetRef) :
  Lib.cli r = false →
  let out := Save w r p res in
  (∀ t1 e t2,
     out.1.1 = t1 ++ e :: t2 → isCall "base.SaveDataset" e = true →
     t1 = [] ∧ Forall (λ e, isCall "base.SaveDataset" e = false) t2)
  ∧ ∀ e, e ∈ out.1.1 → saveWrite e = true →
      ∃ ds ref rest,
        base_SaveDataset w ds (Secrets p) (ScriptOutput p) (switches p)
        = Ok ref
        ∧ out.1.1 = EvCall "base.SaveDataset" [AStr (DS.Name ds)] :: rest.
Proof.
  intros Hcli. cbn zeta.
  destruct (Save_cases w r Hcli p res)
    as [(Ht & _)|[(err & ->)|(_ & ref0 & ref1 & ds & _ & _ & Hname
                               & Hforce & Hopen & Hsave)]].
  - rewrite Ht. split.
    + apply first_only. by constructor.
    + intros e He. by apply elem_of_nil in He.
  - cbn. split.
    + apply first_only. by constructor.
    + intros e He Hw. by apply list_elem_of_singleton in He as ->.
  - cbn zeta in Hsave.
    destruct (base_SaveDataset w _ _ _ _) as [ref|err] eqn:Hsaved;
      rewrite Hsave; cbn.
    + destruct (finish_spec w r Hcli p (DSRef.FSIPath ref1) ref res)
        as [Hno _].
      split; [by apply first_only|].
      intros e _ _. by eauto.
    + split; [apply first_only; by repeat constructor|].
      intros e He Hw. apply elem_of_cons in He as [->|He]; [done|].
      by apply list_elem_of_singleton in He as ->.
Qed.

(** Saving alice's linked directory with [Publish] set: the reference handed
    back carries the link and is not marked published. *)
Lemma Save_outcome_demo :
  (Save Scenario.saving Demo.requests Scenario.savePop DSRef.zero).2 = Ok tt
  ∧ DSRef.Published
      (Save Scenario.saving Demo.requests Scenario.savePop DSRef.zero).1.2
    = false
  ∧ DSRef.FSIPath
      (Save Scenario.saving Demo.requests Scenario.savePop DSRef.zero).1.2
    = "/home/alice/pop".
Proof.
  destruct (Save_outcome Scenario.saving Demo.requests Scenario.savePop
              DSRef.zero eq_refl) as [_ Hout].
  assert ((Save Scenario.saving Demo.requests Scenario.savePop
             DSRef.zero).2 = Ok tt) as Hrun by reflexivity.
  rewrite Hrun in Hout.
  destruct Hout as (ref0 & ref1 & ds & ref & _ & _ & _ & _ & _ & Hsaved
                    & _ & _ & _ & _ & Hpub & _ & _).
  split; [exact Hrun|]. split; [|reflexivity].
  rewrite Hpub. cbn in Hsaved. by injection Hsaved as <-.
Defined.

(** In that run the saved reference is put in the repo after the save. *)
Lemma Save_writes_after_saving_demo :
  ∃ ds rest,
    (Save Scenario.saving Demo.requests Scenario.savePop DSRef.zero).1.1
    = EvCall "base.SaveDataset" [AStr (DS.Name ds)] :: rest.
Proof.
  destruct (Save_writes_after_saving Scenario.saving Demo.requests
              Scenario.savePop DSRef.zero eq_refl) as [_ Hwrites].
  destruct (Hwrites (EvCall "Repo.PutRef" [AStr "alice/pop"]))
    as (ds & ref & rest & _ & Ht).
  - apply (list_elem_of_lookup_2 _ 1%nat). reflexivity.
  - reflexivity.
  - by exists ds, rest.
Defined.

End LibSaveProps.

(** ** Package api *)
Module ApiProps.
Import Trace Spec2 Api ApiSpec.

Section RPC.
Variable w : World.

Lemma register_spec (done rcvrs : list string) :
  ∃ k : nat,
    (k ≤ length rcvrs)%nat
    ∧ (∀ (i : nat) rcvr,
         (i < k)%nat → rcvrs !! i = Some rcvr →
         rpc_Register w (done ++ take i rcvrs) rcvr = None)
    ∧ if bool_decide (k < length rcvrs)%nat then
        ∃ rcvr err,
          rcvrs !! k = Some rcvr
          ∧ rpc_Register w (done ++ take k rcvrs) rcvr = Some err
          ∧ register w done rcvrs
            = ((registering <$> take (S k) rcvrs)
               ++ [EvLog ErrorLevel
                     "cannot start RPC: error registering RPC receiver %s: %s"
                     [AStr rcvr; AStr (Error err)]], Some err)
      else register w done rcvrs = (registering <$> rcvrs, None).
Proof.
  revert done. induction rcvrs as [|rcvr rcvrs IH]; intros done; cbn.
  { exists 0%nat. split_and!; [lia| |done]. intros i rcvr Hi. lia. }
  destruct (rpc_Register w done rcvr) as [err|] eqn:Hreg.
  - exists 0%nat. split_and!; [lia| |].
    + intros i rcvr' Hi. lia.
    + rewrite bool_decide_true by lia. exists rcvr, err.
      rewrite app_nil_r. by split_and!.
  - destruct (IH (done ++ [rcvr])) as (k & Hk & Hbefore & Hat).
    exists (S k). split_and!; [lia| |].
    + intros [|i] rcvr' Hi; cbn.
      * intros [= <-]. by rewrite app_nil_r.
      * intros Hrcvr. rewrite cons_middle, (assoc_L (++)).
        apply Hbefore; [lia|done].
    + destruct (decide (k < length rcvrs)%nat) as [Hlt|Hlt].
      * rewrite bool_decide_true in Hat by done.
        rewrite bool_decide_true by lia.
        destruct Hat as (rcvr' & err & Hrcvr & Hfail & ->).
        exists rcvr', err. cbn.
        rewrite cons_middle, (assoc_L (++)). by split_and!.
      * rewrite bool_decide_false in Hat by done.
        rewrite bool_decide_false by lia. by rewrite Hat.
Qed.

End RPC.

(** X24: [MaybeServeRPC] does nothing when RPC is disabled.  Otherwise it
    listens on the loopback address, on the configured port, and nowhere
    else.  When that fails it logs and returns.  Otherwise it registers the
    receivers in order and stops at the first that fails: the ones before
    it are registered, the failure is logged, and the function returns
    without accepting connections and without starting the goroutine that
    would close the listener.  Connections are accepted only when every
    receiver was registered. *)
Theorem MaybeServeRPC_spec (w : World) (s : Server) (rpc : RPC_) :
  RPC (Config s) = Some rpc →
  let address := "127.0.0.1:" +:+ pretty (rpcPort rpc) in
  let listen := EvCall "net.Listen" [AStr "tcp"; AStr address] in
  ∃ t,
    MaybeServeRPC w s = Some t
    ∧ if negb (rpcEnabled rpc) then t = []
      else
        match net_Listen w "tcp" address with
        | Some err =>
            t = [listen;
                 EvCall "log.Infof"
                   [AStr "RPC listen on port %d error: %s";
                    AInt (rpcPort rpc); AErr err]]
        | None =>
            ∃ k : nat,
              (k ≤ length (Receivers w))%nat
              ∧ (∀ (i : nat) rcvr,
                   (i < k)%nat → Receivers w !! i = Some rcvr →
                   rpc_Register w (take i (Receivers w)) rcvr = None)
              ∧ if bool_decide (k < length (Receivers w))%nat then
                  ∃ rcvr err,
                    Receivers w !! k = Some rcvr
                    ∧ rpc_Register w (take k (Receivers w)) rcvr = Some err
                    ∧ t = listen
                          :: (registering <$> take (S k) (Receivers w))
                          ++ [EvLog ErrorLevel
                                ("cannot start RPC: error registering RPC "
                                 +:+ "receiver %s: %s")
                                [AStr rcvr; AStr (Error err)]]
                else
                  t = listen
                      :: (registering <$> Receivers w)
                      ++ [go "<-ctx.Done(); listener.Close()";
                          EvCall "rpc.Accept" [AStr address]]
        end.
Proof.
  intros Hrpc. cbn zeta. unfold MaybeServeRPC. rewrite Hrpc. cbn.
  destruct (rpcEnabled rpc); cbn; [|by eexists].
  change (LocalHostIP +:+ ":" +:+ pretty (rpcPort rpc))
    with ("127.0.0.1:" +:+ pretty (rpcPort rpc)).
  destruct (net_Listen w "tcp" _) as [err|]; [by eexists|].
  destruct (register_spec w [] (Receivers w)) as (k & Hk & Hbefore & Hat).
  destruct (decide (k < length (Receivers w))%nat) as [Hlt|Hlt].
  - rewrite bool_decide_true in Hat by done.
    destruct Hat as (rcvr & err & Hrcvr & Hfail & ->). cbn.
    eexists. split; [done|]. exists k.
    rewrite bool_decide_true by done. split_and!; [done|done|].
    by exists rcvr, err.
  - rewrite bool_decide_false in Hat by done. rewrite Hat. cbn.
    eexists. split; [done|]. exists k.
    rewrite bool_decide_false by done. by split_and!.
Qed.

Lemma substring_all (s : string) :
  String.substring 0 (String.length s) s = s.
Proof. induction s as [|c s IH]; cbn; [done|by rewrite IH]. Qed.

Lemma sliceFrom_ipns (name : string) :
  sliceFrom (String.length "/ipns/") ("/ipns/" +:+ name) = Some name.
Proof.
  unfold sliceFrom, String.append. cbn -[String.length String.substring].
  fold String.append. cbn. by rewrite ?Nat.sub_0_r, substring_all.
Qed.

(** With "peers" refused, only "datasets" and "peers" are tried and no
    connection is accepted. *)
Lemma MaybeServeRPC_spec_demo :
  MaybeServeRPC Scenario.serving Scenario.served
  = Some [EvCall "net.Listen" [AStr "tcp"; AStr "127.0.0.1:2504"];
          registering "datasets"; registering "peers";
          EvLog ErrorLevel
            "cannot start RPC: error registering RPC receiver %s: %s"
            [AStr "peers";
             AStr "rpc: service already defined: PeerRequests"]].
Proof.
  destruct (MaybeServeRPC_spec Scenario.serving Scenario.served
              {| rpcEnabled := true; rpcPort := 2504 |} eq_refl)
    as (t & Ht & _).
  rewrite Ht. vm_compute in Ht. by injection Ht as <-.
Defined.

(** X25: With an API configuration, [HandleIPFSPath] never panics, and
    [HandleIPNSPath] does not on a path that starts with "/ipns/": it
    resolves what follows the prefix.  In read-only mode both answer 403
    with a message that names the endpoint, and ask neither the name system
    nor the store.  A handler that returns has written exactly one
    response, as the last thing it did: an error response or the copy of
    the stored file.  With a name system at hand and outside read-only
    mode, [HandleIPNSPath] panics on a path shorter than the prefix. *)
Theorem handlers_respond_once (w : World) (s : Server) (api : API_)
    (path : string) :
  API (Config s) = Some api →
  (∃ t, HandleIPFSPath w s path = Some t)
  ∧ (∀ name,
       ∃ t, HandleIPNSPath w s ("/ipns/" +:+ name) = Some t
            ∧ (ReadOnly api = false → GetIPFSNamesys w = None →
               EvCall "namesys.Resolve" [AStr name] ∈ t))
  ∧ (ReadOnly api = true →
     HandleIPFSPath w s path
     = Some [WriteErrResponse StatusForbidden
               (Errorf ("qri server is in read-only mode, access to "
                        +:+ "'/ipfs/' endpoint is forbidden"))]
     ∧ HandleIPNSPath w s path
       = Some [WriteErrResponse StatusForbidden
                 (Errorf ("qri server is in read-only mode, access to "
                          +:+ "'/ipns/' endpoint is forbidden"))])
  ∧ (∀ t,
       HandleIPFSPath w s path = Some t ∨ HandleIPNSPath w s path = Some t →
       ∃ before e,
         t = before ++ [e] ∧ responds e = true
         ∧ Forall (λ e, responds e = false) before)
  ∧ (ReadOnly api = false → GetIPFSNamesys w = None →
     (String.length path < 6)%nat → HandleIPNSPath w s path = None).
Proof.
  intros Hapi. unfold HandleIPFSPath, HandleIPNSPath. rewrite Hapi. cbn.
  assert (∀ p, ∃ e, fetchCAFSPath w p = [EvCall "Store.Get" [AStr p]; e]
                    ∧ responds e = true) as Hfetch.
  { intros p. unfold fetchCAFSPath.
    destruct (Store_Get w p); by eexists. }
  split_and!.
  - destruct (ReadOnly api); by eexists.
  - intros name. rewrite sliceFrom_ipns. cbn.
    destruct (ReadOnly api); [by eexists|].
    destruct (GetIPFSNamesys w) as [err|]; [by eexists|].
    destruct (namesys_Resolve w name) as [p|err];
      (eexists; split; [done|]); intros _ _;
      apply (list_elem_of_lookup_2 _ 1%nat); reflexivity.
  - by intros ->.
  - intros t [Ht|Ht].
    + destruct (ReadOnly api); injection Ht as <-.
      * by exists [], (WriteErrResponse StatusForbidden
                        (Errorf ("qri server is in read-only mode, access to "
                                 +:+ "'/ipfs/' endpoint is forbidden"))).
      * destruct (Hfetch path) as (e & -> & He).
        exists [EvCall "Store.Get" [AStr path]], e.
        split_and!; [done|done|by repeat constructor].
    + destruct (ReadOnly api); [injection Ht as <-|].
      * by exists [], (WriteErrResponse StatusForbidden
                        (Errorf ("qri server is in read-only mode, access to "
                                 +:+ "'/ipns/' endpoint is forbidden"))).
      * destruct (GetIPFSNamesys w) as [err|]; [injection Ht as <-|].
        { eexists [_], _. split_and!; [done|done|by repeat constructor]. }
        destruct (sliceFrom _ path) as [name|]; [|done]. cbn in Ht.
        destruct (namesys_Resolve w name) as [p|err]; injection Ht as <-.
        -- destruct (Hfetch p) as (e & -> & He).
           eexists [_; _; _], e.
           split_and!; [done|done|by repeat constructor].
        -- eexists [_; _], _.
           split_and!; [done|done|by repeat constructor].
  - intros -> -> Hshort. unfold sliceFrom.
    change (String.length "/ipns/") with 6%nat.
    apply Nat.ltb_lt in Hshort. by rewrite Hshort.
Qed.

(** A name that resolves is answered with the stored file. *)
Lemma handlers_respond_once_demo :
  HandleIPNSPath Scenario.serving Scenario.served "/ipns/alice.example"
  = Some [EvCall "node.GetIPFSNamesys" [];
          EvCall "namesys.Resolve" [AStr "alice.example"];
          EvCall "Store.Get" [AStr "/ipfs/QmPopV1"];
          EvCall "io.Copy" [AStr "dataset.json"]].
Proof.
  destruct (handlers_respond_once Scenario.serving Scenario.served
              {| Enabled := true; ReadOnly := false;
                 WebsocketEnabled := true; WebsocketPort := 2506;
                 DisconnectAfter := 0 |} "/ipns/alice.example" eq_refl)
    as (_ & Hipns & _).
  destruct (Hipns "alice.example") as (t & Ht & _).
  change ("/ipns/" +:+ "alice.example") with "/ipns/alice.example" in Ht.
  rewrite Ht. vm_compute in Ht. by injection Ht as <-.
Defined.

Section Websocket.
Variable w : World.

Lemma fsiPaths_spec (paths : list string) (refs : list DSRef.DatasetRef) :
  fsiPaths paths refs
  = paths ++ filter (λ path, path ≠ "") (DSRef.FSIPath <$> refs).
Proof.
  revert paths. induction refs as [|ref refs IH]; intros paths.
  { cbn. by rewrite app_nil_r. }
  cbn [fsiPaths]. rewrite fmap_cons. case_bool_decide as Hlink.
  - rewrite IH, filter_cons_True by done. by rewrite <- (assoc_L (++)).
  - rewrite IH. by rewrite filter_cons_False by tauto.
Qed.

Lemma writeAll_writes (k : Z) (connections : list string)
    (e : FilesysEvent) :
  filter (λ ev, isCall "wsjson.Write" ev = true) (writeAll w k connections e)
  = writing w e <$> connections.
Proof.
  revert k. induction connections as [|c connections IH]; intros k;
    [done|].
  cbn [writeAll]. rewrite fmap_cons, filter_cons_True by done. f_equal.
  rewrite filter_app, IH.
  destruct (wsjson_Write w c e); [|done].
  by rewrite filter_cons_False by done.
Qed.

Lemma writeAll_logs (k : Z) (connections : list string) (e : FilesysEvent)
    (i : nat) (c : string) (err : error) :
  connections !! i = Some c → wsjson_Write w c e = Some err →
  EvLog ErrorLevel "connection %d: wsjson write error: %s"
    [AInt (k + Z.of_nat i); AErr err] ∈ writeAll w k connections e.
Proof.
  revert k i. induction connections as [|c' connections IH]; intros k i;
    [done|].
  destruct i as [|i].
  - cbn. intros [= ->] ->. rewrite Z.add_0_r.
    apply elem_of_cons. right. apply elem_of_cons. by left.
  - intros Hc Herr. cbn in Hc. cbn [writeAll].
    apply elem_of_cons. right. apply elem_of_app. right.
    replace (k + Z.of_nat (S i))%Z with (k + 1 + Z.of_nat i)%Z by lia.
    by apply IH.
Qed.

Lemma exchange_app (connections : list string) (pre post : list input) :
  exchange w connections (pre ++ post)
  = exchange w connections pre
    ++ exchange w (connections ++ accepted pre) post.
Proof.
  revert connections. induction pre as [|[[c|err]|e] pre IH];
    intros connections; cbn.
  - by rewrite app_nil_r.
  - rewrite IH. by rewrite <- (assoc_L (++) connections [c]).
  - by rewrite IH.
  - by rewrite IH, (assoc_L (++)).
Qed.

End Websocket.

(** X26: A filesystem event reaches every websocket connection.  A round of
    the forwarding loop writes an event whose source is a known filename
    once to each connection collected so far, in the order they were
    accepted, whether or not earlier writes fail; a failed write is logged
    with the index of its connection.  An event with another source is
    written to no connection.  A failed upgrade adds no connection, so
    that, however upgrades and events alternate, an event is forwarded to
    the connections accepted before it. *)
Theorem forward_reaches_all (w : World) (connections : list string)
    (e : FilesysEvent) :
  (filterEvent w e = false → forward w connections e = [])
  ∧ (filterEvent w e = true →
     filter (λ ev, isCall "wsjson.Write" ev = true) (forward w connections e)
     = writing w e <$> connections
     ∧ ∀ (i : nat) c err,
         connections !! i = Some c → wsjson_Write w c e = Some err →
         EvLog ErrorLevel "connection %d: wsjson write error: %s"
           [AInt (Z.of_nat i); AErr err] ∈ forward w connections e)
  ∧ ∀ pre post,
      exchange w connections (pre ++ Message e :: post)
      = exchange w connections pre
        ++ forward w (connections ++ accepted pre) e
        ++ exchange w (connections ++ accepted pre) post.
Proof.
  split_and!.
  - unfold forward. by intros ->.
  - unfold forward. intros ->. split.
    + rewrite filter_cons_False by done. apply writeAll_writes.
    + intros i c err Hc Herr. apply elem_of_cons. right.
      by apply (writeAll_logs w 0 connections e i c err).
  - intros pre post. by rewrite exchange_app.
Qed.

(** X27: [MaybeServeWebsocket] does nothing unless the API configuration is
    there, enabled, and enables the websocket.  Otherwise it reads the
    first 100 references of the repo; when that fails it logs and starts
    nothing; when it succeeds it begins to watch the linked directories of
    those references, each non-empty [FSIPath] in the order of the
    references, and only then starts the goroutine that serves the
    websocket.  That goroutine listens on the loopback address, on the
    websocket port; when listening fails it serves nothing; otherwise it
    serves, and on its way out closes the server and then the listener. *)
Theorem websocket_watches (w : World) (s : Server) :
  let t := MaybeServeWebsocket w s in
  let on :=
    match API (Config s) with
    | Some api => Enabled api && WebsocketEnabled api
    | None => false
    end in
  (on = false → t = [])
  ∧ (on = true →
     match References w 0 100 with
     | Err err =>
         t = [EvCall "log.Infof"
                [AStr "Watching filesystem error: %s"; AErr err]]
     | Ok refs =>
         t = [EvCall "Watcher.Begin"
                (AStr <$> filter (λ path, path ≠ "")
                            (DSRef.FSIPath <$> refs));
              go "serve the websocket"]
     end)
  ∧ ∀ api,
      let address := "127.0.0.1:" +:+ pretty (WebsocketPort api) in
      let t := serveWebsocket w api in
      head t = Some (EvCall "net.Listen" [AStr "tcp"; AStr address])
      ∧ match net_Listen w "tcp" address with
        | Some _ => Forall (λ e, isCall "srv.Serve" e = false) t
        | None =>
            ∃ before,
              t = before ++ [EvCall "srv.Close" [];
                             EvCall "l.Close" [AStr address]]
              ∧ EvCall "srv.Serve" [AStr address] ∈ before
        end.
Proof.
  cbn zeta. unfold MaybeServeWebsocket, startFilesysWatcher. split_and!.
  - destruct (API (Config s)) as [api|]; [|done].
    destruct (Enabled api), (WebsocketEnabled api); cbn; by intros.
  - destruct (API (Config s)) as [api|]; [|done].
    destruct (Enabled api), (WebsocketEnabled api); cbn; try done.
    intros _. destruct (References w 0 100) as [refs|err]; cbn; [|done].
    by rewrite fsiPaths_spec.
  - intros api. unfold serveWebsocket.
    change (LocalHostIP +:+ ":" +:+ pretty (WebsocketPort api))
      with ("127.0.0.1:" +:+ pretty (WebsocketPort api)).
    destruct (net_Listen w "tcp" _) as [err|].
    + split; [done|]. by repeat constructor.
    + split; [done|].
      destruct (srv_Serve w).2.
      * eexists [_; _; _]. split; [done|].
        apply (list_elem_of_lookup_2 _ 2%nat). reflexivity.
      * eexists [_; _; _; _]. split; [done|].
        apply (list_elem_of_lookup_2 _ 2%nat). reflexivity.
Qed.

Section Routes.
Variable w : World.
Variable s : Server.
Variable api : API_.
Hypothesis Hapi : API (Config s) = Some api.

(** The routes, once the configuration is known to have an API section. *)
Lemma NewServerRoutes_ok :
  ∃ m,
    NewServerRoutes s
    = Some (if remoteMode (Config s)
            then [EvCall "log.Info" [AStr "running in `remote` mode"]]
            else [], m)
    ∧ NoDup m.*1
    ∧ last m.*1 = Some "/"
    ∧ length m = (if remoteMode (Config s) then 45 else 42)%nat
    ∧ Forall (λ route, Forall (λ flag, flag = ReadOnly api)
                         (handlerFlags route.2)) m
    ∧ Forall (λ route, wrapped route.2 = true) m
    ∧ Forall (λ pattern, pattern ∈ m.*1 ↔ remoteMode (Config s) = true)
        ["/remote/dsync"; "/remote/logsync"; "/remote/refs"].
Proof.
  unfold NewServerRoutes. rewrite Hapi.
  destruct (remoteMode (Config s)), (ReadOnly api) eqn:Hro; cbn;
    rewrite ?Hro; (eexists; split; [reflexivity|]); split_and!.
  all: try reflexivity.
  all: try by (apply (bool_decide_unpack _); vm_compute).
  all: repeat (apply Forall_cons_2; [|]); [..|apply Forall_nil_2].
  all: try by (split; [done|intros _];
               apply (bool_decide_unpack _); vm_compute).
  all: split; [|done].
  all: by (apply (bool_decide_unpack (_ ∉ _)); vm_compute).
Qed.

End Routes.

(** X28: Without an API section in the configuration [NewServerRoutes]
    panics.  With one it does not: no pattern is registered twice.  It
    registers 42 patterns, and the three under "/remote/" in addition
    exactly when the configuration has a remote section that is enabled,
    which it logs.  The last pattern registered is "/".  Every handler is
    wrapped in the middleware of the server, and every set of handlers that
    takes a read-only flag is given the one of the API section. *)
Theorem NewServerRoutes_registers (s : Server) :
  match API (Config s) with
  | None => NewServerRoutes s = None
  | Some api =>
      ∃ m,
        NewServerRoutes s
        = Some (if remoteMode (Config s)
                then [EvCall "log.Info" [AStr "running in `remote` mode"]]
                else [], m)
        ∧ NoDup m.*1
        ∧ last m.*1 = Some "/"
        ∧ length m = (if remoteMode (Config s) then 45 else 42)%nat
        ∧ Forall (λ route, Forall (λ flag, flag = ReadOnly api)
                             (handlerFlags route.2)) m
        ∧ Forall (λ route, wrapped route.2 = true) m
        ∧ Forall (λ pattern, pattern ∈ m.*1 ↔ remoteMode (Config s) = true)
            ["/remote/dsync"; "/remote/logsync"; "/remote/refs"]
  end.
Proof.
  destruct (API (Config s)) as [api|] eqn:Hapi.
  - by apply NewServerRoutes_ok.
  - unfold NewServerRoutes. by rewrite Hapi.
Qed.

Lemma append_assoc (a b c : string) : (a +:+ b) +:+ c = a +:+ b +:+ c.
Proof.
  induction a as [|x a IH]; [done|].
  unfold String.append in *. cbn. fold String.append in *. by rewrite IH.
Qed.

Lemma append_nil_r (a : string) : a +:+ "" = a.
Proof.
  induction a as [|x a IH]; [done|].
  unfold String.append in *. cbn. fold String.append in *. by rewrite IH.
Qed.

Lemma addresses_spec (info : string) (addrs : list string) :
  addresses info addrs = info +:+ addressLines addrs.
Proof.
  revert info. induction addrs as [|a addrs IH]; intros info; cbn.
  { by rewrite append_nil_r. }
  by rewrite IH, !append_assoc.
Qed.

(** X29: [Serve] panics without an API section, before it starts anything.
    With one, it builds the routes and starts the RPC and the websocket
    goroutines.  With P2P enabled it then connects, and returns the error
    of a failed connect at once: nothing is printed and the HTTP server is
    not started, though the two goroutines are running.  Otherwise it
    prints the info once: the banner with the version, the summary of the
    configuration and, with P2P enabled, a line for each address of the
    node.  It arms the disconnect timer only for a [DisconnectAfter] other
    than 0, starts the goroutine that closes the server when the context
    ends, and returns what [StartServer] returns for the routes. *)
Theorem Serve_spec (w : World) (s : Server) :
  (API (Config s) = None → Serve w s = None)
  ∧ ∀ api,
      API (Config s) = Some api →
      let p2p :=
        match P2P (Config s) with
        | Some p2p => p2pEnabled p2p
        | None => false
        end in
      ∃ routes m,
        NewServerRoutes s = Some (routes, m)
        ∧ let started :=
            routes ++ [go "s.MaybeServeRPC"; go "s.MaybeServeWebsocket"] in
          match (if p2p then Connect w else None) with
          | Some err =>
              Serve w s
              = Some (started ++ [EvCall "Instance.Connect" []], Some err)
          | None =>
              let info :=
                banner w +:+ SummaryString w
                +:+ (if p2p then
                       "IPFS Addresses:"
                       +:+ addressLines (EncapsulatedAddresses w)
                     else "")
                +:+ newline +:+ newline in
              Serve w s
              = Some (started
                      ++ (if p2p then [EvCall "Instance.Connect" []] else [])
                      ++ [EvCall "LocalStreams.Print" [AStr info]]
                      ++ (if bool_decide (DisconnectAfter api ≠ 0%Z) then
                            [EvCall "log.Infof"
                               [AStr "disconnecting after %d seconds";
                                AInt (DisconnectAfter api)];
                             go "<-time.After(t); server.Close()"]
                          else [])
                      ++ [go "<-ctx.Done(); server.Close()";
                          EvCall "StartServer" []],
                      StartServer w api m)
          end.
Proof.
  split.
  { intros Hapi. unfold Serve, NewServerRoutes. by rewrite Hapi. }
  intros api Hapi. cbn zeta.
  destruct (NewServerRoutes_ok s api Hapi) as (m & Hroutes & _).
  eexists _, m. split; [exact Hroutes|].
  unfold Serve. rewrite Hroutes. cbn -[String.append]. rewrite Hapi.
  cbn -[String.append]. fold (banner w).
  destruct (match P2P (Config s) with
            | Some p2p => p2pEnabled p2p
            | None => false
            end).
  - destruct (Connect w) as [err|]; [done|].
    rewrite addresses_spec, !append_assoc.
    case_bool_decide; by rewrite <- !(assoc_L (++)).
  - rewrite !append_assoc.
    case_bool_decide; by rewrite <- ?(assoc_L (++)), ?app_nil_r.
Qed.

End ApiProps.
